(** * Mesh file I/O (PLY / OBJ) and camera rig constants

    A shallow embedding of [hifi3dface/third_party/ply.py] and of
    [src/camera/setup_single_camera.py], with the properties the
    specification states about them.

    Conventions.
    - A Python [bytes] object and a Python [str] are both embedded as a
      Rocq [string] (a sequence of 8-bit characters); a [str] is
      represented by its UTF-8 encoding, which [decode] validates.
    - A raised exception is the [Err] branch of [result].
    - A numeric cell of an array or of a data frame is a [Z]: the integer
      itself for integer kinds, the IEEE-754 bit pattern for float kinds
      (the code only moves floats around, it never computes with them).
    - The file system is a finite map from paths to contents; arrays
      handed to the writers are in the byte order of the machine. *)

From Stdlib Require Import ZArith List Ascii String DecimalString DecimalPos Lia Bool QArith Qabs.
From stdpp Require Import gmap strings list.

Local Open Scope string_scope.
Local Open Scope Z_scope.

(** ** Exceptions and the error monad *)

Inductive exn : Type :=
  | ValueError (msg : string)
  | KeyError (key : string)
  | IndexError
  | NameError (var : string)
  | TypeError
  | UnicodeDecodeError
  | AttributeError (attr : string)
  | FileNotFoundError (path : string)
  | IOError (msg : string)
  | OverflowError.

Inductive result (A : Type) : Type :=
  | Ok (a : A)
  | Err (e : exn).
Arguments Ok {A} a.
Arguments Err {A} e.

Definition bind {A B} (r : result A) (k : A -> result B) : result B :=
  match r with
  | Ok a => k a
  | Err e => Err e
  end.

Notation "'let*' x ':=' r 'in' k" := (bind r (fun x => k))
  (at level 10, x pattern, r at level 100, k at level 200).

Definition is_Err {A} (r : result A) : Prop := exists e, r = Err e.
Definition is_Ok {A} (r : result A) : Prop := exists a, r = Ok a.

Definition of_option {A} (o : option A) (e : exn) : result A :=
  match o with
  | Some a => Ok a
  | None => Err e
  end.

(** ** Python built-ins on [bytes] and [str] *)

Module Py.

Definition code (c : ascii) : N := N_of_ascii c.

(** [sub in s] for bytes and for str. *)
Fixpoint contains (sub s : string) : bool :=
  String.prefix sub s ||
  match s with
  | EmptyString => false
  | String _ s' => contains sub s'
  end.

Definition startswith (s pre : string) : bool := String.prefix pre s.

Fixpoint drop (n : nat) (s : string) : string :=
  match n, s with
  | O, _ => s
  | S k, EmptyString => EmptyString
  | S k, String _ s' => drop k s'
  end.

Fixpoint take (n : nat) (s : string) : string :=
  match n, s with
  | O, _ => EmptyString
  | S k, EmptyString => EmptyString
  | S k, String c s' => String c (take k s')
  end.

Definition endswith (s suf : string) : bool :=
  (String.length suf <=? String.length s)%nat &&
  String.eqb (drop (String.length s - String.length suf) s) suf.

(** ASCII whitespace, the separators of [bytes.split()]. *)
Definition is_space (c : ascii) : bool :=
  let n := code c in
  (N.eqb n 32 || ((9 <=? n) && (n <=? 13)))%N.

(** [s.split()]: maximal runs of non-whitespace characters. [cur] is the
    token being read, in reverse. *)
Fixpoint split_aux (s : string) (cur : list ascii) : list string :=
  let flush (rest : list string) :=
    match cur with
    | [] => rest
    | _ => string_of_list_ascii (rev cur) :: rest
    end in
  match s with
  | EmptyString => flush []
  | String c s' =>
      if is_space c then flush (split_aux s' [])
      else split_aux s' (c :: cur)
  end.

Definition split (s : string) : list string := split_aux s [].

(** [s.split(sep)] for a one-character separator: never empty, empty
    fields are kept. *)
Fixpoint split_on_aux (sep : ascii) (s : string) (cur : list ascii) : list string :=
  match s with
  | EmptyString => [string_of_list_ascii (rev cur)]
  | String c s' =>
      if Ascii.eqb c sep then string_of_list_ascii (rev cur) :: split_on_aux sep s' []
      else split_on_aux sep s' (c :: cur)
  end.

Definition split_on (sep : ascii) (s : string) : list string := split_on_aux sep s [].

(** The lines a sequence of [readline()] calls returns, each with its
    terminating newline (the last one may lack it). *)
Fixpoint lines_aux (s : string) (cur : list ascii) : list string :=
  match s with
  | EmptyString =>
      match cur with
      | [] => []
      | _ => [string_of_list_ascii (rev cur)]
      end
  | String c s' =>
      if Ascii.eqb c "010" then string_of_list_ascii (rev (c :: cur)) :: lines_aux s' []
      else lines_aux s' (c :: cur)
  end.

Definition readlines (s : string) : list string := lines_aux s [].

(** [l[i]], raising [IndexError] out of range. *)
Definition index {A} (l : list A) (i : nat) : result A :=
  of_option (nth_error l i) IndexError.

(** [str(n)] for an integer. *)
Definition str (z : Z) : string := NilZero.string_of_int (Z.to_int z).

Definition is_digit (c : ascii) : bool := ((48 <=? code c) && (code c <=? 57))%N.

(** Decimal digits with single underscores between digits, as [int()]
    accepts them. [prev] tells whether the previous character was a digit. *)
Fixpoint digits (s : string) (acc : Z) (prev : bool) : option Z :=
  match s with
  | EmptyString => if prev then Some acc else None
  | String c s' =>
      if is_digit c then digits s' (10 * acc + (Z.of_N (code c) - 48)) true
      else if Ascii.eqb c "_" then (if prev then digits s' acc false else None)
      else None
  end.

(** [int(tok)] for a whitespace-free token. *)
Definition int (tok : string) : result Z :=
  let bad := ValueError "invalid literal for int() with base 10" in
  match tok with
  | String "+" r => of_option (digits r 0 false) bad
  | String "-" r => of_option (option_map Z.opp (digits r 0 false)) bad
  | _ => of_option (digits tok 0 false) bad
  end.

(** Strict UTF-8 validation. [need] continuation bytes are still due and
    the next one must lie in [lo..hi]. *)
Fixpoint utf8_ok (s : string) (need : nat) (lo hi : N) : bool :=
  match s with
  | EmptyString => Nat.eqb need 0
  | String c r =>
      let b := code c in
      match need with
      | O =>
          if (b <? 128)%N then utf8_ok r 0 0 0
          else if ((194 <=? b) && (b <=? 223))%N then utf8_ok r 1 128 191
          else if (b =? 224)%N then utf8_ok r 2 160 191
          else if (b =? 237)%N then utf8_ok r 2 128 159
          else if ((225 <=? b) && (b <=? 239))%N then utf8_ok r 2 128 191
          else if (b =? 240)%N then utf8_ok r 3 144 191
          else if ((241 <=? b) && (b <=? 243))%N then utf8_ok r 3 128 191
          else if (b =? 244)%N then utf8_ok r 3 128 143
          else false
      | S k =>
          if ((lo <=? b) && (b <=? hi))%N then utf8_ok r k 128 191 else false
      end
  end.

(** [b.decode()]. *)
Definition decode (b : string) : result string :=
  if utf8_ok b 0 0 0 then Ok b else Err UnicodeDecodeError.

(** [dict(pairs)]: a later pair overrides an earlier one with the same key. *)
Definition dict {V} (pairs : list (string * V)) : gmap string V :=
  fold_left (fun m kv => <[kv.1 := kv.2]> m) pairs ∅.

(** [d[k]], raising [KeyError]. *)
Definition getitem {V} (d : gmap string V) (k : string) : result V :=
  of_option (d !! k) (KeyError k).

End Py.

(** ** NumPy: dtypes, packed records, [tofile] and [fromfile] *)

Module Np.

Inductive kind : Type := Kf | Ki | Ku | Kb | KO.

Record dtype : Type := Dtype { dt_kind : kind; dt_size : nat }.

Definition float32 := Dtype Kf 4.
Definition float64 := Dtype Kf 8.
Definition int32 := Dtype Ki 4.
Definition int64 := Dtype Ki 8.
Definition uint8 := Dtype Ku 1.
Definition object := Dtype KO 8.

Definition kind_eqb (a b : kind) : bool :=
  match a, b with
  | Kf, Kf | Ki, Ki | Ku, Ku | Kb, Kb | KO, KO => true
  | _, _ => false
  end.

Definition dtype_eqb (a b : dtype) : bool :=
  kind_eqb (dt_kind a) (dt_kind b) && Nat.eqb (dt_size a) (dt_size b).

(** [str(dtype)], e.g. float64, int32, uint8, bool, object. *)
Definition dtype_str (d : dtype) : string :=
  let bits := Py.str (8 * Z.of_nat (dt_size d)) in
  match dt_kind d with
  | Kf => "float" +:+ bits
  | Ki => "int" +:+ bits
  | Ku => "uint" +:+ bits
  | Kb => "bool"
  | KO => "object"
  end.

Inductive byteorder : Type := Little | Big.

Definition byteorder_eqb (a b : byteorder) : bool :=
  match a, b with
  | Little, Little | Big, Big => true
  | _, _ => false
  end.

Definition byte (z : Z) : ascii := ascii_of_N (Z.to_N (z mod 256)).

Fixpoint le_bytes (n : nat) (z : Z) : string :=
  match n with
  | O => EmptyString
  | S k => String (byte z) (le_bytes k (z / 256))
  end.

Fixpoint be_bytes (n : nat) (z : Z) : string :=
  match n with
  | O => EmptyString
  | S k => String (byte (z / 256 ^ Z.of_nat k)) (be_bytes k z)
  end.

Definition to_bytes (bo : byteorder) (n : nat) (z : Z) : string :=
  match bo with
  | Little => le_bytes n z
  | Big => be_bytes n z
  end.

Fixpoint le_value (s : string) : Z :=
  match s with
  | EmptyString => 0
  | String c r => Z.of_N (Py.code c) + 256 * le_value r
  end.

Fixpoint be_value (s : string) (acc : Z) : Z :=
  match s with
  | EmptyString => acc
  | String c r => be_value r (256 * acc + Z.of_N (Py.code c))
  end.

Definition unsigned_value (bo : byteorder) (s : string) : Z :=
  match bo with
  | Little => le_value s
  | Big => be_value s 0
  end.

(** The cell a field's bytes denote: two's complement for signed
    integers, the raw bit pattern otherwise. *)
Definition of_bytes (bo : byteorder) (d : dtype) (s : string) : Z :=
  let u := unsigned_value bo s in
  match dt_kind d with
  | Ki =>
      let m := 256 ^ Z.of_nat (dt_size d) in
      if 2 * u <? m then u else u - m
  | _ => u
  end.

Definition srev (s : string) : string :=
  string_of_list_ascii (rev (list_ascii_of_string s)).

(** A two-dimensional array as the callers pass it. *)
Record ndarray : Type := NdArray {
  nd_dtype : dtype;
  nd_ncols : nat;
  nd_rows : list (list Z)
}.

(** One field of a structured dtype. *)
Record field : Type := Field {
  f_name : string;
  f_order : byteorder;
  f_dtype : dtype
}.

(** A record array in memory: per record, the raw bytes of each field. *)
Record recarray : Type := RecArray {
  ra_fields : list field;
  ra_data : list (list string)
}.

(** The type codes [np.dtype] is given here: an optional byte-order
    mark, a kind letter and a size. *)
Definition parse_kind_size (s : string) : option dtype :=
  match s with
  | "i1" => Some (Dtype Ki 1) | "i2" => Some (Dtype Ki 2)
  | "i4" => Some (Dtype Ki 4) | "i8" => Some (Dtype Ki 8)
  | "u1" => Some (Dtype Ku 1) | "u2" => Some (Dtype Ku 2)
  | "u4" => Some (Dtype Ku 4) | "u8" => Some (Dtype Ku 8)
  | "f2" => Some (Dtype Kf 2) | "f4" => Some (Dtype Kf 4)
  | "f8" => Some (Dtype Kf 8)
  | "b1" => Some (Dtype Kb 1)
  | _ => None
  end.

Definition parse_code (native : byteorder) (s : string) : result (byteorder * dtype) :=
  let bad := TypeError in
  match s with
  | String "<" r => let* d := of_option (parse_kind_size r) bad in Ok (Little, d)
  | String ">" r => let* d := of_option (parse_kind_size r) bad in Ok (Big, d)
  | _ => let* d := of_option (parse_kind_size s) bad in Ok (native, d)
  end.

Fixpoint has_dup (names : list string) : bool :=
  match names with
  | [] => false
  | n :: r => existsb (String.eqb n) r || has_dup r
  end.

Fixpoint parse_fields (native : byteorder) (spec : list (string * string)) : result (list field) :=
  match spec with
  | [] => Ok []
  | (n, c) :: r =>
      let* od := parse_code native c in
      let* fs := parse_fields native r in
      Ok (Field n (fst od) (snd od) :: fs)
  end.

(** [np.dtype(spec)] for a list of (name, code) pairs. *)
Definition dtype_of_list (native : byteorder) (spec : list (string * string)) : result (list field) :=
  let* fs := parse_fields native spec in
  if has_dup (map f_name fs) then Err (ValueError "field occurs more than once")
  else Ok fs.

Definition record_size (fs : list field) : nat :=
  fold_right (fun f acc => (dt_size (f_dtype f) + acc)%nat) 0%nat fs.

(** Cut one record into its fields. *)
Fixpoint split_record (fs : list field) (s : string) : list string :=
  match fs with
  | [] => []
  | f :: r => Py.take (dt_size (f_dtype f)) s :: split_record r (Py.drop (dt_size (f_dtype f)) s)
  end.

Fixpoint read_records (fs : list field) (n : nat) (s : string) : list (list string) :=
  match n with
  | O => []
  | S k => split_record fs s :: read_records fs k (Py.drop (record_size fs) s)
  end.

(** The range of a C [ssize_t], which [np.fromfile] parses [count] as. *)
Definition ssize_max : Z := 2 ^ 63 - 1.
Definition ssize_min : Z := - 2 ^ 63.

(** [np.fromfile(f, dtype=spec, count=count)] on a file whose unread part
    is [s] (NumPy 1.26); returns the array and the unread part left.
    - The dtype is converted first, then the count: [None] raises
      [TypeError], a count outside [ssize_t] raises [OverflowError]. No
      file holds 2^63 records, so a count that the file can serve is in
      range, and the upper test is made of the counts the file cannot
      serve.
    - A record of size 0 (a dtype of no field) reads nothing: the array
      has [count] empty records, and a negative count is refused.
    - Otherwise a short file gives a short array, silently, and a
      negative count reads every whole record.
    The buffer for the records asked for is taken to fit in memory. *)
Definition fromfile (native : byteorder) (s : string) (spec : list (string * string))
    (count : option Z) : result (recarray * string) :=
  let* fs := dtype_of_list native spec in
  let* cnt := of_option count TypeError in
  let size := record_size fs in
  let avail := (String.length s / size)%nat in
  if (cnt <? ssize_min) || ((ssize_max <? cnt) && (Z.of_nat avail <? cnt))
  then Err OverflowError else
  if Nat.eqb size 0 then
    if cnt <? 0 then Err (ValueError "negative dimensions are not allowed")
    else Ok (RecArray fs (repeat [] (Z.to_nat cnt)), s)
  else
  let n := if cnt <? 0 then avail else Nat.min (Z.to_nat cnt) avail in
  let rest :=
    if (cnt <? 0) || (cnt <=? Z.of_nat avail) then Py.drop (n * size) s
    else EmptyString in
  Ok (RecArray fs (read_records fs n s), rest).

(** [a.byteswap()]: reverse the bytes of every field in memory. *)
Definition byteswap (a : recarray) : recarray :=
  RecArray (ra_fields a) (map (map srev) (ra_data a)).

Definition flip (bo : byteorder) : byteorder :=
  match bo with
  | Little => Big
  | Big => Little
  end.

(** [a.newbyteorder()]: same memory, every field read the other way. *)
Definition newbyteorder (a : recarray) : recarray :=
  RecArray (map (fun f => Field (f_name f) (flip (f_order f)) (f_dtype f)) (ra_fields a))
           (ra_data a).

(** The cells of one record. *)
Fixpoint record_values (fs : list field) (r : list string) : list Z :=
  match fs, r with
  | f :: fs', b :: r' => of_bytes (f_order f) (f_dtype f) b :: record_values fs' r'
  | _, _ => []
  end.

(** ** IEEE-754 reading of a float cell, for numerical comparison *)

Inductive num : Type := Finite (q : Q) | PInf | NInf | NaN.

Definition float_num (ebits mbits : Z) (bits : Z) : num :=
  let m := bits mod 2 ^ mbits in
  let e := (bits / 2 ^ mbits) mod 2 ^ ebits in
  let neg := Z.odd (bits / 2 ^ (ebits + mbits)) in
  let bias := 2 ^ (ebits - 1) - 1 in
  if e =? 2 ^ ebits - 1 then
    (if m =? 0 then (if neg then NInf else PInf) else NaN)
  else
    let mant := if e =? 0 then m else 2 ^ mbits + m in
    let ex := (if e =? 0 then 1 else e) - bias - mbits in
    let q := (Qmake mant 1 * Qpower (Qmake 2 1) ex)%Q in
    Finite (if neg then Qopp q else q).

Definition cell_num (d : dtype) (z : Z) : num :=
  match dt_kind d, dt_size d with
  | Kf, 2%nat => float_num 5 10 z
  | Kf, 4%nat => float_num 8 23 z
  | Kf, 8%nat => float_num 11 52 z
  | _, _ => Finite (Qmake z 1)
  end.

(** [a == b] on two numbers. *)
Definition num_eqb (a b : num) : bool :=
  match a, b with
  | Finite p, Finite q => Qeq_bool p q
  | PInf, PInf | NInf, NInf => true
  | _, _ => false
  end.

End Np.

(** ** pandas: data frames *)

Module Pd.

(** A data frame: typed, named columns and the rows of cells. *)
Record DataFrame : Type := Frame {
  columns : list (string * Np.dtype);
  rows : list (list Z)
}.

Definition names (df : DataFrame) : list string := map fst (columns df).

(** [len(df)]. *)
Definition len (df : DataFrame) : Z := Z.of_nat (length (rows df)).

(** [pd.DataFrame(data, columns=cols)] for [data] a two-dimensional array
    or [None]. [None] gives an empty frame of object columns. *)
Definition of_array (data : option Np.ndarray) (cols : list string) : result DataFrame :=
  match data with
  | None => Ok (Frame (map (fun n => (n, Np.object)) cols) [])
  | Some a =>
      if Nat.eqb (Np.nd_ncols a) (length cols)
      then Ok (Frame (map (fun n => (n, Np.nd_dtype a)) cols) (Np.nd_rows a))
      else Err (ValueError "Shape of passed values does not match the columns")
  end.

(** [pd.DataFrame(a)] for a record array. *)
Definition of_records (a : Np.recarray) : DataFrame :=
  Frame (map (fun f => (Np.f_name f, Np.f_dtype f)) (Np.ra_fields a))
        (map (Np.record_values (Np.ra_fields a)) (Np.ra_data a)).

(** Keep the entries of [l] whose column label is not [name]. *)
Fixpoint without {A} (name : string) (labels : list string) (l : list A) : list A :=
  match labels, l with
  | n :: labels', x :: l' =>
      if String.eqb n name then without name labels' l' else x :: without name labels' l'
  | _, _ => []
  end.

(** [df.drop(name, axis=1, inplace=True)]. *)
Definition drop (name : string) (df : DataFrame) : result DataFrame :=
  if existsb (String.eqb name) (names df)
  then Ok (Frame (without name (names df) (columns df))
                 (map (without name (names df)) (rows df)))
  else Err (KeyError name).

(** [df.insert(loc=0, column=name, value=v)]: a constant int64 column in front. *)
Definition insert0 (name : string) (v : Z) (df : DataFrame) : result DataFrame :=
  if existsb (String.eqb name) (names df)
  then Err (ValueError "cannot insert, already exists")
  else Ok (Frame ((name, Np.int64) :: columns df) (map (cons v) (rows df))).

(** The value an integer takes when cast to an integer dtype. *)
Definition wrap (d : Np.dtype) (z : Z) : Z :=
  let m := 256 ^ Z.of_nat (Np.dt_size d) in
  let u := z mod m in
  match Np.dt_kind d with
  | Np.Ki => if 2 * u <? m then u else u - m
  | _ => u
  end.

(** Apply [f] to the entries of [l] whose column label is [name]. *)
Fixpoint map_at {A} (name : string) (f : A -> A) (labels : list string) (l : list A) : list A :=
  match labels, l with
  | n :: labels', x :: l' =>
      (if String.eqb n name then f x else x) :: map_at name f labels' l'
  | _, _ => l
  end.

(** [df[name] = df[name].astype(d)], a cast between integer dtypes. *)
Definition astype_int (name : string) (d : Np.dtype) (df : DataFrame) : result DataFrame :=
  if existsb (String.eqb name) (names df)
  then Ok (Frame (map_at name (fun c => (fst c, d)) (names df) (columns df))
                 (map (map_at name (wrap d) (names df)) (rows df)))
  else Err (KeyError name).

Fixpoint record_bytes (native : Np.byteorder) (cols : list (string * Np.dtype)) (r : list Z)
    : string :=
  match cols, r with
  | (_, d) :: cols', z :: r' =>
      Np.to_bytes native (Np.dt_size d) z +:+ record_bytes native cols' r'
  | _, _ => EmptyString
  end.

(** The bytes [df.to_records(index=False).tofile(f)] writes: packed
    records in native order. Object columns cannot be written. *)
Definition tofile (native : Np.byteorder) (df : DataFrame) : result string :=
  if existsb (fun c => Np.kind_eqb (Np.dt_kind (snd c)) Np.KO) (columns df)
  then Err (IOError "cannot write object arrays to a file in binary mode")
  else Ok (fold_right (fun r acc => record_bytes native (columns df) r +:+ acc) EmptyString (rows df)).

(** The column selection of [read_csv]. *)
Inductive usecols : Type :=
  | ByName (l : list string)
  | ByPos (l : list Z).

End Pd.

(** ** The PLY reader and writer *)

Module Ply.

Definition ply_dtypes : gmap string string :=
  Py.dict
    [ ("int8", "i1");
      ("char", "i1");
      ("uint8", "u1");
      ("uchar", "b1");
      ("uchar", "u1");
      ("int16", "i2");
      ("short", "i2");
      ("uint16", "u2");
      ("ushort", "u2");
      ("int32", "i4");
      ("int", "i4");
      ("uint32", "u4");
      ("uint", "u4");
      ("float32", "f4");
      ("float", "f4");
      ("float64", "f8");
      ("double", "f8") ].

Definition valid_formats : gmap string string :=
  Py.dict [ ("ascii", ""); ("binary_big_endian", ">"); ("binary_little_endian", "<") ].

(** The value of the loop variable [line]: the bytes [readline] returned,
    or the list of tokens once an element or property line was split. *)
Inductive line_val : Type :=
  | LBytes (b : string)
  | LList (toks : list string).

(** The local variables of [read_ply] the header loop updates. *)
Record locals : Type := Locals {
  dtypes : gmap string (list (string * string));
  count : Z;
  points_size : option Z;
  mesh_size : option Z;
  name : option string
}.

Definition locals0 : locals := Locals ∅ 2 None None None.

(** [dtypes[k]] on the [defaultdict(list)]. *)
Definition dtypes_get (d : gmap string (list (string * string))) (k : string)
    : list (string * string) :=
  default [] (d !! k).

(** [dtypes[k].append(x)]. *)
Definition dtypes_append (d : gmap string (list (string * string))) (k : string)
    (x : string * string) : gmap string (list (string * string)) :=
  <[k := (dtypes_get d k ++ [x])%list]> d.

Definition mesh_names : list string := ["n_points"; "v1"; "v2"; "v3"].

(** Reading the unbound local [name] raises. *)
Definition get_name (st : locals) : result string :=
  of_option (name st) (NameError "name").

(** The body of the header loop on the bytes [readline] returned,
    without the final [count += 1]. *)
Definition header_line (fmt ext : string) (st : locals) (raw : string)
    : result (locals * line_val) :=
  if Py.contains "element" raw then
    let line := Py.split raw in
    let* n1 := Py.index line 1 in
    let* nm := Py.decode n1 in
    let* s2 := Py.index line 2 in
    let* size := Py.int s2 in
    let st1 := Locals (dtypes st) (count st) (points_size st) (mesh_size st) (Some nm) in
    let st2 :=
      if String.eqb nm "vertex"
      then Locals (dtypes st1) (count st1) (Some size) (mesh_size st1) (name st1)
      else if String.eqb nm "face"
      then Locals (dtypes st1) (count st1) (points_size st1) (Some size) (name st1)
      else st1 in
    Ok (st2, LList line)
  else if Py.contains "property" raw then
    let line := Py.split raw in
    if existsb (String.eqb "list") line then
      let pre := if String.eqb fmt "ascii" then "" else ext in
      let* nm := get_name st in
      let* t2 := Py.index line 2 in
      let* c2 := Py.getitem ply_dtypes t2 in
      let d1 := dtypes_append (dtypes st) nm (nth 0 mesh_names "", pre +:+ c2) in
      let* t3 := Py.index line 3 in
      let* c3 := Py.getitem ply_dtypes t3 in
      let dt := pre +:+ c3 in
      let d2 :=
        fold_left (fun d j => dtypes_append d nm (nth j mesh_names "", dt)) [1; 2; 3]%nat d1 in
      Ok (Locals d2 (count st) (points_size st) (mesh_size st) (name st), LList line)
    else
      let pre := if String.eqb fmt "ascii" then "" else ext in
      let* nm := get_name st in
      let* t2 := Py.index line 2 in
      let* col := Py.decode t2 in
      let* t1 := Py.index line 1 in
      let* c1 := Py.getitem ply_dtypes t1 in
      let d1 := dtypes_append (dtypes st) nm (col, pre +:+ c1) in
      Ok (Locals d1 (count st) (points_size st) (mesh_size st) (name st), LList line)
  else Ok (st, LBytes raw).

(** The loop condition [b"end_header" not in line and line != b""]. On a
    list the first test is membership of a token and the second holds. *)
Definition continues (line : line_val) : bool :=
  match line with
  | LBytes b => negb (Py.contains "end_header" b) && negb (String.eqb b "")
  | LList toks => negb (existsb (String.eqb "end_header") toks)
  end.

Definition bump (st : locals) : locals :=
  Locals (dtypes st) (count st + 1) (points_size st) (mesh_size st) (name st).

(** The header loop over the lines still unread; [pos] is [ply.tell()].
    The condition holds on entry ([line = []]), so the body runs at least
    once; at end of file [readline] returns [b""]. *)
Fixpoint header_loop (fmt ext : string) (ls : list string) (pos : nat) (st : locals)
    : result (locals * nat) :=
  match ls with
  | [] =>
      let* r := header_line fmt ext st "" in
      Ok (bump (fst r), pos)
  | l :: ls' =>
      let* r := header_line fmt ext st l in
      let pos' := (pos + String.length l)%nat in
      if continues (snd r) then header_loop fmt ext ls' pos' (bump (fst r))
      else Ok (bump (fst r), pos')
  end.

(** What the first [with] block of [read_ply] leaves behind. *)
Record header : Type := Header {
  h_fmt : string;
  h_ext : string;
  h_locals : locals;
  h_end : nat
}.

Definition read_header (content : string) : result header :=
  let ls := Py.readlines content in
  let l1 := hd "" ls in
  if negb (Py.contains "ply" l1)
  then Err (ValueError "The file does not start whith the word ply") else
  let l2 := hd "" (tl ls) in
  let* f := Py.index (Py.split l2) 1 in
  let* fmt := Py.decode f in
  let* ext := Py.getitem valid_formats fmt in
  let* r := header_loop fmt ext (tl (tl ls)) (String.length l1 + String.length l2) locals0 in
  Ok (Header fmt ext (fst r) (snd r)).

Definition nl : string := String "010" EmptyString.

Definition property_formats : gmap string string :=
  Py.dict [ ("f", "float"); ("u", "uchar"); ("i", "int") ].

(** The property lines of [describe_element], one per column, typed by
    the first letter of the column's dtype. *)
Fixpoint describe_columns (cols : list (string * Np.dtype)) : result (list string) :=
  match cols with
  | [] => Ok []
  | (n, d) :: cols' =>
      let* f := Py.getitem property_formats (Py.take 1 (Np.dtype_str d)) in
      let* r := describe_columns cols' in
      Ok (("property " +:+ f +:+ " " +:+ n) :: r)
  end.

Definition describe_element (name : string) (df : Pd.DataFrame) : result (list string) :=
  let element := ["element " +:+ name +:+ " " +:+ Py.str (Pd.len df)] in
  if String.eqb name "face"
  then Ok (element ++ ["property list uchar int vertex_indices"])%list
  else
    let* props := describe_columns (Pd.columns df) in
    Ok (element ++ props)%list.

Section Platform.

(** The byte order of the running machine, [sys.byteorder]. *)
Variable native : Np.byteorder.

(** pandas routines whose text and alignment rules are left open:
    [read_csv content skiprows skipfooter usecols names] (with
    [sep=" "], [header=None], the python engine),
    [astype col code df] for [df[col] = df[col].astype(code)],
    [to_csv df] for the text [df.to_csv] appends (with [sep=" "],
    no index, no header) and [concat_columns a b] for
    [pd.concat([a, b], axis=1)]. *)
Variable read_csv : string -> Z -> Z -> Pd.usecols -> list string -> result Pd.DataFrame.
Variable astype : string -> string -> Pd.DataFrame -> result Pd.DataFrame.
Variable to_csv : Pd.DataFrame -> string.
Variable concat_columns : Pd.DataFrame -> Pd.DataFrame -> Pd.DataFrame.

Definition sys_dot_byteorder : string :=
  match native with
  | Np.Little => "little"
  | Np.Big => "big"
  end.

(** [(">", "<")[sys.byteorder == "little"]]. *)
Definition sys_byteorder : string :=
  nth (if String.eqb sys_dot_byteorder "little" then 1 else 0)%nat [">"; "<"] "".

(** [for n, col in enumerate(df.columns): df[col] = df[col].astype(codes[n + off][1])]. *)
Fixpoint astype_loop (cols : list string) (n off : nat) (codes : list (string * string))
    (df : Pd.DataFrame) : result Pd.DataFrame :=
  match cols with
  | [] => Ok df
  | col :: cols' =>
      let* nc := Py.index codes (n + off) in
      let* df' := astype col (snd nc) df in
      astype_loop cols' (S n) off codes df'
  end.

Definition swap_if_foreign (ext : string) (a : Np.recarray) : Np.recarray :=
  if negb (String.eqb ext sys_byteorder) then Np.newbyteorder (Np.byteswap a) else a.

(** The part of [read_ply] after the header, for the ascii format. *)
Definition read_ascii (content : string) (h : header) : result (gmap string Pd.DataFrame) :=
  let st := h_locals h in
  let top := count st in
  let bottom := match mesh_size st with None => 0 | Some m => m end in
  let names := map fst (dtypes_get (dtypes st) "vertex") in
  let* pts := read_csv content top bottom (Pd.ByName names) names in
  let* pts := astype_loop (Pd.names pts) 0 0 (dtypes_get (dtypes st) "vertex") pts in
  let data : gmap string Pd.DataFrame := <["points" := pts]> ∅ in
  match mesh_size st with
  | None => Ok data
  | Some _ =>
      let* ps := of_option (points_size st) TypeError in
      let top := count st + ps in
      let names := tl (map fst (dtypes_get (dtypes st) "face")) in
      let* m := read_csv content top 0 (Pd.ByPos [1; 2; 3]) names in
      let* m := astype_loop (Pd.names m) 0 1 (dtypes_get (dtypes st) "face") m in
      Ok (<["mesh" := m]> data)
  end.

(** The part of [read_ply] after the header, for the binary formats. *)
Definition read_binary (content : string) (h : header) : result (gmap string Pd.DataFrame) :=
  let st := h_locals h in
  let payload := Py.drop (h_end h) content in
  let* pr := Np.fromfile native payload (dtypes_get (dtypes st) "vertex") (points_size st) in
  let points_np := swap_if_foreign (h_ext h) (fst pr) in
  let data : gmap string Pd.DataFrame := <["points" := Pd.of_records points_np]> ∅ in
  match mesh_size st with
  | None => Ok data
  | Some _ =>
      let* mr := Np.fromfile native (snd pr) (dtypes_get (dtypes st) "face") (mesh_size st) in
      let mesh_np := swap_if_foreign (h_ext h) (fst mr) in
      let* m := Pd.drop "n_points" (Pd.of_records mesh_np) in
      Ok (<["mesh" := m]> data)
  end.

Definition read_ply (fs : gmap string string) (filename : string)
    : result (gmap string Pd.DataFrame) :=
  let* content := of_option (fs !! filename) (FileNotFoundError filename) in
  let* h := read_header content in
  if String.eqb (h_fmt h) "ascii" then read_ascii content h else read_binary content h.

(** The header lines [write_ply] builds, and the mesh frame with its
    [n_points] column. Both frames are data frames by now, so the
    [is not None] tests see [Some]. *)
Definition build_header (as_text : bool) (points mesh : option Pd.DataFrame)
    : result (list string * option Pd.DataFrame) :=
  let header := ["ply"] in
  let header :=
    (if as_text then header ++ ["format ascii 1.0"]
     else header ++ ["format binary_" +:+ sys_dot_byteorder +:+ "_endian 1.0"])%list in
  let* header :=
    match points with
    | Some p => let* e := describe_element "vertex" p in Ok (header ++ e)%list
    | None => Ok header
    end in
  let* hm :=
    match mesh with
    | Some m =>
        let* m1 := Pd.insert0 "n_points" 3 m in
        let* m2 := Pd.astype_int "n_points" Np.uint8 m1 in
        let* e := describe_element "face" m2 in
        Ok ((header ++ e)%list, Some m2)
    | None => Ok (header, None)
    end in
  Ok ((fst hm ++ ["end_header"])%list, snd hm).

Definition header_text (header : list string) : string :=
  fold_right (fun line acc => line +:+ nl +:+ acc) EmptyString header.

(** Appending to a file that exists. *)
Definition append_file (fs : gmap string string) (filename data : string)
    : gmap string string :=
  <[filename := default EmptyString (fs !! filename) +:+ data]> fs.

Definition out_name (filename : string) : string :=
  if negb (Py.endswith filename "ply") then filename +:+ ".ply" else filename.

(** [write_ply]: the file system it leaves, and its result. *)
Definition write_ply (fs : gmap string string) (filename : string)
    (points mesh colors : option Np.ndarray) (as_text : bool)
    : gmap string string * result bool :=
  match
    (let* p := Pd.of_array points ["x"; "y"; "z"] in
     let* m := Pd.of_array mesh ["v1"; "v2"; "v3"] in
     let* p :=
       match colors with
       | Some _ =>
           let* c := Pd.of_array colors ["red"; "green"; "blue"] in
           Ok (concat_columns p c)
       | None => Ok p
       end in
     Ok (Some p, Some m))
  with
  | Err e => (fs, Err e)
  | Ok (points, mesh) =>
      let filename := out_name filename in
      let fs1 := <[filename := EmptyString]> fs in
      match build_header as_text points mesh with
      | Err e => (fs1, Err e)
      | Ok (header, mesh) =>
          let fs2 := <[filename := header_text header]> fs1 in
          if as_text then
            let fs3 :=
              match points with
              | Some p => append_file fs2 filename (to_csv p)
              | None => fs2
              end in
            let fs4 :=
              match mesh with
              | Some m => append_file fs3 filename (to_csv m)
              | None => fs3
              end in
            (fs4, Ok true)
          else
            match
              match points with
              | Some p => let* b := Pd.tofile native p in Ok (append_file fs2 filename b)
              | None => Ok fs2
              end
            with
            | Err e => (fs2, Err e)
            | Ok fs3 =>
                match
                  match mesh with
                  | Some m => let* b := Pd.tofile native m in Ok (append_file fs3 filename b)
                  | None => Ok fs3
                  end
                with
                | Err e => (fs3, Err e)
                | Ok fs4 => (fs4, Ok true)
                end
            end
      end
  end.

End Platform.

End Ply.

(** ** The OBJ writer and reader *)

Module Obj.

(** The dtype of an index array. *)
Inductive int_dtype : Type := I8 | I16 | I32 | I64 | U8 | U16 | U32 | U64.

Definition np_dtype (d : int_dtype) : Np.dtype :=
  match d with
  | I8 => Np.Dtype Np.Ki 1 | I16 => Np.Dtype Np.Ki 2
  | I32 => Np.Dtype Np.Ki 4 | I64 => Np.Dtype Np.Ki 8
  | U8 => Np.Dtype Np.Ku 1 | U16 => Np.Dtype Np.Ku 2
  | U32 => Np.Dtype Np.Ku 4 | U64 => Np.Dtype Np.Ku 8
  end.

(** An M x 3 integer array. *)
Record index_array : Type := IndexArray {
  ix_dtype : int_dtype;
  ix_rows : list (Z * Z * Z)
}.

(** [a += 1], in place, wrapping at the dtype's width. *)
Definition add_one (a : index_array) : index_array :=
  let w := Pd.wrap (np_dtype (ix_dtype a)) in
  IndexArray (ix_dtype a)
    (map (fun r => match r with (x, y, z) => (w (x + 1), w (y + 1), w (z + 1)) end) (ix_rows a)).

(** What a call can change: the heap of index arrays (the caller's arrays
    live there and are passed by reference), the files and the standard
    output. *)
Record world : Type := World {
  heap : gmap nat index_array;
  files : gmap string string;
  stdout : list string
}.

(** [np.copy(a)]: a new array with the same contents. *)
Definition np_copy (h : gmap nat index_array) (l : nat) : result (gmap nat index_array * nat) :=
  let* a := of_option (h !! l) TypeError in
  let l' := fresh (dom h) in
  Ok (<[l' := a]> h, l').

(** [a += 1] on the array at [l]. *)
Definition iadd_one (h : gmap nat index_array) (l : nat) : gmap nat index_array :=
  match h !! l with
  | Some a => <[l := add_one a]> h
  | None => h
  end.

Definition nl : string := String "010" EmptyString.

(** ["f %d/%d/%d %d/%d/%d %d/%d/%d\n" % (v1, t1, t1, v2, t2, t2, v3, t3, t3)]. *)
Definition face_line (v t : Z * Z * Z) : string :=
  match v, t with
  | (v1, v2, v3), (t1, t2, t3) =>
      "f " +:+ Py.str v1 +:+ "/" +:+ Py.str t1 +:+ "/" +:+ Py.str t1 +:+ " "
           +:+ Py.str v2 +:+ "/" +:+ Py.str t2 +:+ "/" +:+ Py.str t2 +:+ " "
           +:+ Py.str v3 +:+ "/" +:+ Py.str t3 +:+ "/" +:+ Py.str t3 +:+ nl
  end.

(** [zip(a, b)]. *)
Fixpoint zip {A B} (a : list A) (b : list B) : list (A * B) :=
  match a, b with
  | x :: a', y :: b' => (x, y) :: zip a' b'
  | _, _ => []
  end.

Definition face_lines (av at_ : index_array) : list string :=
  map (fun p => face_line (fst p) (snd p)) (zip (ix_rows av) (ix_rows at_)).

Definition join (ls : list string) : string :=
  fold_right (fun l acc => l +:+ acc) EmptyString ls.

(** The array [np.array(vertices)] builds from a list of three-element
    rows: N x 3, and one-dimensional of length 0 for the empty list. *)
Record vertex_array (float : Type) : Type := VertexArray {
  shape : list nat;
  data : list (float * float * float)
}.
Arguments VertexArray {float} shape data.
Arguments shape {float} v.
Arguments data {float} v.

Definition np_array {float : Type} (vertices : list (float * float * float))
    : vertex_array float :=
  match vertices with
  | [] => VertexArray [0%nat] []
  | _ => VertexArray [length vertices; 3%nat] vertices
  end.

(** Universal newlines of a file opened in text mode. *)
Fixpoint universal_newlines (s : string) : string :=
  match s with
  | EmptyString => EmptyString
  | String c r =>
      if Ascii.eqb c "013" then
        match r with
        | String "010" _ => universal_newlines r
        | _ => String "010" (universal_newlines r)
        end
      else String c (universal_newlines r)
  end.

Section Floats.

(** Floating-point numbers are kept abstract: the type, ["%f" % x],
    [float(s)] ([None] when it raises [ValueError]), the maximum and
    minimum of two numbers and the tests [x > 1] and [x < 0]. *)
Variable float : Type.
Variable format_f : float -> string.
Variable float_of_str : string -> option float.
Variable float_max float_min : float -> float -> float.
Variable gt_one lt_zero : float -> bool.

Definition flatten2 (a : list (float * float)) : list float :=
  flat_map (fun p => [fst p; snd p]) a.

(** [np.amax(a)] and [np.amin(a)]; an empty array has no maximum. *)
Definition reduce (f : float -> float -> float) (a : list (float * float)) : result float :=
  match flatten2 a with
  | [] => Err (ValueError "zero-size array to reduction operation which has no identity")
  | x :: r => Ok (fold_left f r x)
  end.

Definition vertex_line (p : float * float * float) : string :=
  match p with
  | (x, y, z) => "v " +:+ format_f x +:+ " " +:+ format_f y +:+ " " +:+ format_f z +:+ nl
  end.

Definition texture_line (p : float * float) : string :=
  "vt " +:+ format_f (fst p) +:+ " " +:+ format_f (snd p) +:+ nl.

(** [write_obj]; [tri_v_arr] and [tri_t_arr] are references into the heap. *)
Definition write_obj (w : world) (obj_path : string)
    (v_arr : list (float * float * float)) (vt_arr : list (float * float))
    (tri_v_arr tri_t_arr : nat) : world * result unit :=
  match np_copy (heap w) tri_v_arr with
  | Err e => (w, Err e)
  | Ok (h1, tri_v) =>
  match np_copy h1 tri_t_arr with
  | Err e => (World h1 (files w) (stdout w), Err e)
  | Ok (h2, tri_t) =>
  match
    (let* hi := reduce float_max vt_arr in
     if gt_one hi then Ok true
     else let* lo := reduce float_min vt_arr in Ok (lt_zero lo))
  with
  | Err e => (World h2 (files w) (stdout w), Err e)
  | Ok warn =>
      let out :=
        if warn
        then (stdout w ++ ["Error: the uv values should be ranged between 0 and 1"])%list
        else stdout w in
      let text :=
        "mtllib test.mtl" +:+ nl
        +:+ join (map vertex_line v_arr)
        +:+ join (map texture_line vt_arr) in
      let h3 := iadd_one h2 tri_v in
      let h4 := iadd_one h3 tri_t in
      match h4 !! tri_v, h4 !! tri_t with
      | Some av, Some at_ =>
          (World h4 (<[obj_path := text +:+ join (face_lines av at_)]> (files w)) out, Ok tt)
      | _, _ => (World h4 (<[obj_path := text]> (files w)) out, Err TypeError)
      end
  end end end.

(** [float(toks[i])]. *)
Definition float_at (toks : list string) (i : nat) : result float :=
  let* t := Py.index toks i in
  of_option (float_of_str t) (ValueError "could not convert string to float").

Fixpoint read_lines (lines : list string) (vertices : list (float * float * float))
    : result (list (float * float * float)) :=
  match lines with
  | [] => Ok vertices
  | line :: lines' =>
      if Py.startswith line "v " then
        let toks := tl (Py.split_on " " line) in
        let* x := float_at toks 0 in
        let* y := float_at toks 1 in
        let* z := float_at toks 2 in
        read_lines lines' (vertices ++ [(x, y, z)])%list
      else read_lines lines' vertices
  end.

(** [read_obj]. The file is opened in text mode: its bytes are decoded
    (the encoding of the locale is taken to be UTF-8) and its newlines are
    translated before the lines are read. *)
Definition read_obj (fs : gmap string string) (obj_path : string)
    : result (vertex_array float) :=
  let* raw := of_option (fs !! obj_path) (FileNotFoundError obj_path) in
  let* text := Py.decode raw in
  let lines := Py.readlines (universal_newlines text) in
  let* vertices := read_lines lines [] in
  Ok (np_array vertices).

End Floats.

End Obj.

(** ** The camera rig configuration *)

Module Camera.

(** A module-level value: a Python int, or a float given by its binary64
    bit pattern. *)
Inductive value : Type :=
  | PyInt (z : Z)
  | PyFloat (bits : Z).

(** The double the literal [0.4] denotes, 0x3FD999999999999A. *)
Definition float_0_4 : Z := 4600877379321698714.

Definition num (v : value) : Np.num :=
  match v with
  | PyInt z => Np.Finite (Qmake z 1)
  | PyFloat bits => Np.cell_num Np.float64 bits
  end.

(** [a == b] on numbers of the same type. *)
Definition value_eqb (a b : value) : bool :=
  match a, b with
  | PyInt x, PyInt y => Z.eqb x y
  | PyFloat x, PyFloat y => Np.num_eqb (Np.cell_num Np.float64 x) (Np.cell_num Np.float64 y)
  | _, _ => false
  end.

(** The statements of the module, in order. *)
Definition module_body : list (string * value) :=
  [ ("cam_height_off_ground", PyInt 5);
    ("feet_height_off_ground", PyFloat float_0_4);
    ("hori_dist_cam_feet", PyInt 5) ].

(** Executing assignments in a namespace. *)
Definition exec (body : list (string * value)) (ns : gmap string value) : gmap string value :=
  fold_left (fun m kv => <[kv.1 := kv.2]> m) body ns.

(** The namespace of the module once imported. *)
Definition setup_single_camera : gmap string value := exec module_body ∅.

(** Reading an attribute of the module. *)
Definition getattr (ns : gmap string value) (k : string) : result value :=
  of_option (ns !! k) (AttributeError k).

End Camera.

(** ** The repository as a whole: every operation and the state it acts on *)

Module Repo.

Section Process.

Variable native : Np.byteorder.
Variable read_csv : string -> Z -> Z -> Pd.usecols -> list string -> result Pd.DataFrame.
Variable astype : string -> string -> Pd.DataFrame -> result Pd.DataFrame.
Variable to_csv : Pd.DataFrame -> string.
Variable concat_columns : Pd.DataFrame -> Pd.DataFrame -> Pd.DataFrame.
Variable float : Type.
Variable format_f : float -> string.
Variable float_of_str : string -> option float.
Variable float_max float_min : float -> float -> float.
Variable gt_one lt_zero : float -> bool.

(** The state of a process: the camera module's namespace, and the heap,
    files and standard output the mesh routines act on. *)
Record process : Type := Process {
  camera : gmap string Camera.value;
  world : Obj.world
}.

(** A call of one of the repository's operations, or a read of a camera
    constant. *)
Inductive call : Type :=
  | ReadPly (filename : string)
  | WritePly (filename : string) (points mesh colors : option Np.ndarray) (as_text : bool)
  | DescribeElement (name : string) (df : Pd.DataFrame)
  | WriteObj (obj_path : string) (v_arr : list (float * float * float))
      (vt_arr : list (float * float)) (tri_v_arr tri_t_arr : nat)
  | ReadObj (obj_path : string)
  | ReadCamera (attr : string).

(** The state a call leaves. *)
Definition run (p : process) (c : call) : process :=
  match c with
  | ReadPly _ | DescribeElement _ _ | ReadObj _ | ReadCamera _ => p
  | WritePly filename points mesh colors as_text =>
      let w := world p in
      let fs := fst (Ply.write_ply native to_csv concat_columns (Obj.files w) filename
                       points mesh colors as_text) in
      Process (camera p) (Obj.World (Obj.heap w) fs (Obj.stdout w))
  | WriteObj obj_path v_arr vt_arr tri_v_arr tri_t_arr =>
      Process (camera p)
        (fst (Obj.write_obj float format_f float_max float_min gt_one lt_zero
                (world p) obj_path v_arr vt_arr tri_v_arr tri_t_arr))
  end.

Definition run_all (p : process) (cs : list call) : process := fold_left run cs p.

(** A process that has imported the camera module. *)
Definition start (w : Obj.world) : process := Process Camera.setup_single_camera w.

End Process.

End Repo.

(** ** Numerical equality of a table and an array *)

Fixpoint row_eqb (d1 d2 : list Np.dtype) (r1 r2 : list Z) : bool :=
  match d1, d2, r1, r2 with
  | [], [], [], [] => true
  | a :: d1', b :: d2', x :: r1', y :: r2' =>
      Np.num_eqb (Np.cell_num a x) (Np.cell_num b y) && row_eqb d1' d2' r1' r2'
  | _, _, _, _ => false
  end.

Fixpoint rows_eqb (d1 d2 : list Np.dtype) (r1 r2 : list (list Z)) : bool :=
  match r1, r2 with
  | [], [] => true
  | x :: r1', y :: r2' => row_eqb d1 d2 x y && rows_eqb d1 d2 r1' r2'
  | _, _ => false
  end.

(** A table equals an array numerically: same shape, equal cells. *)
Definition numerically_equal (df : Pd.DataFrame) (a : Np.ndarray) : bool :=
  Nat.eqb (length (Pd.columns df)) (Np.nd_ncols a) &&
  rows_eqb (map snd (Pd.columns df)) (repeat (Np.nd_dtype a) (Np.nd_ncols a))
           (Pd.rows df) (Np.nd_rows a).

(** ** Vocabulary of the statements *)

(** The storage codes a header can record, after the byte-order mark. *)
Definition known_codes : list string :=
  ["i1"; "u1"; "i2"; "u2"; "i4"; "u4"; "f4"; "f8"].

(** The mark [read_ply] puts before a code: none for ascii files. *)
Definition code_prefix (fmt ext : string) : string :=
  if String.eqb fmt "ascii" then "" else ext.

(** The test arrays: one vertex (1.0, 2.0, 3.0) and one face (0, 0, 0), as
    float64 / int64 (NumPy's defaults) and as float32 / int32. *)
Definition P64 : Np.ndarray :=
  Np.NdArray Np.float64 3 [[4607182418800017408; 4611686018427387904; 4613937818241073152]].
Definition F64 : Np.ndarray := Np.NdArray Np.int64 3 [[0; 0; 0]].
Definition P32 : Np.ndarray :=
  Np.NdArray Np.float32 3 [[1065353216; 1073741824; 1077936128]].
Definition F32 : Np.ndarray := Np.NdArray Np.int32 3 [[0; 0; 0]].

(** Slot [k] (0, 1 or 2) of an index triple. *)
Definition slot (k : nat) (v : Z * Z * Z) : Z :=
  match v, k with
  | (a, _, _), O => a
  | (_, b, _), S O => b
  | (_, _, c), _ => c
  end.

(** An index triple moved from 0-based to 1-based in dtype [d]. *)
Definition one_based (d : Obj.int_dtype) (v : Z * Z * Z) : Z * Z * Z :=
  let w := Pd.wrap (Obj.np_dtype d) in
  (w (slot 0 v + 1), w (slot 1 v + 1), w (slot 2 v + 1)).

(** A line the OBJ reader takes for a vertex. *)
Definition is_vertex_line (line : string) : bool := Py.startswith line "v ".

(** The vertex a line denotes: the first three space-separated fields
    after the tag, when there are three and [float()] accepts each. *)
Definition vertex_of_line {float : Type} (float_of_str : string -> option float)
    (line : string) : option (float * float * float) :=
  match tl (Py.split_on " " line) with
  | a :: b :: c :: _ =>
      match float_of_str a, float_of_str b, float_of_str c with
      | Some x, Some y, Some z => Some (x, y, z)
      | _, _, _ => None
      end
  | _ => None
  end.

(** A type name the table does not know. *)
Definition unknown_type (t : string) : bool :=
  match Ply.ply_dtypes !! t with
  | None => true
  | Some _ => false
  end.

(** A header line that declares a property of unknown type: a line the
    reader takes for a property line (it has no [element] in it), of the
    form [property <type> <name>] or [property list <type> <type> <name>],
    with a type the table lacks. *)
Definition declares_unknown_type (raw : string) : bool :=
  negb (Py.contains "element" raw) &&
  match Py.split raw with
  | [p; t; _] => String.eqb p "property" && unknown_type t
  | [p; l; t1; t2; _] =>
      String.eqb p "property" && String.eqb l "list" && (unknown_type t1 || unknown_type t2)
  | _ => false
  end.



(** A file with no [ply] in its first line, and one with a property of
    unknown type. *)
Definition no_magic_file : string :=
  "plx" +:+ Ply.nl +:+ "format ascii 1.0" +:+ Ply.nl +:+ "end_header" +:+ Ply.nl.

Definition bogus_type_file : string :=
  "ply" +:+ Ply.nl +:+ "format ascii 1.0" +:+ Ply.nl +:+
  "element vertex 1" +:+ Ply.nl +:+ "property bogus x" +:+ Ply.nl +:+
  "end_header" +:+ Ply.nl +:+ "0" +:+ Ply.nl.

(** The index columns of a mesh array as [write_ply] names them, the
    frame it writes for the faces, and the bytes of the binary face block:
    per face the byte 3, then the three indices. *)
Definition mesh_columns (F : Np.ndarray) : list (string * Np.dtype) :=
  map (fun n => (n, Np.nd_dtype F)) ["v1"; "v2"; "v3"].

Definition face_frame (F : Np.ndarray) : Pd.DataFrame :=
  Pd.Frame (("n_points", Np.uint8) :: mesh_columns F) (map (cons 3) (Np.nd_rows F)).

Definition face_record (native : Np.byteorder) (F : Np.ndarray) (r : list Z) : string :=
  String "003" (Pd.record_bytes native (mesh_columns F) r).

Definition face_block (native : Np.byteorder) (F : Np.ndarray) : string :=
  fold_right (fun r acc => face_record native F r +:+ acc) EmptyString (Np.nd_rows F).

(** A little-endian file whose face element has a second property, as
    MeshLab writes it: one vertex, one face (0, 0, 0) with flags 7. *)
Definition flagged_file : string :=
  "ply" +:+ Ply.nl +:+ "format binary_little_endian 1.0" +:+ Ply.nl +:+
  "element vertex 1" +:+ Ply.nl +:+ "property float x" +:+ Ply.nl +:+
  "element face 1" +:+ Ply.nl +:+ "property list uchar int vertex_indices" +:+ Ply.nl +:+
  "property int flags" +:+ Ply.nl +:+ "end_header" +:+ Ply.nl +:+
  Np.le_bytes 4 0 +:+
  String "003" (Np.le_bytes 4 0 +:+ Np.le_bytes 4 0 +:+ Np.le_bytes 4 0 +:+ Np.le_bytes 4 7).

(** A stand-in for pandas in examples: [read_csv] returns an empty frame
    with the names asked for, [astype] returns its frame. *)
Definition toy_read_csv (content : string) (skiprows skipfooter : Z) (usecols : Pd.usecols)
    (names : list string) : result Pd.DataFrame :=
  Ok (Pd.Frame (map (fun n => (n, Np.float64)) names) []).

Definition toy_astype (col code : string) (df : Pd.DataFrame) : result Pd.DataFrame := Ok df.

(** Every code in [dtypes] is the prefix followed by a known code. *)
Definition codes_ok (pre : string) (d : gmap string (list (string * string))) : Prop :=
  forall el nm code, In (nm, code) (Ply.dtypes_get d el) ->
    exists c, In c known_codes /\ code = pre +:+ c.

(** A cell is in the range of its dtype. *)
Definition in_range (d : Np.dtype) (z : Z) : Prop :=
  match Np.dt_kind d with
  | Np.Ki => - (256 ^ Z.of_nat (Np.dt_size d)) <= 2 * z < 256 ^ Z.of_nat (Np.dt_size d)
  | _ => 0 <= z < 256 ^ Z.of_nat (Np.dt_size d)
  end.

(** Rows of [n] cells, each in the range of [d]. *)
Definition rows_in_range (d : Np.dtype) (n : nat) (rows : list (list Z)) : Prop :=
  Forall (fun r => length r = n /\ Forall (in_range d) r) rows.

(** An N x 3 float32 array, and an M x 3 int32 array. *)
Definition float32_points (P : Np.ndarray) : Prop :=
  Np.nd_dtype P = Np.float32 /\ Np.nd_ncols P = 3%nat /\
  rows_in_range Np.float32 3 (Np.nd_rows P).

Definition int32_mesh (F : Np.ndarray) : Prop :=
  Np.nd_dtype F = Np.int32 /\ Np.nd_ncols F = 3%nat /\
  rows_in_range Np.int32 3 (Np.nd_rows F).

(** Every character of [s] passes the test [p]. *)
Fixpoint all_chars (p : ascii -> bool) (s : string) : bool :=
  match s with
  | EmptyString => true
  | String c r => p c && all_chars p r
  end.

Definition not_newline (c : ascii) : bool := negb (Ascii.eqb c "010").

Definition not_space (c : ascii) : bool := negb (Py.is_space c).

(** The header [write_ply] writes in binary mode for [n] float vertices
    with columns x, y, z and [m] faces. *)
Definition binary_header (native : Np.byteorder) (n m : Z) : list string :=
  [ "ply";
    "format binary_" +:+ Ply.sys_dot_byteorder native +:+ "_endian 1.0";
    "element vertex " +:+ Py.str n;
    "property float x"; "property float y"; "property float z";
    "element face " +:+ Py.str m;
    "property list uchar int vertex_indices";
    "end_header" ].

(** The bytes of a block of records, as [tofile] lays them out. *)
Definition block (native : Np.byteorder) (cols : list (string * Np.dtype)) (rows : list (list Z))
    : string :=
  fold_right (fun r acc => Pd.record_bytes native cols r +:+ acc) EmptyString rows.

(** The structured dtype of columns read in byte order [bo]. *)
Definition fields_of (bo : Np.byteorder) (cols : list (string * Np.dtype)) : list Np.field :=
  map (fun c => Np.Field (fst c) bo (snd c)) cols.

(** The cells of a row are in the ranges of their columns. *)
Definition row_ok (cols : list (string * Np.dtype)) (r : list Z) : Prop :=
  Forall2 (fun c z => in_range (snd c) z) cols r.

(** ** Vocabulary of the further properties *)

(** A type code that starts with a byte-order mark. *)
Definition marked (c : string) : bool :=
  match c with
  | String "<" _ | String ">" _ => true
  | _ => false
  end.

(** The format a format line names and its byte-order mark, as [read_ply]
    works them out. *)
Definition format_of (l2 : string) : result (string * string) :=
  let* f := Py.index (Py.split l2) 1 in
  let* fmt := Py.decode f in
  let* ext := Py.getitem Ply.valid_formats fmt in
  Ok (fmt, ext).

(** A header line the loop passes over: it has none of [element],
    [property] and [end_header] in it, and is not the end of the file. *)
Definition inert (l : string) : bool :=
  negb (Py.contains "element" l) && negb (Py.contains "property" l) &&
  negb (Py.contains "end_header" l) && negb (String.eqb l "").

(** Files with a faulty header: one that ends after its first line, one
    of an unknown format, one with a property before any element, one with
    a comment that has the word [element] in it, and one whose element
    line lacks its size. *)
Definition one_line_file : string := "ply" +:+ Ply.nl.

Definition unknown_format_file : string :=
  "ply" +:+ Ply.nl +:+ "format binary 1.0" +:+ Ply.nl +:+ "end_header" +:+ Ply.nl.

Definition early_property_file : string :=
  "ply" +:+ Ply.nl +:+ "format ascii 1.0" +:+ Ply.nl +:+ "comment made by hand" +:+ Ply.nl +:+
  "property float x" +:+ Ply.nl +:+ "end_header" +:+ Ply.nl.

Definition comment_element_file : string :=
  "ply" +:+ Ply.nl +:+ "format ascii 1.0" +:+ Ply.nl +:+
  "element vertex 0" +:+ Ply.nl +:+
  "comment one element only" +:+ Ply.nl +:+ "end_header" +:+ Ply.nl.

Definition short_element_file : string :=
  "ply" +:+ Ply.nl +:+ "format ascii 1.0" +:+ Ply.nl +:+
  "element vertex" +:+ Ply.nl +:+ "end_header" +:+ Ply.nl.

(** An array argument that [pd.DataFrame(a, columns=[c1, c2, c3])] accepts:
    [None], or an array of three columns. *)
Definition three_columns (a : option Np.ndarray) : bool :=
  match a with
  | Some a => Nat.eqb (Np.nd_ncols a) 3
  | None => true
  end.

(** A two-column array, next to the one-vertex and one-face test arrays. *)
Definition P2 : Np.ndarray := Np.NdArray Np.float32 2 [[1065353216; 1073741824]].

(** The type word [describe_element] writes for a column, which it picks
    by the first letter of the dtype's name: none for bool and object. *)
Definition type_word (d : Np.dtype) : option string :=
  match Np.dt_kind d with
  | Np.Kf => Some "float"
  | Np.Ki => Some "int"
  | Np.Ku => Some "uchar"
  | Np.Kb | Np.KO => None
  end.

Definition first_letter (d : Np.dtype) : string :=
  match Np.dt_kind d with
  | Np.Kf => "f"
  | Np.Ki => "i"
  | Np.Ku => "u"
  | Np.Kb => "b"
  | Np.KO => "o"
  end.

(** The property line of a column. *)
Definition property_line (c : string * Np.dtype) : option string :=
  option_map (fun w => "property " +:+ w +:+ " " +:+ fst c) (type_word (snd c)).

(** The header [write_ply] writes in text mode for [n] float vertices
    with columns x, y, z and [m] faces. *)
Definition ascii_header (n m : Z) : list string :=
  [ "ply";
    "format ascii 1.0";
    "element vertex " +:+ Py.str n;
    "property float x"; "property float y"; "property float z";
    "element face " +:+ Py.str m;
    "property list uchar int vertex_indices";
    "end_header" ].

(** The frame [write_ply] makes of a points array. *)
Definition points_frame (P : Np.ndarray) : Pd.DataFrame :=
  Pd.Frame (map (fun n => (n, Np.nd_dtype P)) ["x"; "y"; "z"]) (Np.nd_rows P).

(** A visible ASCII character: neither a space nor a control character. *)
Definition visible (c : ascii) : bool := ((32 <? Py.code c) && (Py.code c <? 127))%N.

(** A character a line of text can hold: ASCII, and no line break. *)
Definition in_line (c : ascii) : bool :=
  ((Py.code c <? 128)%N && negb (Ascii.eqb c "013") && negb (Ascii.eqb c "010")).

Definition no_blank (c : ascii) : bool := negb (Ascii.eqb c " ").

(** The text [write_obj] writes, and whether it prints its message. *)
Definition obj_text {float : Type} (format_f : float -> string)
    (v_arr : list (float * float * float)) (vt_arr : list (float * float))
    (av at_ : Obj.index_array) : string :=
  "mtllib test.mtl" +:+ Obj.nl
  +:+ Obj.join (map (Obj.vertex_line float format_f) v_arr)
  +:+ Obj.join (map (Obj.texture_line float format_f) vt_arr)
  +:+ Obj.join (Obj.face_lines (Obj.add_one av) (Obj.add_one at_)).

Definition out_of_range {float : Type} (float_max float_min : float -> float -> float)
    (gt_one lt_zero : float -> bool) (vt_arr : list (float * float)) : bool :=
  match Obj.flatten2 float vt_arr with
  | [] => false
  | x :: r => gt_one (fold_left float_max r x) || lt_zero (fold_left float_min r x)
  end.

(** A line: a text without line breaks, and a newline. *)
Definition is_line (l : string) : Prop :=
  exists body, l = body +:+ Ply.nl /\ all_chars in_line body = true.

(** A vertex whose three numbers went through [reread]. *)
Definition reread3 {float : Type} (reread : float -> float) (p : float * float * float)
    : float * float * float :=
  match p with (x, y, z) => (reread x, reread y, reread z) end.

(** A stand-in for floats in examples: two numbers, as ["%f"] prints them
    and [float] reads them. *)
Definition toy_format (b : bool) : string := if b then "1.000000" else "0.000000".

Definition toy_float (s : string) : option bool :=
  if String.eqb s "1.000000" || String.eqb s ("1.000000" +:+ Obj.nl) then Some true
  else if String.eqb s "0.000000" || String.eqb s ("0.000000" +:+ Obj.nl) then Some false
  else None.

(** The columns of the face records of a binary file: the count byte and
    three int32 indices. *)
Definition face_columns : list (string * Np.dtype) :=
  [("n_points", Np.uint8); ("v1", Np.int32); ("v2", Np.int32); ("v3", Np.int32)].

Definition point_columns : list (string * Np.dtype) :=
  [("x", Np.float32); ("y", Np.float32); ("z", Np.float32)].



(** An element line whose second word is the byte 0xFF, not UTF-8. *)
Definition bad_name_file : string :=
  "ply" +:+ Ply.nl +:+ "format ascii 1.0" +:+ Ply.nl +:+
  "element " +:+ String "255" ("" +:+ " 1") +:+ Ply.nl +:+ "end_header" +:+ Ply.nl.

(** The header variables after the lines [ls] were read, none of which
    ends the header: the body of the loop on each line in turn. *)
Fixpoint scan (fmt ext : string) (ls : list string) (st : Ply.locals) : result Ply.locals :=
  match ls with
  | [] => Ok st
  | l :: ls' =>
      let* r := Ply.header_line fmt ext st l in
      scan fmt ext ls' (Ply.bump (fst r))
  end.

(** The exception the header scan ends with when a line raises [x] after
    the lines [pre]: that of the first line of [pre] that raises, if one
    does, else [x]. *)
Definition first_error (fmt ext : string) (pre : list string) (x : exn) : exn :=
  match scan fmt ext pre Ply.locals0 with
  | Err e0 => e0
  | Ok _ => x
  end.

(** ** Proof tools *)

(** Split a successful [let*] into its successful first step. *)
Ltac inv_bind H :=
  match type of H with
  | bind ?r _ = Ok _ =>
      let E := fresh "E" in destruct r eqn:E; [cbn [bind] in H | discriminate H]
  end.

(** An exception was raised. *)
Ltac raise := eexists; reflexivity.

Ltac step_err :=
  match goal with
  | |- is_Err (Err _) => raise
  | |- is_Err (bind ?r _) =>
      let E := fresh "E" in destruct r eqn:E; cbn [bind]
  end.

(** Evaluate one header line, or one loop test, in place. *)
Ltac eval_header_line :=
  match goal with
  | |- context [Ply.header_line ?f ?e ?s ?l] =>
      let r := eval vm_compute in (Ply.header_line f e s l) in
      change (Ply.header_line f e s l) with r
  end.

Ltac eval_continues :=
  match goal with
  | |- context [Ply.continues ?l] =>
      let r := eval vm_compute in (Ply.continues l) in
      change (Ply.continues l) with r
  end.

(** * Properties *)

(** ** Sanity checks of the embedding *)

Example split_ex : Py.split ("element  vertex 12" ++ String "010" "") = ["element"; "vertex"; "12"].
Proof. reflexivity. Qed.
Example split_on_ex : Py.split_on " " "v  1 2" = ["v"; ""; "1"; "2"].
Proof. reflexivity. Qed.
Example readlines_ex :
  Py.readlines ("ply" ++ String "010" ("x" ++ String "010" "rest")) =
  ["ply" ++ String "010" ""; "x" ++ String "010" ""; "rest"].
Proof. reflexivity. Qed.
Example int_ex : Py.int "1_000" = Ok 1000 /\ Py.int "-7" = Ok (-7) /\ is_Err (Py.int "1__0") /\ is_Err (Py.int "x").
Proof. repeat split; try reflexivity; eexists; reflexivity. Qed.
Example str_ex : Py.str 120 = "120" /\ Py.str 0 = "0" /\ Py.str (-3) = "-3".
Proof. repeat split; reflexivity. Qed.
Example endswith_ex : Py.endswith "reply" "ply" = true /\ Py.endswith "reply" ".ply" = false.
Proof. split; reflexivity. Qed.
Example le_bytes_ex : Np.le_bytes 4 258 = String "002" (String "001" (String "000" (String "000" ""))).
Proof. reflexivity. Qed.
Example be_bytes_ex : Np.be_bytes 4 258 = String "000" (String "000" (String "001" (String "002" ""))).
Proof. reflexivity. Qed.
Example of_bytes_ex : Np.of_bytes Np.Little Np.int32 (Np.le_bytes 4 (-2)) = -2.
Proof. reflexivity. Qed.
(** 0x3FF0000000000000 is 1.0 and 0x3FF00000 is 1.875. *)
Example float_ex :
  Np.num_eqb (Np.cell_num Np.float64 4607182418800017408) (Np.Finite 1) = true /\
  Np.num_eqb (Np.cell_num Np.float32 1072693248) (Np.Finite (Qmake 15 8)) = true.
Proof. split; vm_compute; reflexivity. Qed.

(** The test arrays hold 1.0, 2.0 and 3.0. *)
Example test_arrays_values :
  forallb (fun p => Np.num_eqb (Np.cell_num Np.float64 (fst p)) (Np.Finite (Qmake (snd p) 1)))
          (combine (concat (Np.nd_rows P64)) [1; 2; 3]) = true /\
  forallb (fun p => Np.num_eqb (Np.cell_num Np.float32 (fst p)) (Np.Finite (Qmake (snd p) 1)))
          (combine (concat (Np.nd_rows P32)) [1; 2; 3]) = true.
Proof. split; vm_compute; reflexivity. Qed.

(** Swapping the bytes of an array and flipping its byte order, as
    [read_ply] does for a foreign file, leaves its values alone. *)
Example byteswap_keeps_values :
  let a := Np.RecArray [Np.Field "x" Np.Big Np.int32] [[Np.be_bytes 4 (-2)]; [Np.be_bytes 4 258]] in
  Pd.rows (Pd.of_records (Np.newbyteorder (Np.byteswap a))) = Pd.rows (Pd.of_records a) /\
  Pd.rows (Pd.of_records a) = [[-2]; [258]].
Proof. split; vm_compute; reflexivity. Qed.

(** ** Strings *)

#[local] Arguments String.append !s1 s2 : simpl nomatch.

Lemma append_nil_r (s : string) : s +:+ "" = s.
Proof. induction s as [|c s IH]; simpl; [reflexivity | now rewrite IH]. Qed.

Lemma append_assoc (a b c : string) : (a +:+ b) +:+ c = a +:+ (b +:+ c).
Proof. induction a as [|x a IH]; simpl; [reflexivity | now rewrite IH]. Qed.

Lemma append_length (a b : string) :
  String.length (a +:+ b) = (String.length a + String.length b)%nat.
Proof. induction a as [|x a IH]; simpl; [reflexivity | now rewrite IH]. Qed.

Lemma append_inj_l (p a b : string) : p +:+ a = p +:+ b -> a = b.
Proof. induction p as [|x p IH]; simpl; [tauto | intros H; injection H; auto]. Qed.

Lemma of_list_app (l1 l2 : list ascii) :
  string_of_list_ascii (l1 ++ l2) = string_of_list_ascii l1 +:+ string_of_list_ascii l2.
Proof. induction l1 as [|x l1 IH]; simpl; [reflexivity | now rewrite IH]. Qed.

Lemma of_list_snoc (cur : list ascii) (c : ascii) (s : string) :
  string_of_list_ascii (rev (c :: cur)) +:+ s = string_of_list_ascii (rev cur) +:+ String c s.
Proof. simpl. rewrite of_list_app, append_assoc. reflexivity. Qed.

Lemma prefix_app (sub b : string) : String.prefix sub (sub +:+ b) = true.
Proof.
  induction sub as [|x sub IH]; simpl.
  - destruct b; reflexivity.
  - destruct (ascii_dec x x); [exact IH | congruence].
Qed.

Lemma contains_unfold (sub s : string) :
  Py.contains sub s =
  String.prefix sub s || match s with EmptyString => false | String _ s' => Py.contains sub s' end.
Proof. destruct s; reflexivity. Qed.

Lemma contains_here (sub s : string) : String.prefix sub s = true -> Py.contains sub s = true.
Proof. intros H. rewrite contains_unfold, H. reflexivity. Qed.

Lemma contains_skip (sub : string) (c : ascii) (s : string) :
  Py.contains sub s = true -> Py.contains sub (String c s) = true.
Proof. intros H. rewrite contains_unfold, H. apply orb_true_r. Qed.

(** A string contains each of its substrings. *)
Lemma contains_app (sub a b : string) : Py.contains sub (a +:+ sub +:+ b) = true.
Proof.
  induction a as [|x a IH]; simpl.
  - apply contains_here, prefix_app.
  - apply contains_skip, IH.
Qed.

(** Every token of [split] is a substring of the text. *)
Lemma split_aux_substring (s : string) :
  forall (cur : list ascii) (t : string),
    In t (Py.split_aux s cur) ->
    exists a b, string_of_list_ascii (rev cur) +:+ s = a +:+ t +:+ b.
Proof.
  induction s as [|c s IH]; intros cur t Hin.
  - simpl in Hin. destruct cur as [|x cur]; [contradiction|].
    destruct Hin as [<-|[]]. exists "", "". simpl. now rewrite !append_nil_r.
  - simpl in Hin. destruct (Py.is_space c).
    + assert (Hcase : (cur <> [] /\ t = string_of_list_ascii (rev cur)) \/
                      In t (Py.split_aux s [])).
      { destruct cur; [right; exact Hin|].
        destruct Hin as [<-|Hin]; [left; split; [discriminate|reflexivity] | right; exact Hin]. }
      destruct Hcase as [[_ ->]|Hin'].
      * exists "", (String c s). reflexivity.
      * destruct (IH [] t Hin') as (a & b & E). simpl in E.
        exists (string_of_list_ascii (rev cur) +:+ String c a), b.
        rewrite append_assoc. simpl. now rewrite E.
    + destruct (IH (c :: cur) t Hin) as (a & b & E).
      exists a, b. rewrite <- E. symmetry. apply of_list_snoc.
Qed.

Lemma token_contains (raw t : string) : In t (Py.split raw) -> Py.contains t raw = true.
Proof.
  intros Hin. destruct (split_aux_substring raw [] t Hin) as (a & b & E).
  simpl in E. rewrite E. apply contains_app.
Qed.

Lemma existsb_eqb_In (t : string) (l : list string) :
  existsb (String.eqb t) l = true <-> In t l.
Proof.
  rewrite existsb_exists. split.
  - intros (x & Hx & E). apply String.eqb_eq in E. now subst.
  - intros H. exists t. split; [exact H | apply String.eqb_refl].
Qed.



(** ** The type table *)

Lemma ply_dtypes_values (k c : string) : Ply.ply_dtypes !! k = Some c -> In c known_codes.
Proof.
  intros H. apply elem_of_map_to_list in H. apply list_elem_of_In in H.
  assert (Hall : forallb (fun kv => existsb (String.eqb (snd kv)) known_codes)
                   (map_to_list Ply.ply_dtypes) = true) by (vm_compute; reflexivity).
  rewrite forallb_forall in Hall. specialize (Hall _ H). simpl snd in Hall.
  now apply existsb_eqb_In in Hall.
Qed.


Lemma getitem_Ok {V} (d : gmap string V) (k : string) (v : V) :
  Py.getitem d k = Ok v -> d !! k = Some v.
Proof. unfold Py.getitem, of_option. destruct (d !! k); congruence. Qed.

Lemma dtypes_get_append (d : gmap string (list (string * string))) (k el : string)
    (x : string * string) :
  Ply.dtypes_get (Ply.dtypes_append d k x) el =
  if decide (k = el) then (Ply.dtypes_get d el ++ [x])%list else Ply.dtypes_get d el.
Proof.
  unfold Ply.dtypes_append, Ply.dtypes_get. rewrite lookup_insert.
  destruct (decide (k = el)) as [->|]; reflexivity.
Qed.

Lemma codes_ok_append pre d k nm c :
  codes_ok pre d -> In c known_codes -> codes_ok pre (Ply.dtypes_append d k (nm, pre +:+ c)).
Proof.
  intros Hd Hc el nm' code Hin. rewrite dtypes_get_append in Hin.
  destruct (decide (k = el)); [|eauto].
  apply in_app_or in Hin. destruct Hin as [Hin|[E|[]]]; [eauto|].
  injection E as <- <-. eauto.
Qed.

Lemma header_line_codes fmt ext st raw st' lv :
  Ply.header_line fmt ext st raw = Ok (st', lv) ->
  codes_ok (code_prefix fmt ext) (Ply.dtypes st) ->
  codes_ok (code_prefix fmt ext) (Ply.dtypes st').
Proof.
  unfold Ply.header_line, code_prefix. intros H Hd.
  destruct (Py.contains "element" raw).
  - repeat inv_bind H. injection H as <- _.
    destruct (String.eqb a0 "vertex"); [exact Hd|].
    destruct (String.eqb a0 "face"); exact Hd.
  - destruct (Py.contains "property" raw); [|injection H as <- _; exact Hd].
    destruct (existsb (String.eqb "list") (Py.split raw)).
    + repeat inv_bind H. injection H as <- _. cbn [Ply.dtypes fold_left].
      apply getitem_Ok, ply_dtypes_values in E1, E3.
      repeat apply codes_ok_append; assumption.
    + repeat inv_bind H. injection H as <- _. cbn [Ply.dtypes].
      apply getitem_Ok, ply_dtypes_values in E3.
      apply codes_ok_append; assumption.
Qed.

Lemma header_loop_codes fmt ext ls :
  forall pos st r,
    Ply.header_loop fmt ext ls pos st = Ok r ->
    codes_ok (code_prefix fmt ext) (Ply.dtypes st) ->
    codes_ok (code_prefix fmt ext) (Ply.dtypes (fst r)).
Proof.
  induction ls as [|l ls IH]; intros pos st r H Hd; cbn [Ply.header_loop] in H.
  - inv_bind H. injection H as <-. destruct a as [st' lv]. cbn.
    eapply header_line_codes; eassumption.
  - inv_bind H. destruct a as [st' lv]. cbn [fst snd] in H.
    assert (Hd' : codes_ok (code_prefix fmt ext) (Ply.dtypes (Ply.bump st'))).
    { cbn. eapply header_line_codes; eassumption. }
    destruct (Ply.continues lv).
    + eapply IH; eassumption.
    + injection H as <-. exact Hd'.
Qed.

Lemma read_header_codes content h :
  Ply.read_header content = Ok h ->
  codes_ok (code_prefix (Ply.h_fmt h) (Ply.h_ext h)) (Ply.dtypes (Ply.h_locals h)).
Proof.
  unfold Ply.read_header. intros H.
  destruct (negb (Py.contains "ply" (hd "" (Py.readlines content)))); [discriminate|].
  repeat inv_bind H. injection H as <-. cbn.
  eapply header_loop_codes; [eassumption|].
  intros el nm code Hin. unfold Ply.dtypes_get in Hin. cbn in Hin.
  rewrite lookup_empty in Hin. destruct Hin.
Qed.






(** ** The writer *)

Section Writer.

Variable native : Np.byteorder.
Variable read_csv : string -> Z -> Z -> Pd.usecols -> list string -> result Pd.DataFrame.
Variable astype : string -> string -> Pd.DataFrame -> result Pd.DataFrame.
Variable to_csv : Pd.DataFrame -> string.
Variable concat_columns : Pd.DataFrame -> Pd.DataFrame -> Pd.DataFrame.

(** [write_ply] touches no file but the one it names. *)
Lemma write_ply_other_files fs filename points mesh colors as_text k :
  k <> Ply.out_name filename ->
  fst (Ply.write_ply native to_csv concat_columns fs filename points mesh colors as_text) !! k
  = fs !! k.
Proof.
  intros Hk. unfold Ply.write_ply.
  assert (Happ : forall g data, g !! k = fs !! k ->
            Ply.append_file g (Ply.out_name filename) data !! k = fs !! k).
  { intros g data Hg. unfold Ply.append_file. now rewrite lookup_insert_ne by congruence. }
  assert (H2 : forall header,
            <[Ply.out_name filename := Ply.header_text header]>
              (<[Ply.out_name filename := EmptyString]> fs) !! k = fs !! k).
  { intros header. now rewrite !lookup_insert_ne by congruence. }
  destruct (bind (Pd.of_array points ["x"; "y"; "z"]) _) as [[pts msh]|e]; [|reflexivity].
  cbv zeta.
  destruct (Ply.build_header native as_text pts msh) as [[header msh']|e]; cbn [fst];
    [|now rewrite lookup_insert_ne by congruence].
  destruct as_text; cbn [fst].
  - destruct pts, msh'; auto.
  - destruct pts as [p|].
    + destruct (Pd.tofile native p) as [b|e]; cbn [bind fst]; [|auto].
      destruct msh' as [m|]; [|cbn [fst]; auto].
      destruct (Pd.tofile native m) as [b'|e]; cbn [bind fst]; auto.
    + destruct msh' as [m|]; [|cbn [fst]; auto].
      destruct (Pd.tofile native m) as [b'|e]; cbn [bind fst]; auto.
Qed.

(** C6. The test is [endswith("ply")], without the dot: the path "reply"
    does not end in ".ply", yet it is used unchanged, so the file written
    is "reply" and no "reply.ply" exists afterwards. *)
Theorem out_name_tests_ply_without_dot :
  Py.endswith "reply" ".ply" = false /\
  Ply.out_name "reply" = "reply" /\
  (forall as_text,
     let fs := fst (Ply.write_ply native to_csv concat_columns ∅ "reply"
                      (Some P32) (Some F32) None as_text) in
     fs !! "reply.ply" = None /\ fs !! "reply" <> None) /\
  (forall filename,
     Ply.out_name filename =
     if Py.endswith filename "ply" then filename else filename +:+ ".ply").
Proof.
  split; [reflexivity|]. split; [reflexivity|]. split.
  - intros as_text fs. split.
    + unfold fs. rewrite write_ply_other_files by (vm_compute; discriminate).
      apply lookup_empty.
    + unfold fs. destruct as_text, native; vm_compute; discriminate.
  - intros filename. unfold Ply.out_name. destruct (Py.endswith filename "ply"); reflexivity.
Qed.

(** Without a mesh, the frame [write_ply] tests against [None] is the empty
    frame of three object columns, and whatever the points are, the header
    built from it ends with a face element of zero faces. *)
Lemma build_header_without_mesh as_text points m0 hdr m :
  Pd.of_array None ["v1"; "v2"; "v3"] = Ok m0 ->
  Ply.build_header native as_text points (Some m0) = Ok (hdr, m) ->
  exists pre,
    hdr = (pre ++ [ "element face 0"; "property list uchar int vertex_indices";
                    "end_header" ])%list.
Proof.
  intros H0 H. cbn in H0. injection H0 as <-.
  unfold Ply.build_header in H.
  match type of H with
  | bind ?r _ = _ => destruct r as [pre|e] eqn:E; [|discriminate]
  end.
  cbn in H. injection H as <- _.
  exists pre. rewrite <- app_assoc. reflexivity.
Qed.

(** C5. Called without a mesh, [write_ply] still declares a face element:
    [mesh] is a data frame by the time it is tested against [None]. The
    header of the file written for one float32 vertex and no mesh has the
    lines [element face 0] and [property list uchar int vertex_indices];
    and for any points, a header built without a mesh ends with them. *)
Theorem write_ply_without_mesh_declares_face :
  (forall as_text,
   exists format_line payload,
     fst (Ply.write_ply native to_csv concat_columns ∅ "a.ply" (Some P32) None None as_text)
       !! "a.ply" =
     Some (Ply.header_text
             [ "ply"; format_line;
               "element vertex 1"; "property float x"; "property float y"; "property float z";
               "element face 0"; "property list uchar int vertex_indices";
               "end_header" ] +:+ payload)) /\
  (forall as_text points,
     match
       (let* m0 := Pd.of_array None ["v1"; "v2"; "v3"] in
        Ply.build_header native as_text points (Some m0))
     with
     | Ok (hdr, _) =>
         exists pre,
           hdr = (pre ++ [ "element face 0"; "property list uchar int vertex_indices";
                           "end_header" ])%list
     | Err _ => True
     end).
Proof.
  split.
  - intros [|].
    + exists "format ascii 1.0",
        (to_csv (Pd.Frame [("x", Np.float32); ("y", Np.float32); ("z", Np.float32)]
                   (Np.nd_rows P32)) +:+
         to_csv (Pd.Frame [("n_points", Np.uint8); ("v1", Np.object); ("v2", Np.object);
                           ("v3", Np.object)] [])).
      vm_compute. reflexivity.
    + destruct native.
      * exists "format binary_little_endian 1.0", (Np.le_bytes 4 1065353216 +:+
          Np.le_bytes 4 1073741824 +:+ Np.le_bytes 4 1077936128).
        vm_compute. reflexivity.
      * exists "format binary_big_endian 1.0", (Np.be_bytes 4 1065353216 +:+
          Np.be_bytes 4 1073741824 +:+ Np.be_bytes 4 1077936128).
        vm_compute. reflexivity.
  - intros as_text points.
    destruct (Pd.of_array None ["v1"; "v2"; "v3"]) as [m0|e] eqn:E0; [|exact I].
    cbn [bind].
    destruct (Ply.build_header native as_text points (Some m0)) as [[hdr m]|e] eqn:E; [|exact I].
    exact (build_header_without_mesh as_text points m0 hdr m E0 E).
Qed.

(** C1. Writing one float64 vertex (1.0, 2.0, 3.0) and one int64 face
    (0, 0, 0) in binary mode succeeds, and reading the file back succeeds
    too, but neither table equals what was written: the header says
    [float] and [int] (four bytes) over eight-byte records. *)
Theorem roundtrip_fails_for_float64_int64 :
  let w := Ply.write_ply native to_csv concat_columns ∅ "a.ply" (Some P64) (Some F64) None false in
  snd w = Ok true /\
  exists d pts mesh,
    Ply.read_ply native read_csv astype (fst w) "a.ply" = Ok d /\
    d !! "points" = Some pts /\ d !! "mesh" = Some mesh /\
    numerically_equal pts P64 = false /\ numerically_equal mesh F64 = false.
Proof.
  destruct native; (split; [vm_compute; reflexivity|]);
    eexists _, _, _; (split; [vm_compute; reflexivity|]);
    repeat split; vm_compute; reflexivity.
Qed.

(** The same arrays as float32 and int32 do come back. *)
Lemma roundtrip_holds_for_float32_int32 :
  let w := Ply.write_ply native to_csv concat_columns ∅ "a.ply" (Some P32) (Some F32) None false in
  snd w = Ok true /\
  exists d pts mesh,
    Ply.read_ply native read_csv astype (fst w) "a.ply" = Ok d /\
    d !! "points" = Some pts /\ d !! "mesh" = Some mesh /\
    numerically_equal pts P32 = true /\ numerically_equal mesh F32 = true.
Proof.
  destruct native; (split; [vm_compute; reflexivity|]);
    eexists _, _, _; (split; [vm_compute; reflexivity|]);
    repeat split; vm_compute; reflexivity.
Qed.

End Writer.

(** ** The camera constants *)

(** [float_0_4] is the double nearest to 4/10: it is within half a unit
    in the last place (2^-55) of it. *)
Lemma float_0_4_is_nearest :
  exists q, Np.cell_num Np.float64 Camera.float_0_4 = Np.Finite q /\
            Qle_bool (Qabs (q - Qmake 4 10)) (Qmake 1 (2 ^ 55)) = true.
Proof. eexists. split; [vm_compute; reflexivity | vm_compute; reflexivity]. Qed.

Section Constants.

Variable native : Np.byteorder.
Variable to_csv : Pd.DataFrame -> string.
Variable concat_columns : Pd.DataFrame -> Pd.DataFrame -> Pd.DataFrame.
Variable float : Type.
Variable format_f : float -> string.
Variable float_max float_min : float -> float -> float.
Variable gt_one lt_zero : float -> bool.

#[local] Abbreviation run_all :=
  (Repo.run_all native to_csv concat_columns float format_f float_max float_min gt_one lt_zero).

(** No operation writes to the camera module's namespace. *)
Lemma run_all_camera (cs : list (Repo.call float)) :
  forall p, Repo.camera (run_all p cs) = Repo.camera p.
Proof.
  induction cs as [|c cs IH]; intros p; [reflexivity|].
  unfold Repo.run_all in *. cbn [fold_left]. rewrite IH.
  destruct c; reflexivity.
Qed.

(** C9. The module defines [cam_height_off_ground = 5],
    [feet_height_off_ground = 0.4] and [hori_dist_cam_feet = 5], and after
    any sequence of calls of the repository's operations and reads of the
    constants, reading them gives these same values. *)
Theorem camera_constants_fixed (w : Obj.world) (cs : list (Repo.call float)) :
  let p := run_all (Repo.start w) cs in
  Camera.getattr (Repo.camera p) "cam_height_off_ground" = Ok (Camera.PyInt 5) /\
  Camera.getattr (Repo.camera p) "feet_height_off_ground" = Ok (Camera.PyFloat Camera.float_0_4) /\
  Camera.getattr (Repo.camera p) "hori_dist_cam_feet" = Ok (Camera.PyInt 5) /\
  Camera.value_eqb (Camera.PyFloat Camera.float_0_4) (Camera.PyFloat Camera.float_0_4) = true.
Proof.
  cbv zeta. rewrite run_all_camera. cbn [Repo.start Repo.camera].
  repeat split; vm_compute; reflexivity.
Qed.

End Constants.

(** ** The OBJ writer *)

Lemma nth_error_zip {A B} (a : list A) (b : list B) i x y :
  nth_error a i = Some x -> nth_error b i = Some y ->
  nth_error (Obj.zip a b) i = Some (x, y).
Proof.
  revert b i. induction a as [|x0 a IH]; intros [|y0 b] [|i] Ha Hb;
    try discriminate; cbn in *; [congruence | auto].
Qed.

Lemma add_one_row (a : Obj.index_array) i v :
  nth_error (Obj.ix_rows a) i = Some v ->
  nth_error (Obj.ix_rows (Obj.add_one a)) i = Some (one_based (Obj.ix_dtype a) v).
Proof.
  intros H. unfold Obj.add_one. cbn [Obj.ix_rows].
  rewrite nth_error_map, H. destruct v as [[x y] z]. reflexivity.
Qed.

Lemma wrap_one (d : Obj.int_dtype) : Pd.wrap (Obj.np_dtype d) 1 = 1.
Proof. destruct d; reflexivity. Qed.

Lemma one_based_zero d v k : (k < 3)%nat -> slot k v = 0 -> slot k (one_based d v) = 1.
Proof.
  intros Hk H. destruct v as [[x y] z].
  destruct k as [|[|[|k]]]; [| | |lia]; cbn in H; subst; cbn; apply wrap_one.
Qed.

Section ObjWriter.

Variable float : Type.
Variable format_f : float -> string.
Variable float_max float_min : float -> float -> float.
Variable gt_one lt_zero : float -> bool.

#[local] Abbreviation write_obj :=
  (Obj.write_obj float format_f float_max float_min gt_one lt_zero).

Lemma reduce_nonempty (f : float -> float -> float) (a : list (float * float)) :
  a <> [] -> exists x, Obj.reduce float f a = Ok x.
Proof.
  destruct a as [|p a]; [congruence|]. intros _. unfold Obj.reduce. cbn. eauto.
Qed.

(** What [write_obj] writes for a row that holds a 0. *)
Lemma write_obj_face_line
    (w : Obj.world) (obj_path : string)
    (v_arr : list (float * float * float)) (vt_arr : list (float * float))
    (tri_v_arr tri_t_arr : nat) (av at_ : Obj.index_array)
    (i k : nat) (v t : Z * Z * Z) :
  Obj.heap w !! tri_v_arr = Some av ->
  Obj.heap w !! tri_t_arr = Some at_ ->
  vt_arr <> [] ->
  nth_error (Obj.ix_rows av) i = Some v ->
  nth_error (Obj.ix_rows at_) i = Some t ->
  (k < 3)%nat ->
  slot k v = 0 ->
  exists w' before,
    write_obj w obj_path v_arr vt_arr tri_v_arr tri_t_arr = (w', Ok tt) /\
    Obj.files w' !! obj_path =
      Some (before +:+ Obj.join (Obj.face_lines (Obj.add_one av) (Obj.add_one at_))) /\
    nth_error (Obj.face_lines (Obj.add_one av) (Obj.add_one at_)) i =
      Some (Obj.face_line (one_based (Obj.ix_dtype av) v) (one_based (Obj.ix_dtype at_) t)) /\
    slot k (one_based (Obj.ix_dtype av) v) = 1 /\
    Py.str (slot k (one_based (Obj.ix_dtype av) v)) = "1" /\
    Obj.heap w' !! tri_v_arr = Some av /\
    Obj.heap w' !! tri_t_arr = Some at_ /\
    (forall l a, Obj.heap w !! l = Some a -> Obj.heap w' !! l = Some a).
Proof.
  intros Hv Ht Hvt Hi Hj Hk Hz.
  set (h := Obj.heap w) in *.
  set (l1 := fresh (dom h)).
  set (h1 := <[l1 := av]> h).
  set (l2 := fresh (dom h1)).
  set (h2 := <[l2 := at_]> h1).
  assert (F1 : h !! l1 = None) by (apply not_elem_of_dom, is_fresh).
  assert (F2 : h1 !! l2 = None) by (apply not_elem_of_dom, is_fresh).
  assert (N12 : l1 <> l2).
  { intros E. unfold h1 in F2. rewrite <- E, lookup_insert_eq in F2. discriminate. }
  assert (Fr : forall l a, h !! l = Some a -> l <> l1 /\ l <> l2).
  { intros l a Hl. split; intros ->; [congruence|].
    unfold h1 in F2. rewrite lookup_insert_ne in F2 by congruence. congruence. }
  destruct (Fr _ _ Hv) as [Nv1 Nv2]. destruct (Fr _ _ Ht) as [Nt1 Nt2].
  assert (C1 : Obj.np_copy h tri_v_arr = Ok (h1, l1)).
  { unfold Obj.np_copy. rewrite Hv. reflexivity. }
  assert (C2 : Obj.np_copy h1 tri_t_arr = Ok (h2, l2)).
  { unfold Obj.np_copy, h1 at 1. rewrite lookup_insert_ne by congruence. rewrite Ht. reflexivity. }
  assert (Hwarn : exists warn,
    (let* hi := Obj.reduce float float_max vt_arr in
     if gt_one hi then Ok true
     else let* lo := Obj.reduce float float_min vt_arr in Ok (lt_zero lo)) = Ok warn).
  { destruct (reduce_nonempty float_max vt_arr Hvt) as [hi ->].
    destruct (reduce_nonempty float_min vt_arr Hvt) as [lo ->].
    cbn [bind]. destruct (gt_one hi); eauto. }
  destruct Hwarn as [warn Hwarn].
  set (h3 := <[l1 := Obj.add_one av]> h2).
  set (h4 := <[l2 := Obj.add_one at_]> h3).
  assert (I1 : Obj.iadd_one h2 l1 = h3).
  { unfold Obj.iadd_one, h2, h1. rewrite lookup_insert_ne by congruence.
    rewrite lookup_insert_eq. reflexivity. }
  assert (I2 : Obj.iadd_one h3 l2 = h4).
  { unfold Obj.iadd_one, h3, h2. rewrite lookup_insert_ne by congruence.
    rewrite lookup_insert_eq. reflexivity. }
  assert (G1 : h4 !! l1 = Some (Obj.add_one av)).
  { unfold h4, h3. rewrite lookup_insert_ne by congruence. apply lookup_insert_eq. }
  assert (G2 : h4 !! l2 = Some (Obj.add_one at_)).
  { unfold h4. apply lookup_insert_eq. }
  assert (Keep : forall l a, h !! l = Some a -> h4 !! l = Some a).
  { intros l a Hl. destruct (Fr _ _ Hl) as [N1 N2].
    unfold h4, h3, h2, h1. now rewrite !lookup_insert_ne by congruence. }
  eexists _, _. split.
  { unfold Obj.write_obj. fold h. rewrite C1, C2, Hwarn. cbv zeta.
    rewrite I1, I2, G1, G2. reflexivity. }
  cbn [Obj.files Obj.heap]. split; [apply lookup_insert_eq|].
  split.
  { unfold Obj.face_lines. rewrite nth_error_map.
    rewrite (nth_error_zip _ _ i _ _ (add_one_row av i v Hi) (add_one_row at_ i t Hj)).
    reflexivity. }
  split; [now apply one_based_zero|].
  split; [now rewrite one_based_zero|].
  repeat split; auto.
Qed.

(** The copies are new arrays: no array the caller can reach changes,
    whatever the call does. *)
Lemma write_obj_frame
    (w : Obj.world) (obj_path : string)
    (v_arr : list (float * float * float)) (vt_arr : list (float * float))
    (tri_v_arr tri_t_arr : nat) (l : nat) (a : Obj.index_array) :
  Obj.heap w !! l = Some a ->
  Obj.heap (fst (write_obj w obj_path v_arr vt_arr tri_v_arr tri_t_arr)) !! l = Some a.
Proof.
  intros Hl. unfold Obj.write_obj.
  assert (Hcopy : forall h src h' dst, Obj.np_copy h src = Ok (h', dst) ->
            h !! dst = None /\ h' = <[dst := default a (h !! src)]> h).
  { intros h src h' dst H. unfold Obj.np_copy in H.
    destruct (h !! src) as [x|]; cbn [of_option bind] in H; [|discriminate].
    injection H as <- <-. split; [apply not_elem_of_dom, is_fresh | reflexivity]. }
  assert (Hadd : forall h dst k, k <> dst -> Obj.iadd_one h dst !! k = h !! k).
  { intros h dst k Hk. unfold Obj.iadd_one.
    destruct (h !! dst); [now rewrite lookup_insert_ne by congruence | reflexivity]. }
  destruct (Obj.np_copy (Obj.heap w) tri_v_arr) as [[h1 l1]|e] eqn:C1; [|exact Hl].
  destruct (Hcopy _ _ _ _ C1) as [F1 ->].
  assert (N1 : l <> l1) by congruence.
  assert (H1 : <[l1 := default a (Obj.heap w !! tri_v_arr)]> (Obj.heap w) !! l = Some a)
    by now rewrite lookup_insert_ne by congruence.
  destruct (Obj.np_copy _ tri_t_arr) as [[h2 l2]|e] eqn:C2; [|exact H1].
  destruct (Hcopy _ _ _ _ C2) as [F2 ->].
  assert (N2 : l <> l2) by congruence.
  assert (H2 : <[l2 := default a
                   (<[l1 := default a (Obj.heap w !! tri_v_arr)]> (Obj.heap w) !! tri_t_arr)]>
                 (<[l1 := default a (Obj.heap w !! tri_v_arr)]> (Obj.heap w)) !! l = Some a)
    by now rewrite lookup_insert_ne by congruence.
  destruct (bind (Obj.reduce float float_max vt_arr) _) as [warn|e]; [|exact H2].
  cbv zeta.
  repeat match goal with
  | |- context [match ?x with _ => _ end] => destruct x
  end; cbn [fst Obj.heap]; rewrite !Hadd by congruence; exact H2.
Qed.

End ObjWriter.

(** ** The OBJ reader *)

Section ObjReader.

Variable float : Type.
Variable float_of_str : string -> option float.

Lemma float_at_spec (toks : list string) (i : nat) (t : string) (x : float) :
  nth_error toks i = Some t -> float_of_str t = Some x ->
  Obj.float_at float float_of_str toks i = Ok x.
Proof. intros Ht Hx. unfold Obj.float_at, Py.index. rewrite Ht. cbn. now rewrite Hx. Qed.

Lemma read_lines_spec (lines : list string) :
  forall acc,
    (forall line, In line lines -> is_vertex_line line = true ->
                  vertex_of_line float_of_str line <> None) ->
    exists vs,
      Obj.read_lines float float_of_str lines acc = Ok (acc ++ vs)%list /\
      map Some vs = map (vertex_of_line float_of_str) (List.filter is_vertex_line lines).
Proof.
  induction lines as [|line lines IH]; intros acc Hall.
  - exists []. split; [cbn; now rewrite app_nil_r | reflexivity].
  - cbn [Obj.read_lines List.filter]. fold (is_vertex_line line).
    destruct (is_vertex_line line) eqn:Hv.
    + pose proof (Hall line (or_introl eq_refl) Hv) as Hsome.
      unfold vertex_of_line in Hsome.
      destruct (tl (Py.split_on " " line)) as [|a [|b [|c rest]]] eqn:Htoks; try congruence.
      destruct (float_of_str a) as [x|] eqn:Ha; [|congruence].
      destruct (float_of_str b) as [y|] eqn:Hb; [|congruence].
      destruct (float_of_str c) as [z|] eqn:Hc; [|congruence].
      rewrite (float_at_spec _ 0 a x), (float_at_spec _ 1 b y), (float_at_spec _ 2 c z)
        by (reflexivity || assumption).
      cbn [bind].
      destruct (IH (acc ++ [(x, y, z)])%list) as (vs & Hr & Hm).
      { intros l Hl. apply Hall. now right. }
      exists ((x, y, z) :: vs). split.
      * rewrite Hr, <- app_assoc. reflexivity.
      * cbn [map]. unfold vertex_of_line at 1.
        rewrite Htoks, Ha, Hb, Hc, Hm. reflexivity.
    + apply IH. intros l Hl. apply Hall. now right.
Qed.

Lemma read_lines_raises (lines : list string) :
  forall acc,
    (exists line, In line lines /\ is_vertex_line line = true /\
                  vertex_of_line float_of_str line = None) ->
    is_Err (Obj.read_lines float float_of_str lines acc).
Proof.
  induction lines as [|line lines IH]; intros acc (bad & Hin & Hv & Hnone); [destruct Hin|].
  cbn [Obj.read_lines]. fold (is_vertex_line line).
  destruct (is_vertex_line line) eqn:Hl.
  - unfold Obj.float_at, Py.index.
    destruct (vertex_of_line float_of_str line) as [[[x y] z]|] eqn:Hline.
    + assert (Hrest : exists b, In b lines /\ is_vertex_line b = true /\
                                vertex_of_line float_of_str b = None).
      { destruct Hin as [E|Hin]; [subst; congruence | eauto]. }
      unfold vertex_of_line in Hline.
      destruct (tl (Py.split_on " " line)) as [|a [|b [|c rest]]]; try discriminate.
      cbn [nth_error of_option bind].
      destruct (float_of_str a); [|discriminate].
      destruct (float_of_str b); [|discriminate].
      destruct (float_of_str c); [|discriminate].
      cbn [of_option bind]. apply IH. exact Hrest.
    + unfold vertex_of_line in Hline.
      destruct (tl (Py.split_on " " line)) as [|a [|b [|c rest]]];
        cbn [nth_error of_option bind];
        repeat match goal with
        | |- context [float_of_str ?t] => destruct (float_of_str t); cbn [of_option bind]
        end; try discriminate; eexists; reflexivity.
  - apply IH. exists bad. destruct Hin as [->|Hin]; [congruence|auto].
Qed.

(** C8, as amended. When every line that begins with "v " has three
    fields after the tag that [float()] accepts, [read_obj] returns an
    array whose rows are the vertices of those lines, in file order, and
    of nothing else; it has as many rows as there are such lines, and its
    shape is N x 3, or (0,) when there is none. When some such line has
    not, [read_obj] raises. *)
Theorem read_obj_vertices (fs : gmap string string) (obj_path raw : string) :
  fs !! obj_path = Some raw ->
  Py.utf8_ok raw 0 0 0 = true ->
  let lines := Py.readlines (Obj.universal_newlines raw) in
  let n := length (List.filter is_vertex_line lines) in
  ((forall line, In line lines -> is_vertex_line line = true ->
                 vertex_of_line float_of_str line <> None) ->
   exists a,
     Obj.read_obj float float_of_str fs obj_path = Ok a /\
     map Some (Obj.data a) = map (vertex_of_line float_of_str) (List.filter is_vertex_line lines) /\
     length (Obj.data a) = n /\
     Obj.shape a = if Nat.eqb n 0 then [0%nat] else [n; 3%nat]) /\
  ((exists line, In line lines /\ is_vertex_line line = true /\
                 vertex_of_line float_of_str line = None) ->
   is_Err (Obj.read_obj float float_of_str fs obj_path)).
Proof.
  intros Hfs Hutf lines n. unfold Obj.read_obj. rewrite Hfs.
  cbn [of_option bind]. unfold Py.decode. rewrite Hutf. cbn [bind]. fold lines. split.
  - intros Hall. destruct (read_lines_spec lines [] Hall) as (vs & Hr & Hm).
    rewrite Hr. cbn [bind app]. eexists. split; [reflexivity|].
    assert (Hlen : length vs = n).
    { unfold n. rewrite <- (length_map Some vs), Hm. apply length_map. }
    destruct vs as [|v vs]; cbn [Obj.np_array Obj.data Obj.shape].
    + rewrite <- Hlen. repeat split; auto.
    + rewrite <- Hlen. repeat split; auto.
  - intros Hbad. destruct (read_lines_raises lines [] Hbad) as [e He].
    rewrite He. eexists. reflexivity.
Qed.

End ObjReader.

(** A file with one vertex line among others; a float is written as the
    text it was read from. *)
Lemma read_obj_vertices_witness :
  let raw := "mtllib test.mtl" +:+ Obj.nl +:+ "v 1.0 2.0 3.0" +:+ Obj.nl +:+
             "vt 0.5 0.5" +:+ Obj.nl +:+ "f 1/1/1 1/1/1 1/1/1" +:+ Obj.nl in
  exists a,
    Obj.read_obj string Some {[ "m.obj" := raw ]} "m.obj" = Ok a /\
    Obj.data a = [("1.0", "2.0", "3.0" +:+ Obj.nl)] /\
    Obj.shape a = [1%nat; 3%nat].
Proof.
  intros raw.
  destruct (read_obj_vertices string Some {[ "m.obj" := raw ]} "m.obj" raw
              (lookup_singleton_eq _ _) eq_refl)
    as [H _].
  destruct H as (a & H1 & H2 & _ & H4).
  - intros line Hin Hv. vm_compute in Hin.
    repeat (destruct Hin as [<-|Hin]; [first [discriminate Hv | vm_compute; discriminate]|]).
    destruct Hin.
  - exists a. split; [exact H1|].
    vm_compute in H1. injection H1 as <-. split; reflexivity.
Defined.

(** C8 fails as stated: a vertex line with two fields raises, and a file
    without vertex lines gives an array of shape (0,), not 0 x 3. *)
Lemma read_obj_raises_or_is_flat :
  Obj.read_obj string Some {[ "a.obj" := "v 1 2" +:+ Obj.nl ]} "a.obj" = Err IndexError /\
  exists a,
    Obj.read_obj string Some {[ "b.obj" := "vt 0 0" +:+ Obj.nl ]} "b.obj" = Ok a /\
    Obj.shape a = [0%nat].
Proof. split; [vm_compute; reflexivity|]. eexists. split; vm_compute; reflexivity. Qed.

(** ** The header scan *)

Lemma lines_aux_nonempty (s : string) :
  forall cur l, In l (Py.lines_aux s cur) -> l <> "".
Proof.
  assert (Hne : forall (c : ascii) cur, string_of_list_ascii (rev (c :: cur)) <> "").
  { intros c cur E. apply (f_equal String.length) in E.
    cbn [rev] in E. rewrite of_list_app, append_length in E. cbn in E. lia. }
  induction s as [|c s IH]; intros cur l Hin; cbn [Py.lines_aux] in Hin.
  - destruct cur as [|x cur]; [destruct Hin|]. destruct Hin as [<-|[]]. apply Hne.
  - destruct (Ascii.eqb c "010").
    + destruct Hin as [<-|Hin]; [apply Hne | eauto].
    + eauto.
Qed.

Lemma readlines_nonempty (s l : string) : In l (Py.readlines s) -> l <> "".
Proof. apply lines_aux_nonempty. Qed.

(** The value [line] holds after the body ran on [raw]. *)
Lemma header_line_value fmt ext st raw st' lv :
  Ply.header_line fmt ext st raw = Ok (st', lv) ->
  lv = Ply.LBytes raw \/ lv = Ply.LList (Py.split raw).
Proof.
  unfold Ply.header_line. intros H.
  destruct (Py.contains "element" raw).
  - repeat inv_bind H. injection H as _ <-. now right.
  - destruct (Py.contains "property" raw); [|injection H as _ <-; now left].
    destruct (existsb (String.eqb "list") (Py.split raw));
      repeat inv_bind H; injection H as _ <-; now right.
Qed.

(** A line without [end_header] does not end the loop. *)
Lemma header_line_continues fmt ext st raw st' lv :
  Ply.header_line fmt ext st raw = Ok (st', lv) ->
  Py.contains "end_header" raw = false ->
  raw <> "" ->
  Ply.continues lv = true.
Proof.
  intros H Hno Hne. destruct (header_line_value _ _ _ _ _ _ H) as [->| ->];
    unfold Ply.continues.
  - rewrite Hno. cbn [negb andb]. apply negb_true_iff, String.eqb_neq, Hne.
  - apply negb_true_iff. destruct (existsb _ _) eqn:E; [|reflexivity].
    apply existsb_eqb_In, token_contains in E. congruence.
Qed.

(** A property line of unknown type raises. *)
Lemma header_line_unknown_type fmt ext st raw :
  declares_unknown_type raw = true -> is_Err (Ply.header_line fmt ext st raw).
Proof.
  unfold declares_unknown_type. intros H.
  apply andb_true_iff in H. destruct H as [He H]. apply negb_true_iff in He.
  destruct (Py.split raw) as [|p [|t [|n [|t2 [|n2 [|]]]]]] eqn:Hs; try discriminate.
  - apply andb_true_iff in H. destruct H as [Hp Hu]. apply String.eqb_eq in Hp. subst p.
    unfold unknown_type in Hu. destruct (Ply.ply_dtypes !! t) eqn:Ht; [discriminate|].
    unfold Ply.header_line. rewrite He.
    rewrite (token_contains raw "property") by (rewrite Hs; now left). rewrite Hs.
    unfold Ply.get_name, Py.getitem, Py.index.
    destruct (existsb (String.eqb "list") ["property"; t; n]).
    + destruct (Ply.name st); cbn [bind of_option nth_error]; [|raise].
      destruct (Ply.ply_dtypes !! n); cbn [bind of_option nth_error]; raise.
    + destruct (Ply.name st); cbn [bind of_option nth_error]; [|raise].
      destruct (Py.decode n); cbn [bind of_option nth_error]; [|raise]. rewrite Ht. cbn [bind of_option nth_error]. raise.
  - apply andb_true_iff in H. destruct H as [H Hu]. apply andb_true_iff in H.
    destruct H as [Hp Hl]. apply String.eqb_eq in Hp, Hl. subst p t.
    unfold Ply.header_line. rewrite He.
    rewrite (token_contains raw "property") by (rewrite Hs; now left). rewrite Hs.
    replace (existsb (String.eqb "list") ["property"; "list"; n; t2; n2]) with true
      by reflexivity.
    unfold Ply.get_name, Py.getitem, Py.index, unknown_type in *.
    destruct (Ply.name st); cbn [bind of_option nth_error]; [|raise].
    destruct (Ply.ply_dtypes !! n); cbn [bind of_option nth_error]; [|raise].
    destruct (Ply.ply_dtypes !! t2); cbn [bind of_option nth_error]; [discriminate|raise].
Qed.

(** The loop raises when it meets such a line before the header ends. *)
Lemma header_loop_unknown_type fmt ext bad rest (pre : list string) :
  forall pos st,
    (forall l, In l pre -> Py.contains "end_header" l = false /\ l <> "") ->
    declares_unknown_type bad = true ->
    is_Err (Ply.header_loop fmt ext (pre ++ bad :: rest) pos st).
Proof.
  induction pre as [|l pre IH]; intros pos st Hpre Hbad; cbn [app Ply.header_loop].
  - destruct (header_line_unknown_type fmt ext st bad Hbad) as [e ->]. cbn. raise.
  - destruct (Ply.header_line fmt ext st l) as [[st' lv]|e] eqn:E; cbn [bind fst snd]; [|raise].
    destruct (Hpre l (or_introl eq_refl)) as [Hno Hne].
    rewrite (header_line_continues _ _ _ _ _ _ E Hno Hne).
    apply IH; [|exact Hbad]. intros l' Hl'. apply Hpre. now right.
Qed.

Section Reader.

Variable native : Np.byteorder.
Variable read_csv : string -> Z -> Z -> Pd.usecols -> list string -> result Pd.DataFrame.
Variable astype : string -> string -> Pd.DataFrame -> result Pd.DataFrame.

#[local] Abbreviation read_ply := (Ply.read_ply native read_csv astype).

(** C4. A file whose first line has no [ply] in it is rejected with the
    reader's ValueError; and a file in whose header (before any line with
    [end_header]) a property line names a type the table lacks is
    rejected with an error too. *)
Theorem read_ply_rejects_bad_header (fs : gmap string string) (filename content : string) :
  fs !! filename = Some content ->
  (Py.contains "ply" (hd "" (Py.readlines content)) = false ->
   read_ply fs filename = Err (ValueError "The file does not start whith the word ply")) /\
  (forall l1 l2 pre bad rest,
     Py.readlines content = l1 :: l2 :: (pre ++ bad :: rest)%list ->
     (forall l, In l pre -> Py.contains "end_header" l = false) ->
     declares_unknown_type bad = true ->
     is_Err (read_ply fs filename)).
Proof.
  intros Hfs. unfold Ply.read_ply. rewrite Hfs. cbn [of_option bind]. split.
  - intros Hply. unfold Ply.read_header. rewrite Hply. reflexivity.
  - intros l1 l2 pre bad rest Hlines Hpre Hbad.
    assert (Hh : is_Err (Ply.read_header content)).
    { unfold Ply.read_header. rewrite Hlines. cbn [hd tl].
      destruct (negb (Py.contains "ply" l1)); [raise|].
      repeat step_err; try raise.
      eapply (header_loop_unknown_type _ _ bad rest pre) in Hbad as [e He].
      - rewrite He in *. discriminate.
      - intros l Hl. split; [auto|].
        apply (readlines_nonempty content). rewrite Hlines.
        right. right. apply in_or_app. now left. }
    destruct Hh as [e ->]. cbn. raise.
Qed.


Lemma header_line_count fmt ext st raw st' lv :
  Ply.header_line fmt ext st raw = Ok (st', lv) -> Ply.count st' = Ply.count st.
Proof.
  unfold Ply.header_line. intros H.
  destruct (Py.contains "element" raw).
  - repeat inv_bind H. injection H as <- _.
    destruct (String.eqb _ "vertex"); [reflexivity|].
    destruct (String.eqb _ "face"); reflexivity.
  - destruct (Py.contains "property" raw); [|injection H as <- _; reflexivity].
    destruct (existsb (String.eqb "list") (Py.split raw));
      repeat inv_bind H; injection H as <- _; reflexivity.
Qed.



Lemma drop_empty (n : nat) : Py.drop n "" = "".
Proof. destruct n; reflexivity. Qed.

End Reader.

(** The two rejected files. *)
Lemma read_ply_rejects_bad_header_witness :
  (forall read_csv astype,
     Ply.read_ply Np.Little read_csv astype {[ "a.ply" := no_magic_file ]} "a.ply"
     = Err (ValueError "The file does not start whith the word ply")) /\
  (forall read_csv astype,
     is_Err (Ply.read_ply Np.Little read_csv astype {[ "b.ply" := bogus_type_file ]} "b.ply")).
Proof.
  split; intros read_csv astype.
  - refine (proj1 (read_ply_rejects_bad_header Np.Little read_csv astype
                     {[ "a.ply" := no_magic_file ]} "a.ply" no_magic_file
                     (lookup_singleton_eq _ _)) _).
    vm_compute. reflexivity.
  - refine (proj2 (read_ply_rejects_bad_header Np.Little read_csv astype
                     {[ "b.ply" := bogus_type_file ]} "b.ply" bogus_type_file
                     (lookup_singleton_eq _ _))
                  ("ply" +:+ Ply.nl) ("format ascii 1.0" +:+ Ply.nl)
                  ["element vertex 1" +:+ Ply.nl] ("property bogus x" +:+ Ply.nl)
                  ["end_header" +:+ Ply.nl; "0" +:+ Ply.nl] _ _ _).
    + vm_compute. reflexivity.
    + intros l [<-|[]]. vm_compute. reflexivity.
    + vm_compute. reflexivity.
Defined.

(** ** The face block *)

(** The frame [write_ply] makes of a mesh array: [n_points], constant 3
    and of type uint8, in front of the three index columns. *)
Lemma face_frame_built (F : Np.ndarray) (m0 : Pd.DataFrame) :
  Pd.of_array (Some F) ["v1"; "v2"; "v3"] = Ok m0 ->
  (let* m1 := Pd.insert0 "n_points" 3 m0 in Pd.astype_int "n_points" Np.uint8 m1)
  = Ok (face_frame F).
Proof.
  unfold Pd.of_array. destruct (Nat.eqb _ _); [|discriminate]. intros H. injection H as <-.
  unfold Pd.insert0, Pd.astype_int, face_frame, mesh_columns.
  repeat (cbn [orb bind Pd.names Pd.columns map fst snd existsb Pd.rows Pd.map_at];
          change (String.eqb "n_points" "n_points") with true;
          change (String.eqb "n_points" "v1") with false;
          change (String.eqb "n_points" "v2") with false;
          change (String.eqb "n_points" "v3") with false;
          change (String.eqb "v1" "n_points") with false;
          change (String.eqb "v2" "n_points") with false;
          change (String.eqb "v3" "n_points") with false).
  f_equal. f_equal.
  rewrite map_map. apply map_ext. intros r. cbn [Pd.map_at].
  change (String.eqb "n_points" "n_points") with true. cbv iota. f_equal.
  destruct r as [|a [|b [|c rest]]]; reflexivity.
Qed.

Lemma count_byte (native : Np.byteorder) : Np.to_bytes native 1 3 = String "003" "".
Proof. destruct native; reflexivity. Qed.

(** Its bytes: every record begins with the byte 3. *)
Lemma face_frame_bytes (native : Np.byteorder) (F : Np.ndarray) (b : string) :
  Pd.tofile native (face_frame F) = Ok b -> b = face_block native F.
Proof.
  unfold Pd.tofile. destruct (existsb _ _); [discriminate|]. intros H. injection H as <-.
  unfold face_block, face_frame. cbn [Pd.rows Pd.columns].
  induction (Np.nd_rows F) as [|r rs IH]; cbn [map fold_right]; [reflexivity|].
  rewrite IH. unfold face_record. cbn [Pd.record_bytes]. rewrite count_byte. reflexivity.
Qed.

Section FaceBlock.

Variable native : Np.byteorder.
Variable read_csv : string -> Z -> Z -> Pd.usecols -> list string -> result Pd.DataFrame.
Variable astype : string -> string -> Pd.DataFrame -> result Pd.DataFrame.
Variable to_csv : Pd.DataFrame -> string.
Variable concat_columns : Pd.DataFrame -> Pd.DataFrame -> Pd.DataFrame.


End FaceBlock.

(** ** The columns of the mesh table *)






Section FaceColumns.

Variable native : Np.byteorder.
Variable read_csv : string -> Z -> Z -> Pd.usecols -> list string -> result Pd.DataFrame.
Variable astype : string -> string -> Pd.DataFrame -> result Pd.DataFrame.
Variable to_csv : Pd.DataFrame -> string.
Variable concat_columns : Pd.DataFrame -> Pd.DataFrame -> Pd.DataFrame.

(** What is assumed of pandas for the ascii format: [read_csv] labels
    the columns it selects by position with [names] when there are as many
    of each, and [astype] keeps the labels. *)
Hypothesis read_csv_labels :
  forall content top bottom pos names df,
    read_csv content top bottom (Pd.ByPos pos) names = Ok df ->
    length pos = length names ->
    Pd.names df = names.
Hypothesis astype_labels :
  forall col code df df', astype col code df = Ok df' -> Pd.names df' = Pd.names df.





End FaceColumns.





(** ** Bytes: what [tofile] writes, [fromfile] reads back *)

Lemma byte_code (z : Z) : Z.of_N (Py.code (Np.byte z)) = z mod 256.
Proof.
  unfold Py.code, Np.byte. rewrite N_ascii_embedding.
  - apply Z2N.id. apply Z.mod_pos_bound. lia.
  - assert (0 <= z mod 256 < 256) by (apply Z.mod_pos_bound; lia). lia.
Qed.

Lemma pow256_pos (n : nat) : 0 < 256 ^ Z.of_nat n.
Proof. apply Z.pow_pos_nonneg; lia. Qed.

Lemma pow256_succ (n : nat) : 256 ^ Z.of_nat (S n) = 256 * 256 ^ Z.of_nat n.
Proof. rewrite Nat2Z.inj_succ, Z.pow_succ_r by lia. reflexivity. Qed.

Lemma le_value_bytes (n : nat) : forall z, Np.le_value (Np.le_bytes n z) = z mod 256 ^ Z.of_nat n.
Proof.
  induction n as [|n IH]; intros z.
  - cbn. now rewrite Z.mod_1_r.
  - cbn [Np.le_bytes Np.le_value]. rewrite byte_code, IH, pow256_succ.
    rewrite Z.rem_mul_r by (pose proof (pow256_pos n); lia). reflexivity.
Qed.

Lemma be_value_bytes (n : nat) :
  forall z acc, Np.be_value (Np.be_bytes n z) acc = acc * 256 ^ Z.of_nat n + z mod 256 ^ Z.of_nat n.
Proof.
  induction n as [|n IH]; intros z acc.
  - cbn. rewrite Z.mod_1_r. lia.
  - cbn [Np.be_bytes Np.be_value]. rewrite byte_code, IH, pow256_succ.
    pose proof (pow256_pos n) as Hp.
    rewrite (Z.mul_comm 256 (256 ^ Z.of_nat n)).
    rewrite (Z.rem_mul_r z (256 ^ Z.of_nat n) 256) by lia. lia.
Qed.

Lemma unsigned_value_bytes (bo : Np.byteorder) (n : nat) (z : Z) :
  Np.unsigned_value bo (Np.to_bytes bo n z) = z mod 256 ^ Z.of_nat n.
Proof.
  destruct bo; cbn [Np.unsigned_value Np.to_bytes].
  - apply le_value_bytes.
  - rewrite be_value_bytes. lia.
Qed.

Lemma to_bytes_length (bo : Np.byteorder) (n : nat) (z : Z) :
  String.length (Np.to_bytes bo n z) = n.
Proof.
  destruct bo; cbn [Np.to_bytes]; revert z; induction n as [|n IH]; intros z; cbn;
    auto.
Qed.

(** Reading the bytes written for a cell gives the cell. *)
Lemma of_bytes_to_bytes (bo : Np.byteorder) (d : Np.dtype) (z : Z) :
  in_range d z -> Np.of_bytes bo d (Np.to_bytes bo (Np.dt_size d) z) = z.
Proof.
  unfold in_range, Np.of_bytes. intros H. rewrite unsigned_value_bytes.
  pose proof (pow256_pos (Np.dt_size d)) as Hp.
  destruct (Np.dt_kind d); try (apply Z.mod_small; exact H).
  destruct (Z_lt_dec z 0) as [Hneg|Hpos].
  - assert (E : z mod 256 ^ Z.of_nat (Np.dt_size d) = z + 256 ^ Z.of_nat (Np.dt_size d)).
    { symmetry. apply Z.mod_unique with (-1); lia. }
    rewrite E. destruct (Z.ltb_spec (2 * (z + 256 ^ Z.of_nat (Np.dt_size d)))
                           (256 ^ Z.of_nat (Np.dt_size d))); lia.
  - rewrite Z.mod_small by lia.
    destruct (Z.ltb_spec (2 * z) (256 ^ Z.of_nat (Np.dt_size d))); lia.
Qed.

Lemma take_app (a b : string) : Py.take (String.length a) (a +:+ b) = a.
Proof. induction a as [|c a IH]; cbn; [now destruct b | now rewrite IH]. Qed.

Lemma drop_app (a b : string) : Py.drop (String.length a) (a +:+ b) = b.
Proof. induction a as [|c a IH]; cbn; [reflexivity | exact IH]. Qed.

(** ** Decimal numbers: [int(str(n))] is [n] *)

Lemma digits_cons (c : ascii) (s : string) (acc : Z) (prev : bool) :
  Py.is_digit c = true ->
  Py.digits (String c s) acc prev = Py.digits s (10 * acc + (Z.of_N (Py.code c) - 48)) true.
Proof. intros H. cbn [Py.digits]. now rewrite H. Qed.

Lemma digits_acc (d : Decimal.uint) :
  forall acc : positive,
    Py.digits (NilEmpty.string_of_uint d) (Zpos acc) true = Some (Zpos (Pos.of_uint_acc d acc)).
Proof.
  induction d; intros acc; cbn [NilEmpty.string_of_uint Pos.of_uint_acc];
    [reflexivity | rewrite digits_cons by reflexivity; rewrite <- IHd; f_equal;
                   change (Z.of_N (Py.code _) - 48) with 0 || idtac; cbn; lia ..].
Qed.

Lemma digits_zero (d : Decimal.uint) :
  Py.digits (NilEmpty.string_of_uint d) 0 true = Some (Z.of_N (Pos.of_uint d)).
Proof.
  induction d; cbn [NilEmpty.string_of_uint Pos.of_uint];
    [reflexivity | rewrite digits_cons by reflexivity ..].
  - exact IHd.
  - apply (digits_acc d 1).
  - apply (digits_acc d 2).
  - apply (digits_acc d 3).
  - apply (digits_acc d 4).
  - apply (digits_acc d 5).
  - apply (digits_acc d 6).
  - apply (digits_acc d 7).
  - apply (digits_acc d 8).
  - apply (digits_acc d 9).
Qed.

Lemma uint_digits (d : Decimal.uint) :
  all_chars Py.is_digit (NilEmpty.string_of_uint d) = true.
Proof. induction d; cbn [NilEmpty.string_of_uint all_chars]; [reflexivity | exact IHd ..]. Qed.

(** The decimal text of a natural number: digits only, not empty, and
    read back by [int]. *)
Lemma str_spec (z : Z) :
  0 <= z ->
  all_chars Py.is_digit (Py.str z) = true /\ Py.str z <> "" /\ Py.int (Py.str z) = Ok z.
Proof.
  intros Hz. destruct z as [|p|p]; [repeat split; discriminate | | lia].
  unfold Py.str. cbn [Z.to_int NilZero.string_of_int].
  pose proof (DecimalPos.Unsigned.to_uint_nonnil p) as Hnil.
  pose proof (DecimalPos.Unsigned.of_to p) as Hof.
  pose proof (uint_digits (Pos.to_uint p)) as Hd.
  pose proof (digits_zero (Pos.to_uint p)) as Hz0.
  rewrite Hof in Hz0. cbn [Z.of_N] in Hz0.
  destruct (Pos.to_uint p) eqn:E; [congruence | ..];
    cbn [NilZero.string_of_uint NilEmpty.string_of_uint] in *;
    (split; [exact Hd|]); (split; [discriminate|]);
    unfold Py.int; cbn [of_option];
    rewrite digits_cons in Hz0 |- * by reflexivity;
    rewrite Hz0; reflexivity.
Qed.

(** ** Lines and tokens of a written header *)

Lemma all_chars_app (p : ascii -> bool) (a b : string) :
  all_chars p (a +:+ b) = all_chars p a && all_chars p b.
Proof. induction a as [|c a IH]; cbn; [reflexivity | now rewrite IH, andb_assoc]. Qed.

Lemma all_chars_weaken (p q : ascii -> bool) (s : string) :
  (forall c, p c = true -> q c = true) -> all_chars p s = true -> all_chars q s = true.
Proof.
  intros Hpq. induction s as [|c s IH]; cbn; [reflexivity|].
  intros H. apply andb_true_iff in H. destruct H as [Hc Hs].
  now rewrite (Hpq c Hc), IH.
Qed.

Lemma digit_not_newline (c : ascii) : Py.is_digit c = true -> not_newline c = true.
Proof.
  unfold not_newline. destruct (Ascii.eqb_spec c "010") as [->|]; [discriminate | reflexivity].
Qed.

Lemma digit_not_space (c : ascii) : Py.is_digit c = true -> not_space c = true.
Proof.
  unfold Py.is_digit, not_space, Py.is_space. intros H.
  apply andb_true_iff in H. destruct H as [H1 H2].
  apply N.leb_le in H1, H2. apply negb_true_iff, orb_false_iff. split.
  - apply N.eqb_neq. lia.
  - apply andb_false_iff. right. apply N.leb_gt. lia.
Qed.

(** [readline] returns a line without a newline in it, with the one
    that ends it. *)
Lemma lines_aux_line (l rest : string) :
  forall cur,
    all_chars not_newline l = true ->
    Py.lines_aux (l +:+ Ply.nl +:+ rest) cur =
    (string_of_list_ascii (rev cur) +:+ l +:+ Ply.nl) :: Py.lines_aux rest [].
Proof.
  induction l as [|c l IH]; intros cur Hl.
  - cbn. now rewrite of_list_app.
  - cbn in Hl. apply andb_true_iff in Hl. destruct Hl as [Hc Hl].
    unfold not_newline in Hc. apply negb_true_iff in Hc.
    cbn [String.append Py.lines_aux]. rewrite Hc, IH by exact Hl.
    now rewrite of_list_snoc.
Qed.

Lemma readlines_line (l rest : string) :
  all_chars not_newline l = true ->
  Py.readlines (l +:+ Ply.nl +:+ rest) = (l +:+ Ply.nl) :: Py.readlines rest.
Proof. intros H. unfold Py.readlines. now rewrite lines_aux_line. Qed.

(** [split] reads a run of non-blank characters as (part of) one token. *)
Lemma split_aux_token (s rest : string) :
  forall cur,
    all_chars not_space s = true ->
    Py.split_aux (s +:+ rest) cur =
    Py.split_aux rest (rev (list_ascii_of_string s) ++ cur).
Proof.
  induction s as [|c s IH]; intros cur Hs; [reflexivity|].
  cbn in Hs. apply andb_true_iff in Hs. destruct Hs as [Hc Hs].
  unfold not_space in Hc. apply negb_true_iff in Hc.
  cbn [String.append Py.split_aux list_ascii_of_string rev]. rewrite Hc, IH by exact Hs.
  now rewrite <- app_assoc.
Qed.

Lemma split_aux_nl (cur : list ascii) :
  cur <> [] -> Py.split_aux Ply.nl cur = [string_of_list_ascii (rev cur)].
Proof. destruct cur; [congruence | reflexivity]. Qed.

(** A last token that is a number, before the end of the line. *)
Lemma split_aux_number (z : Z) :
  0 <= z -> Py.split_aux (Py.str z +:+ Ply.nl) [] = [Py.str z].
Proof.
  intros Hz. destruct (str_spec z Hz) as (Hd & Hne & _).
  rewrite split_aux_token by (eapply all_chars_weaken; [apply digit_not_space | exact Hd]).
  rewrite app_nil_r, split_aux_nl.
  - now rewrite rev_involutive, string_of_list_ascii_of_string.
  - intros E. apply (f_equal (@rev ascii)) in E. rewrite rev_involutive in E.
    apply (f_equal string_of_list_ascii) in E.
    rewrite string_of_list_ascii_of_string in E. exact (Hne E).
Qed.

(** The header's [element] lines, as the reader takes them. *)
Lemma element_vertex_line fmt ext st z :
  0 <= z ->
  Ply.header_line fmt ext st ("element vertex " +:+ Py.str z +:+ Ply.nl) =
  Ok (Ply.Locals (Ply.dtypes st) (Ply.count st) (Some z) (Ply.mesh_size st) (Some "vertex"),
      Ply.LList ["element"; "vertex"; Py.str z]).
Proof.
  intros Hz. unfold Ply.header_line.
  rewrite contains_here by reflexivity.
  assert (Hs : Py.split ("element vertex " +:+ Py.str z +:+ Ply.nl) =
               ["element"; "vertex"; Py.str z]).
  { unfold Py.split. cbn [String.append]. 
    change (Py.split_aux (String "e" _) [])
      with ("element" :: "vertex" :: Py.split_aux (Py.str z +:+ Ply.nl) []).
    now rewrite split_aux_number. }
  rewrite Hs. cbn [Py.index nth_error of_option bind].
  change (Py.decode "vertex") with (Ok "vertex" : result string). cbn [bind].
  destruct (str_spec z Hz) as (_ & _ & ->). cbn [bind]. reflexivity.
Qed.

Lemma element_face_line fmt ext st z :
  0 <= z ->
  Ply.header_line fmt ext st ("element face " +:+ Py.str z +:+ Ply.nl) =
  Ok (Ply.Locals (Ply.dtypes st) (Ply.count st) (Ply.points_size st) (Some z) (Some "face"),
      Ply.LList ["element"; "face"; Py.str z]).
Proof.
  intros Hz. unfold Ply.header_line.
  rewrite contains_here by reflexivity.
  assert (Hs : Py.split ("element face " +:+ Py.str z +:+ Ply.nl) =
               ["element"; "face"; Py.str z]).
  { unfold Py.split. cbn [String.append].
    change (Py.split_aux (String "e" _) [])
      with ("element" :: "face" :: Py.split_aux (Py.str z +:+ Ply.nl) []).
    now rewrite split_aux_number. }
  rewrite Hs. cbn [Py.index nth_error of_option bind].
  change (Py.decode "face") with (Ok "face" : result string). cbn [bind].
  destruct (str_spec z Hz) as (_ & _ & ->). cbn [bind]. reflexivity.
Qed.

(** ** Records: [fromfile] reads what [tofile] wrote *)

Lemma drop_add (a b : nat) (s : string) : Py.drop (a + b) s = Py.drop b (Py.drop a s).
Proof.
  revert s. induction a as [|a IH]; intros s; [reflexivity|].
  destruct s as [|c s]; cbn [Nat.add Py.drop]; [now rewrite drop_empty | apply IH].
Qed.

Section Records.

Variable bo : Np.byteorder.

Lemma take_app_len (n : nat) (a b : string) : String.length a = n -> Py.take n (a +:+ b) = a.
Proof. intros <-. apply take_app. Qed.

Lemma drop_app_len (n : nat) (a b : string) : String.length a = n -> Py.drop n (a +:+ b) = b.
Proof. intros <-. apply drop_app. Qed.

Lemma record_read_back (cols : list (string * Np.dtype)) (r : list Z) :
  row_ok cols r ->
  String.length (Pd.record_bytes bo cols r) = Np.record_size (fields_of bo cols) /\
  forall rest,
    Np.record_values (fields_of bo cols)
      (Np.split_record (fields_of bo cols) (Pd.record_bytes bo cols r +:+ rest)) = r /\
    Py.drop (Np.record_size (fields_of bo cols)) (Pd.record_bytes bo cols r +:+ rest) = rest.
Proof.
  induction 1 as [|[n d] z cols r Hz Hr [IHlen IH]]; [split; [|split]; reflexivity|].
  cbn [fields_of map Pd.record_bytes Np.split_record Np.record_values Np.record_size
       fold_right fst snd Np.f_dtype Np.f_order] in *.
  pose proof (to_bytes_length bo (Np.dt_size d) z) as Hlen.
  split; [now rewrite append_length, Hlen, IHlen|].
  intros rest. rewrite append_assoc.
  rewrite (take_app_len _ _ _ Hlen), (drop_app_len _ _ _ Hlen).
  destruct (IH rest) as [IH1 IH2]. split.
  - rewrite of_bytes_to_bytes by exact Hz. f_equal. exact IH1.
  - rewrite drop_add, (drop_app_len _ _ _ Hlen). exact IH2.
Qed.

Lemma block_read_back (cols : list (string * Np.dtype)) (rows : list (list Z)) :
  Forall (row_ok cols) rows ->
  String.length (block bo cols rows) = (length rows * Np.record_size (fields_of bo cols))%nat /\
  forall rest,
    map (Np.record_values (fields_of bo cols))
        (Np.read_records (fields_of bo cols) (length rows) (block bo cols rows +:+ rest)) = rows /\
    Py.drop (length rows * Np.record_size (fields_of bo cols)) (block bo cols rows +:+ rest) = rest.
Proof.
  induction 1 as [|r rows Hr Hrows [IHlen IH]]; [split; [|split]; reflexivity|].
  cbn [block fold_right length Np.read_records map Nat.mul]. fold (block bo cols rows).
  destruct (record_read_back cols r Hr) as [Rlen R].
  split; [now rewrite append_length, Rlen, IHlen|].
  intros rest. rewrite append_assoc.
  destruct (R (block bo cols rows +:+ rest)) as [R1 R2].
  destruct (IH rest) as (I1 & I2).
  rewrite R1, R2, I1. split; [reflexivity|].
  now rewrite drop_add, R2.
Qed.

(** [fromfile] on a file that holds a written block, then [rest]. *)
Lemma fromfile_block native spec (cols : list (string * Np.dtype)) (rows : list (list Z)) rest :
  Np.dtype_of_list native spec = Ok (fields_of bo cols) ->
  Np.record_size (fields_of bo cols) <> 0%nat ->
  Forall (row_ok cols) rows ->
  exists a,
    Np.fromfile native (block bo cols rows +:+ rest) spec (Some (Z.of_nat (length rows)))
      = Ok (a, rest) /\
    Np.ra_fields a = fields_of bo cols /\
    Pd.of_records a = Pd.Frame cols rows.
Proof.
  intros Hspec Hsize Hrows. unfold Np.fromfile. rewrite Hspec. cbn [bind of_option].
  destruct (block_read_back cols rows Hrows) as [Blen B]. destruct (B rest) as [B1 B2].
  set (size := Np.record_size (fields_of bo cols)) in *.
  assert (Hav : (length rows <= String.length (block bo cols rows +:+ rest) / size)%nat).
  { rewrite append_length, Blen, Nat.div_add_l by exact Hsize. lia. }
  replace (Z.of_nat (length rows) <? Np.ssize_min) with false
    by (symmetry; apply Z.ltb_ge; unfold Np.ssize_min; lia).
  replace (Z.of_nat (String.length (block bo cols rows +:+ rest) / size) <? Z.of_nat (length rows))
    with false by (symmetry; apply Z.ltb_ge; lia).
  rewrite andb_false_r. cbn [orb].
  destruct (Nat.eqb size 0) eqn:E; [apply Nat.eqb_eq in E; congruence|].
  replace (Z.of_nat (length rows) <? 0) with false by (symmetry; apply Z.ltb_ge; lia).
  replace (Z.of_nat (length rows) <=? Z.of_nat (String.length (block bo cols rows +:+ rest) / size))
    with true by (symmetry; apply Z.leb_le; lia).
  cbn [orb]. rewrite Nat2Z.id, Nat.min_l by exact Hav. rewrite B2.
  eexists. split; [reflexivity|]. split; [reflexivity|].
  unfold Pd.of_records. cbn [Np.ra_fields Np.ra_data]. rewrite B1. f_equal.
  unfold fields_of. rewrite map_map. cbn [Np.f_name Np.f_dtype].
  rewrite <- (map_id cols) at 2. apply map_ext. now intros [n d].
Qed.

End Records.

(** ** Reading back a written header *)

Lemma header_text_cons (l : string) (ls : list string) (rest : string) :
  Ply.header_text (l :: ls) +:+ rest = l +:+ Ply.nl +:+ (Ply.header_text ls +:+ rest).
Proof. unfold Ply.header_text. cbn [fold_right]. now rewrite !append_assoc. Qed.

Lemma readlines_header (ls : list string) (rest : string) :
  Forall (fun l => all_chars not_newline l = true) ls ->
  Py.readlines (Ply.header_text ls +:+ rest) =
  (map (fun l => l +:+ Ply.nl) ls ++ Py.readlines rest)%list.
Proof.
  induction 1 as [|l ls Hl Hls IH]; [reflexivity|].
  rewrite header_text_cons, readlines_line by exact Hl. cbn [map app]. now rewrite IH.
Qed.

Lemma header_text_length (ls : list string) :
  String.length (Ply.header_text ls) =
  fold_right (fun l n => (String.length l + 1 + n)%nat) 0%nat ls.
Proof.
  induction ls as [|l ls IH]; [reflexivity|].
  unfold Ply.header_text in *. cbn [fold_right]. rewrite !append_length, IH.
  change (String.length Ply.nl) with 1%nat. lia.
Qed.

Lemma str_no_newline (z : Z) : 0 <= z -> all_chars not_newline (Py.str z) = true.
Proof.
  intros Hz. destruct (str_spec z Hz) as (Hd & _).
  eapply all_chars_weaken; [apply digit_not_newline | exact Hd].
Qed.

Lemma str_not_end_header (z : Z) : 0 <= z -> String.eqb "end_header" (Py.str z) = false.
Proof.
  intros Hz. destruct (str_spec z Hz) as (Hd & _).
  apply String.eqb_neq. intros E. rewrite <- E in Hd. discriminate Hd.
Qed.

Lemma binary_header_lines (native : Np.byteorder) (n m : Z) :
  0 <= n -> 0 <= m ->
  Forall (fun l => all_chars not_newline l = true) (binary_header native n m).
Proof.
  intros Hn Hm. unfold binary_header.
  repeat constructor; try (destruct native; reflexivity);
    rewrite all_chars_app; apply andb_true_iff; (split; [reflexivity|]);
    now apply str_no_newline.
Qed.

(** The header [write_ply] wrote, as [read_ply] parses it. *)
Lemma read_binary_header (native : Np.byteorder) (n m : Z) (payload : string) :
  0 <= n -> 0 <= m ->
  let ext := Ply.sys_byteorder native in
  exists h,
    Ply.read_header (Ply.header_text (binary_header native n m) +:+ payload) = Ok h /\
    String.eqb (Ply.h_fmt h) "ascii" = false /\
    Ply.h_ext h = ext /\
    Ply.points_size (Ply.h_locals h) = Some n /\
    Ply.mesh_size (Ply.h_locals h) = Some m /\
    Ply.dtypes_get (Ply.dtypes (Ply.h_locals h)) "vertex" =
      [("x", ext +:+ "f4"); ("y", ext +:+ "f4"); ("z", ext +:+ "f4")] /\
    Ply.dtypes_get (Ply.dtypes (Ply.h_locals h)) "face" =
      [("n_points", ext +:+ "u1"); ("v1", ext +:+ "i4"); ("v2", ext +:+ "i4");
       ("v3", ext +:+ "i4")] /\
    Ply.h_end h = String.length (Ply.header_text (binary_header native n m)).
Proof.
  intros Hn Hm ext. unfold Ply.read_header.
  rewrite readlines_header by now apply binary_header_lines.
  rewrite header_text_length.
  unfold binary_header. cbn [map app hd tl fold_right].
  change (negb (Py.contains "ply" ("ply" +:+ Ply.nl))) with false. cbv iota.
  destruct native; cbn [Ply.sys_dot_byteorder].
  - change (Py.index (Py.split (("format binary_" +:+ "little" +:+ "_endian 1.0") +:+ Ply.nl)) 1)
      with (Ok "binary_little_endian" : result string).
    cbn [bind]. change (Py.decode "binary_little_endian")
      with (Ok "binary_little_endian" : result string). cbn [bind].
    change (Py.getitem Ply.valid_formats "binary_little_endian") with (Ok "<" : result string).
    cbn [bind Ply.header_loop].
    rewrite (append_assoc "element vertex " (Py.str n) Ply.nl).
    rewrite element_vertex_line by exact Hn. cbn [bind fst snd Ply.continues existsb].
    rewrite (str_not_end_header n Hn).
    change (String.eqb "end_header" "element") with false.
    change (String.eqb "end_header" "vertex") with false. cbn [orb negb].
    do 3 (eval_header_line; cbn [bind fst snd]; eval_continues; cbv iota).
    cbn [Ply.bump Ply.dtypes Ply.count Ply.points_size Ply.mesh_size Ply.name].
    rewrite (append_assoc "element face " (Py.str m) Ply.nl).
    rewrite element_face_line by exact Hm. cbn [bind fst snd Ply.continues existsb].
    rewrite (str_not_end_header m Hm).
    change (String.eqb "end_header" "element") with false.
    change (String.eqb "end_header" "face") with false. cbn [orb negb].
    do 2 (eval_header_line; cbn [bind fst snd]; eval_continues; cbv iota).
    eexists. split; [reflexivity|].
    cbn [Ply.h_fmt Ply.h_ext Ply.h_locals Ply.h_end Ply.bump Ply.dtypes Ply.count
         Ply.points_size Ply.mesh_size Ply.name].
    repeat split; try (vm_compute; reflexivity).
    rewrite !append_length. cbn [String.length Ply.nl fst snd]. lia.
  - change (Py.index (Py.split (("format binary_" +:+ "big" +:+ "_endian 1.0") +:+ Ply.nl)) 1)
      with (Ok "binary_big_endian" : result string).
    cbn [bind]. change (Py.decode "binary_big_endian")
      with (Ok "binary_big_endian" : result string). cbn [bind].
    change (Py.getitem Ply.valid_formats "binary_big_endian") with (Ok ">" : result string).
    cbn [bind Ply.header_loop].
    rewrite (append_assoc "element vertex " (Py.str n) Ply.nl).
    rewrite element_vertex_line by exact Hn. cbn [bind fst snd Ply.continues existsb].
    rewrite (str_not_end_header n Hn).
    change (String.eqb "end_header" "element") with false.
    change (String.eqb "end_header" "vertex") with false. cbn [orb negb].
    do 3 (eval_header_line; cbn [bind fst snd]; eval_continues; cbv iota).
    cbn [Ply.bump Ply.dtypes Ply.count Ply.points_size Ply.mesh_size Ply.name].
    rewrite (append_assoc "element face " (Py.str m) Ply.nl).
    rewrite element_face_line by exact Hm. cbn [bind fst snd Ply.continues existsb].
    rewrite (str_not_end_header m Hm).
    change (String.eqb "end_header" "element") with false.
    change (String.eqb "end_header" "face") with false. cbn [orb negb].
    do 2 (eval_header_line; cbn [bind fst snd]; eval_continues; cbv iota).
    eexists. split; [reflexivity|].
    cbn [Ply.h_fmt Ply.h_ext Ply.h_locals Ply.h_end Ply.bump Ply.dtypes Ply.count
         Ply.points_size Ply.mesh_size Ply.name].
    repeat split; try (vm_compute; reflexivity).
    rewrite !append_length. cbn [String.length Ply.nl fst snd]. lia.
Qed.

(** ** Round trip of float32 points and int32 faces *)

Lemma rows_ok_of_range (d : Np.dtype) (a b c : string) (rows : list (list Z)) :
  rows_in_range d 3 rows -> Forall (row_ok [(a, d); (b, d); (c, d)]) rows.
Proof.
  unfold rows_in_range. intros H. eapply List.Forall_impl; [|exact H].
  intros r [Hlen Hr]. destruct r as [|x [|y [|z [|w r]]]]; try discriminate Hlen.
  inversion Hr as [|? ? Hx Hr1]; subst. inversion Hr1 as [|? ? Hy Hr2]; subst.
  inversion Hr2 as [|? ? Hz _]; subst.
  unfold row_ok. repeat constructor; assumption.
Qed.

Lemma face_rows_ok (F : Np.ndarray) :
  int32_mesh F ->
  Forall (row_ok (("n_points", Np.uint8) :: mesh_columns F)) (map (cons 3) (Np.nd_rows F)).
Proof.
  intros (Hd & _ & Hr). unfold mesh_columns. rewrite Hd.
  apply rows_ok_of_range with (a := "v1") (b := "v2") (c := "v3") in Hr.
  apply List.Forall_map. eapply List.Forall_impl; [|exact Hr].
  intros r Hrow. constructor; [|exact Hrow]. cbv. split; [discriminate | reflexivity].
Qed.

Lemma face_block_is_block (native : Np.byteorder) (F : Np.ndarray) :
  face_block native F =
  block native (("n_points", Np.uint8) :: mesh_columns F) (map (cons 3) (Np.nd_rows F)).
Proof.
  unfold face_block, block. induction (Np.nd_rows F) as [|r rs IH]; [reflexivity|].
  cbn [map fold_right]. rewrite IH. unfold face_record. cbn [Pd.record_bytes].
  now rewrite count_byte.
Qed.

(** Dropping [n_points] gives back the rows of the mesh. *)
Lemma drop_count_column (F : Np.ndarray) :
  int32_mesh F ->
  Pd.drop "n_points" (Pd.Frame (("n_points", Np.uint8) :: mesh_columns F)
                               (map (cons 3) (Np.nd_rows F)))
  = Ok (Pd.Frame [("v1", Np.int32); ("v2", Np.int32); ("v3", Np.int32)] (Np.nd_rows F)).
Proof.
  intros (Hd & _ & Hr). unfold mesh_columns. rewrite Hd.
  unfold Pd.drop, Pd.names. cbn [Pd.columns Pd.rows map fst].
  change (existsb (String.eqb "n_points") ["n_points"; "v1"; "v2"; "v3"]) with true.
  cbv iota. f_equal. f_equal.
  rewrite map_map. rewrite <- (map_id (Np.nd_rows F)) at 2.
  apply map_ext_Forall. eapply List.Forall_impl; [|exact Hr].
  intros r [Hlen _]. destruct r as [|x [|y [|z [|w r]]]]; try discriminate Hlen.
  reflexivity.
Qed.

Section RoundTrip.

Variable native : Np.byteorder.
Variable read_csv : string -> Z -> Z -> Pd.usecols -> list string -> result Pd.DataFrame.
Variable astype : string -> string -> Pd.DataFrame -> result Pd.DataFrame.
Variable to_csv : Pd.DataFrame -> string.
Variable concat_columns : Pd.DataFrame -> Pd.DataFrame -> Pd.DataFrame.

(** What [write_ply] writes in binary mode for float32 points and an
    int32 mesh: the header, the block of points, the block of faces. *)
Lemma write_binary_file fs filename (P F : Np.ndarray) :
  float32_points P ->
  int32_mesh F ->
  let w := Ply.write_ply native to_csv concat_columns fs filename (Some P) (Some F) None false in
  snd w = Ok true /\
  fst w !! Ply.out_name filename =
    Some (Ply.header_text
            (binary_header native (Z.of_nat (length (Np.nd_rows P)))
                                  (Z.of_nat (length (Np.nd_rows F)))) +:+
          block native [("x", Np.float32); ("y", Np.float32); ("z", Np.float32)] (Np.nd_rows P) +:+
          face_block native F).
Proof.
  intros (HdP & HcP & HrP) HF. pose proof HF as (HdF & HcF & HrF).
  destruct P as [dP cP rP]. cbn [Np.nd_dtype Np.nd_ncols Np.nd_rows] in *. subst dP cP.
  assert (A1 : Pd.of_array (Some (Np.NdArray Np.float32 3 rP)) ["x"; "y"; "z"] =
               Ok (Pd.Frame [("x", Np.float32); ("y", Np.float32); ("z", Np.float32)] rP))
    by reflexivity.
  assert (A2 : exists m0, Pd.of_array (Some F) ["v1"; "v2"; "v3"] = Ok m0).
  { unfold Pd.of_array. rewrite HcF. cbn. eauto. }
  destruct A2 as [m0 A2]. pose proof (face_frame_built F m0 A2) as A3.
  assert (A4 : Ply.describe_element "vertex"
                 (Pd.Frame [("x", Np.float32); ("y", Np.float32); ("z", Np.float32)] rP) =
               Ok ["element vertex " +:+ Py.str (Z.of_nat (length rP));
                   "property float x"; "property float y"; "property float z"])
    by reflexivity.
  assert (A5 : Ply.describe_element "face" (face_frame F) =
               Ok ["element face " +:+ Py.str (Z.of_nat (length (Np.nd_rows F)));
                   "property list uchar int vertex_indices"]).
  { unfold Ply.describe_element, Pd.len, face_frame. cbn [Pd.rows].
    rewrite length_map. reflexivity. }
  assert (A6 : Pd.tofile native
                 (Pd.Frame [("x", Np.float32); ("y", Np.float32); ("z", Np.float32)] rP) =
               Ok (block native [("x", Np.float32); ("y", Np.float32); ("z", Np.float32)] rP))
    by reflexivity.
  assert (A7 : Pd.tofile native (face_frame F) = Ok (face_block native F)).
  { destruct (Pd.tofile native (face_frame F)) as [b|e] eqn:E.
    - now rewrite (face_frame_bytes native F b E).
    - unfold Pd.tofile, face_frame, mesh_columns in E. rewrite HdF in E. discriminate E. }
  cbv zeta. unfold Ply.write_ply. rewrite A1, A2. cbn [bind].
  unfold Ply.build_header. rewrite A4. cbn [bind].
  destruct (Pd.insert0 "n_points" 3 m0) as [m1|e]; cbn [bind] in A3 |- *; [|discriminate A3].
  rewrite A3. cbn [bind]. rewrite A5. cbn [bind fst snd]. rewrite A6. cbn [bind].
  rewrite A7. cbn [bind fst snd]. split; [reflexivity|].
  unfold Ply.append_file. rewrite lookup_insert_eq. rewrite lookup_insert_eq.
  rewrite lookup_insert_eq. cbn [default]. unfold id. rewrite append_assoc.
  destruct native; reflexivity.
Qed.

Lemma native_spec :
  Np.dtype_of_list native
    [("x", Ply.sys_byteorder native +:+ "f4"); ("y", Ply.sys_byteorder native +:+ "f4");
     ("z", Ply.sys_byteorder native +:+ "f4")]
  = Ok (fields_of native [("x", Np.float32); ("y", Np.float32); ("z", Np.float32)]) /\
  forall d,
    d = Np.int32 ->
    Np.dtype_of_list native
      [("n_points", Ply.sys_byteorder native +:+ "u1"); ("v1", Ply.sys_byteorder native +:+ "i4");
       ("v2", Ply.sys_byteorder native +:+ "i4"); ("v3", Ply.sys_byteorder native +:+ "i4")]
    = Ok (fields_of native [("n_points", Np.uint8); ("v1", d); ("v2", d); ("v3", d)]).
Proof. destruct native; (split; [reflexivity | intros d ->; reflexivity]). Qed.

Lemma native_is_not_foreign (a : Np.recarray) :
  Ply.swap_if_foreign native (Ply.sys_byteorder native) a = a.
Proof. unfold Ply.swap_if_foreign. now rewrite String.eqb_refl. Qed.

(** Round trip. Float32 points and an int32 mesh, written by [write_ply]
    in binary mode, are read back by [read_ply] as the same two tables:
    columns x, y, z of type float32 with the rows of the points, and
    columns v1, v2, v3 of type int32 with the rows of the mesh. *)
Theorem roundtrip_float32_int32 fs filename (P F : Np.ndarray) :
  float32_points P ->
  int32_mesh F ->
  let w := Ply.write_ply native to_csv concat_columns fs filename (Some P) (Some F) None false in
  snd w = Ok true /\
  Ply.read_ply native read_csv astype (fst w) (Ply.out_name filename) =
  Ok (<["mesh" := Pd.Frame [("v1", Np.int32); ("v2", Np.int32); ("v3", Np.int32)] (Np.nd_rows F)]>
        (<["points" := Pd.Frame [("x", Np.float32); ("y", Np.float32); ("z", Np.float32)]
                                (Np.nd_rows P)]> ∅)).
Proof.
  intros HP HF w.
  destruct (write_binary_file fs filename P F HP HF) as [Hres Hfile]. fold w in Hres, Hfile.
  split; [exact Hres|].
  set (n := Z.of_nat (length (Np.nd_rows P))) in *.
  set (m := Z.of_nat (length (Np.nd_rows F))) in *.
  set (pcols := [("x", Np.float32); ("y", Np.float32); ("z", Np.float32)]) in *.
  destruct (read_binary_header native n m (block native pcols (Np.nd_rows P) +:+ face_block native F))
    as (h & Hh & Hfmt & Hext & Hps & Hms & Hv & Hf & Hend); [subst n; lia | subst m; lia |].
  unfold Ply.read_ply. rewrite Hfile. cbn [of_option bind]. rewrite Hh. cbn [bind].
  rewrite Hfmt. unfold Ply.read_binary. rewrite Hend, drop_app, Hv, Hps, Hext, Hms.
  destruct native_spec as [Sv Sf].
  pose proof HP as (_ & _ & HrP). pose proof HF as (HdF & _ & _).
  destruct (fromfile_block native native _ pcols (Np.nd_rows P) (face_block native F) Sv)
    as (pa & Ep & _ & Fp);
    [discriminate | now apply rows_ok_of_range |].
  fold n in Ep. rewrite Ep. cbn [bind fst snd]. rewrite native_is_not_foreign, Fp.
  rewrite Hf.
  destruct (fromfile_block native native _ (("n_points", Np.uint8) :: mesh_columns F)
              (map (cons 3) (Np.nd_rows F)) "" (Sf (Np.nd_dtype F) HdF))
    as (ma & Em & _ & Fm);
    [discriminate | now apply face_rows_ok |].
  rewrite append_nil_r, length_map, <- face_block_is_block in Em. fold m in Em.
  rewrite Em. cbn [bind fst snd]. rewrite native_is_not_foreign, Fm.
  rewrite (drop_count_column F HF). reflexivity.
Qed.

End RoundTrip.

Lemma test_arrays_in_range : float32_points P32 /\ int32_mesh F32.
Proof.
  split; (split; [reflexivity|]); (split; [reflexivity|]);
    repeat constructor; cbv; congruence.
Qed.

(** The vertex (1.0, 2.0, 3.0) and the face (0, 0, 0), as float32 and
    int32, on a little-endian machine. *)
Lemma roundtrip_float32_int32_witness :
  let w := Ply.write_ply Np.Little (fun _ => "") (fun a _ => a) ∅ "a.ply"
             (Some P32) (Some F32) None false in
  snd w = Ok true /\
  Ply.read_ply Np.Little toy_read_csv toy_astype (fst w) (Ply.out_name "a.ply") =
  Ok (<["mesh" := Pd.Frame [("v1", Np.int32); ("v2", Np.int32); ("v3", Np.int32)]
                           (Np.nd_rows F32)]>
        (<["points" := Pd.Frame [("x", Np.float32); ("y", Np.float32); ("z", Np.float32)]
                                (Np.nd_rows P32)]> ∅)).
Proof.
  exact (roundtrip_float32_int32 Np.Little toy_read_csv toy_astype (fun _ => "") (fun a _ => a)
           ∅ "a.ply" P32 F32 (proj1 test_arrays_in_range) (proj2 test_arrays_in_range)).
Defined.

(** * Further properties *)

(** ** Byte order of the reading machine *)

Lemma be_value_app (a b : string) :
  forall acc, Np.be_value (a +:+ b) acc = Np.be_value b (Np.be_value a acc).
Proof. induction a as [|c a IH]; intros acc; cbn; [reflexivity | apply IH]. Qed.

Lemma srev_cons (c : ascii) (s : string) : Np.srev (String c s) = Np.srev s +:+ String c "".
Proof. unfold Np.srev. cbn. now rewrite of_list_app. Qed.

Lemma be_value_srev (s : string) : Np.be_value (Np.srev s) 0 = Np.le_value s.
Proof.
  induction s as [|c s IH]; [reflexivity|].
  rewrite srev_cons, be_value_app, IH. cbn. lia.
Qed.

Lemma srev_involutive (s : string) : Np.srev (Np.srev s) = s.
Proof.
  unfold Np.srev. rewrite list_ascii_of_string_of_list_ascii, rev_involutive.
  apply string_of_list_ascii_of_string.
Qed.

Lemma of_bytes_srev (o : Np.byteorder) (d : Np.dtype) (b : string) :
  Np.of_bytes (Np.flip o) d (Np.srev b) = Np.of_bytes o d b.
Proof.
  unfold Np.of_bytes.
  assert (E : Np.unsigned_value (Np.flip o) (Np.srev b) = Np.unsigned_value o b).
  { destruct o; cbn.
    - apply be_value_srev.
    - rewrite <- (be_value_srev (Np.srev b)). now rewrite srev_involutive. }
  now rewrite E.
Qed.

Lemma record_values_swap (fs : list Np.field) :
  forall r,
    Np.record_values
      (map (fun f => Np.Field (Np.f_name f) (Np.flip (Np.f_order f)) (Np.f_dtype f)) fs)
      (map Np.srev r)
    = Np.record_values fs r.
Proof.
  induction fs as [|f fs IH]; intros [|b r]; cbn; try reflexivity.
  now rewrite of_bytes_srev, IH.
Qed.

(** [byteswap().newbyteorder()] changes the memory, not the values. *)
Lemma of_records_swap (a : Np.recarray) :
  Pd.of_records (Np.newbyteorder (Np.byteswap a)) = Pd.of_records a.
Proof.
  unfold Pd.of_records, Np.newbyteorder, Np.byteswap. cbn. f_equal.
  - rewrite map_map. reflexivity.
  - rewrite map_map. apply map_ext. intros r. apply record_values_swap.
Qed.

Lemma of_records_swap_if_foreign native ext (a : Np.recarray) :
  Pd.of_records (Ply.swap_if_foreign native ext a) = Pd.of_records a.
Proof.
  unfold Ply.swap_if_foreign. destruct (negb _); [apply of_records_swap | reflexivity].
Qed.

Lemma parse_code_marked (n1 n2 : Np.byteorder) (c : string) :
  marked c = true -> Np.parse_code n1 c = Np.parse_code n2 c.
Proof.
  destruct c as [|x c]; [discriminate|].
  intros H. unfold Np.parse_code.
  destruct x as [[] [] [] [] [] [] [] []]; try discriminate H; reflexivity.
Qed.

Lemma parse_fields_marked (n1 n2 : Np.byteorder) (spec : list (string * string)) :
  Forall (fun p => marked (snd p) = true) spec ->
  Np.parse_fields n1 spec = Np.parse_fields n2 spec.
Proof.
  induction 1 as [|[n c] spec Hc _ IH]; cbn [Np.parse_fields]; [reflexivity|].
  cbn in Hc. now rewrite (parse_code_marked n1 n2 c Hc), IH.
Qed.

Lemma fromfile_marked (n1 n2 : Np.byteorder) s spec cnt :
  Forall (fun p => marked (snd p) = true) spec ->
  Np.fromfile n1 s spec cnt = Np.fromfile n2 s spec cnt.
Proof.
  intros H. unfold Np.fromfile, Np.dtype_of_list.
  now rewrite (parse_fields_marked n1 n2 spec H).
Qed.

Lemma valid_formats_cases (fmt ext : string) :
  Ply.valid_formats !! fmt = Some ext ->
  (fmt = "ascii" /\ ext = "") \/
  (fmt = "binary_big_endian" /\ ext = ">") \/
  (fmt = "binary_little_endian" /\ ext = "<").
Proof.
  unfold Ply.valid_formats, Py.dict. cbn [fold_left fst snd].
  intros H.
  apply lookup_insert_Some in H as [[<- <-]|[_ H]]; [tauto|].
  apply lookup_insert_Some in H as [[<- <-]|[_ H]]; [tauto|].
  apply lookup_insert_Some in H as [[<- <-]|[_ H]]; [tauto|].
  rewrite lookup_empty in H. discriminate.
Qed.

Lemma read_header_format content h :
  Ply.read_header content = Ok h ->
  Ply.valid_formats !! Ply.h_fmt h = Some (Ply.h_ext h).
Proof.
  unfold Ply.read_header. intros H.
  destruct (negb _); [discriminate|].
  repeat inv_bind H. injection H as <-. cbn. now apply getitem_Ok.
Qed.

Lemma binary_codes_marked content h el :
  Ply.read_header content = Ok h ->
  String.eqb (Ply.h_fmt h) "ascii" = false ->
  Forall (fun p => marked (snd p) = true) (Ply.dtypes_get (Ply.dtypes (Ply.h_locals h)) el).
Proof.
  intros H Hf.
  pose proof (read_header_codes _ _ H) as Hc.
  pose proof (valid_formats_cases _ _ (read_header_format _ _ H)) as Hx.
  unfold code_prefix in Hc. rewrite Hf in Hc.
  apply List.Forall_forall. intros [nm c] Hin. cbn.
  destruct (Hc el nm c Hin) as (k & _ & ->).
  destruct Hx as [[E _]|[[_ ->]|[_ ->]]]; [|reflexivity..].
  rewrite E in Hf. discriminate.
Qed.

Section ByteOrder.

Variable read_csv : string -> Z -> Z -> Pd.usecols -> list string -> result Pd.DataFrame.
Variable astype : string -> string -> Pd.DataFrame -> result Pd.DataFrame.

Lemma read_binary_byte_order content h :
  Ply.read_header content = Ok h ->
  String.eqb (Ply.h_fmt h) "ascii" = false ->
  Ply.read_binary Np.Little content h = Ply.read_binary Np.Big content h.
Proof.
  intros H Hf. unfold Ply.read_binary.
  rewrite (fromfile_marked Np.Little Np.Big _ _ _ (binary_codes_marked _ _ "vertex" H Hf)).
  destruct (Np.fromfile Np.Big _ _ _) as [pr|e]; [|reflexivity]. cbn [bind].
  rewrite !of_records_swap_if_foreign.
  destruct (Ply.mesh_size (Ply.h_locals h)); [|reflexivity].
  rewrite (fromfile_marked Np.Little Np.Big _ _ _ (binary_codes_marked _ _ "face" H Hf)).
  destruct (Np.fromfile Np.Big _ _ _) as [mr|e]; [|reflexivity]. cbn [bind].
  rewrite !of_records_swap_if_foreign. reflexivity.
Qed.

Lemma read_ply_little_big (fs : gmap string string) (filename : string) :
  Ply.read_ply Np.Little read_csv astype fs filename =
  Ply.read_ply Np.Big read_csv astype fs filename.
Proof.
  unfold Ply.read_ply.
  destruct (fs !! filename) as [content|]; [|reflexivity]. cbn [of_option bind].
  destruct (Ply.read_header content) as [h|e] eqn:H; [|reflexivity]. cbn [bind].
  destruct (String.eqb (Ply.h_fmt h) "ascii") eqn:Hf; [reflexivity|].
  now apply read_binary_byte_order.
Qed.

(** X3. The tables [read_ply] returns depend on the file, not on the byte
    order of the machine that reads it: a file of the other byte order is
    swapped on the way in ([byteswap().newbyteorder()], as NumPy 1
    has it), which changes the memory and not the values. *)
Theorem read_ply_byte_order_independent (fs : gmap string string) (filename : string) :
  Ply.read_ply Np.Little read_csv astype fs filename =
  Ply.read_ply Np.Big read_csv astype fs filename.
Proof. apply read_ply_little_big. Qed.

End ByteOrder.

(** ** The tables returned *)

Section Tables.

Variable native : Np.byteorder.
Variable read_csv : string -> Z -> Z -> Pd.usecols -> list string -> result Pd.DataFrame.
Variable astype : string -> string -> Pd.DataFrame -> result Pd.DataFrame.

Lemma points_only (pts : Pd.DataFrame) (d : gmap string Pd.DataFrame) :
  d = <["points" := pts]> ∅ ->
  is_Some (d !! "points") /\ d !! "mesh" = None /\
  forall k, is_Some (d !! k) -> k = "points" \/ k = "mesh".
Proof.
  intros ->. split; [|split].
  - rewrite lookup_insert_eq. eauto.
  - reflexivity.
  - intros k [x Hk]. apply lookup_insert_Some in Hk as [[<- _]|[_ Hk]]; [now left|].
    rewrite lookup_empty in Hk. discriminate.
Qed.

Lemma points_and_mesh (pts m : Pd.DataFrame) (d : gmap string Pd.DataFrame) :
  d = <["mesh" := m]> (<["points" := pts]> ∅) ->
  is_Some (d !! "points") /\ is_Some (d !! "mesh") /\
  forall k, is_Some (d !! k) -> k = "points" \/ k = "mesh".
Proof.
  intros ->. split; [|split].
  - rewrite lookup_insert_ne by discriminate. rewrite lookup_insert_eq. eauto.
  - rewrite lookup_insert_eq. eauto.
  - intros k [x Hk]. apply lookup_insert_Some in Hk as [[<- _]|[_ Hk]]; [now right|].
    apply lookup_insert_Some in Hk as [[<- _]|[_ Hk]]; [now left|].
    rewrite lookup_empty in Hk. discriminate.
Qed.

(** X6. What [read_ply] returns has a table [points], a table [mesh] exactly
    when the header declares a face element, and nothing else: elements of
    other names, comments and [obj_info] lines are not returned. *)
Theorem read_ply_returns_points_and_mesh (fs : gmap string string) (filename : string)
    (d : gmap string Pd.DataFrame) :
  Ply.read_ply native read_csv astype fs filename = Ok d ->
  exists content h,
    fs !! filename = Some content /\
    Ply.read_header content = Ok h /\
    is_Some (d !! "points") /\
    (is_Some (d !! "mesh") <-> is_Some (Ply.mesh_size (Ply.h_locals h))) /\
    forall k, is_Some (d !! k) -> k = "points" \/ k = "mesh".
Proof.
  unfold Ply.read_ply. intros H.
  destruct (fs !! filename) as [content|] eqn:Hc; [|discriminate]. cbn [of_option bind] in H.
  destruct (Ply.read_header content) as [h|e] eqn:Hh; [|discriminate]. cbn [bind] in H.
  exists content, h. split; [reflexivity|]. split; [exact Hh|].
  assert (Hcases :
    (Ply.mesh_size (Ply.h_locals h) = None /\ exists pts, d = <["points" := pts]> ∅) \/
    (is_Some (Ply.mesh_size (Ply.h_locals h)) /\
     exists pts m, d = <["mesh" := m]> (<["points" := pts]> ∅))).
  { destruct (String.eqb (Ply.h_fmt h) "ascii").
    - unfold Ply.read_ascii in H. repeat inv_bind H.
      destruct (Ply.mesh_size (Ply.h_locals h)) as [ms|].
      + repeat inv_bind H. injection H as <-. right. eauto.
      + injection H as <-. left. eauto.
    - unfold Ply.read_binary in H. repeat inv_bind H.
      destruct (Ply.mesh_size (Ply.h_locals h)) as [ms|].
      + repeat inv_bind H. injection H as <-. right. eauto.
      + injection H as <-. left. eauto. }
  destruct Hcases as [[Hn (pts & E)]|[Hs (pts & m & E)]].
  - destruct (points_only pts d E) as (Hp & Hm & Hk).
    split; [exact Hp|]. split; [|exact Hk].
    rewrite Hm, Hn. split; intros [x Hx]; discriminate.
  - destruct (points_and_mesh pts m d E) as (Hp & Hm & Hk).
    split; [exact Hp|]. split; [|exact Hk]. tauto.
Qed.

End Tables.

(** The file with a flags property on its faces has both tables. *)
Lemma read_ply_returns_points_and_mesh_witness :
  exists d content h,
    Ply.read_ply Np.Little toy_read_csv toy_astype {[ "f.ply" := flagged_file ]} "f.ply" = Ok d /\
    ({[ "f.ply" := flagged_file ]} : gmap string string) !! "f.ply" = Some content /\
    Ply.read_header content = Ok h /\
    is_Some (d !! "points") /\
    (is_Some (d !! "mesh") <-> is_Some (Ply.mesh_size (Ply.h_locals h))) /\
    forall k, is_Some (d !! k) -> k = "points" \/ k = "mesh".
Proof.
  destruct (Ply.read_ply Np.Little toy_read_csv toy_astype {[ "f.ply" := flagged_file ]} "f.ply")
    as [d|e] eqn:Hd; [|vm_compute in Hd; discriminate Hd].
  destruct (read_ply_returns_points_and_mesh Np.Little toy_read_csv toy_astype
              {[ "f.ply" := flagged_file ]} "f.ply" d Hd) as (content & h & H).
  exists d, content, h. split; [reflexivity | exact H].
Defined.

(** ** Faulty headers, and where the header ends *)

Lemma read_header_steps (content : string) :
  Ply.read_header content =
  let ls := Py.readlines content in
  if negb (Py.contains "ply" (hd "" ls))
  then Err (ValueError "The file does not start whith the word ply") else
  let* fe := format_of (hd "" (tl ls)) in
  let* r := Ply.header_loop (fst fe) (snd fe) (tl (tl ls))
              (String.length (hd "" ls) + String.length (hd "" (tl ls))) Ply.locals0 in
  Ok (Ply.Header (fst fe) (snd fe) (fst r) (snd r)).
Proof.
  unfold Ply.read_header, format_of. cbv zeta.
  destruct (negb _); [reflexivity|].
  destruct (Py.index _ 1) as [f|e]; [|reflexivity]. cbn [bind].
  destruct (Py.decode f) as [fmt|e]; [|reflexivity]. cbn [bind].
  destruct (Py.getitem Ply.valid_formats fmt) as [ext|e]; reflexivity.
Qed.

Lemma inert_line fmt ext st l :
  inert l = true ->
  Ply.header_line fmt ext st l = Ok (st, Ply.LBytes l) /\
  Ply.continues (Ply.LBytes l) = true.
Proof.
  unfold inert. intros H.
  apply andb_prop in H as [H H4]. apply andb_prop in H as [H H3].
  apply andb_prop in H as [H1 H2].
  apply negb_true_iff in H1, H2.
  unfold Ply.header_line, Ply.continues. rewrite H1, H2, H3, H4. split; reflexivity.
Qed.

(** Lines passed over leave the variables alone, but for the count. *)
Lemma header_loop_inert fmt ext (pre rest : list string) :
  forall pos st,
    Forall (fun l => inert l = true) pre ->
    exists pos' c,
      Ply.header_loop fmt ext (pre ++ rest) pos st =
      Ply.header_loop fmt ext rest pos'
        (Ply.Locals (Ply.dtypes st) c (Ply.points_size st) (Ply.mesh_size st) (Ply.name st)).
Proof.
  induction pre as [|l pre IH]; intros pos st Hp.
  - exists pos, (Ply.count st). destruct st; reflexivity.
  - inversion Hp as [|? ? Hl Hp']; subst.
    destruct (inert_line fmt ext st l Hl) as [E1 E2].
    cbn [app Ply.header_loop]. rewrite E1. cbn [bind fst snd]. rewrite E2.
    destruct (IH (pos + String.length l)%nat (Ply.bump st) Hp') as (pos' & c & E).
    exists pos', c. exact E.
Qed.

Section HeaderErrors.

Variable native : Np.byteorder.
Variable read_csv : string -> Z -> Z -> Pd.usecols -> list string -> result Pd.DataFrame.
Variable astype : string -> string -> Pd.DataFrame -> result Pd.DataFrame.

#[local] Abbreviation read_ply := (Ply.read_ply native read_csv astype).

Lemma read_ply_header_error fs filename content e :
  fs !! filename = Some content ->
  Ply.read_header content = Err e ->
  read_ply fs filename = Err e.
Proof. intros Hc Hh. unfold Ply.read_ply. rewrite Hc. cbn. rewrite Hh. reflexivity. Qed.

(** X9. The format line. After a first line with [ply] in it, a second line of
    fewer than two words raises [IndexError] (so does a file that ends
    after its first line), and a second word that is not one of the three
    format names raises [KeyError]. *)
Theorem read_ply_format_line_errors (fs : gmap string string) (filename content : string) :
  fs !! filename = Some content ->
  Py.contains "ply" (hd "" (Py.readlines content)) = true ->
  let words := Py.split (hd "" (tl (Py.readlines content))) in
  (nth_error words 1 = None -> read_ply fs filename = Err IndexError) /\
  (forall f,
     nth_error words 1 = Some f ->
     Py.utf8_ok f 0 0 0 = true ->
     f <> "ascii" -> f <> "binary_big_endian" -> f <> "binary_little_endian" ->
     read_ply fs filename = Err (KeyError f)).
Proof.
  intros Hc Hp words. split.
  - intros Hw. apply (read_ply_header_error _ _ content); [exact Hc|].
    rewrite read_header_steps. cbv zeta. rewrite Hp. cbn [negb].
    unfold format_of, Py.index. fold words. rewrite Hw. reflexivity.
  - intros f Hw Hu H1 H2 H3. apply (read_ply_header_error _ _ content); [exact Hc|].
    rewrite read_header_steps. cbv zeta. rewrite Hp. cbn [negb].
    unfold format_of, Py.index, Py.decode. fold words. rewrite Hw. cbn [of_option bind].
    rewrite Hu. cbn [bind].
    unfold Py.getitem.
    destruct (Ply.valid_formats !! f) as [ext|] eqn:E; [|reflexivity].
    apply valid_formats_cases in E. exfalso. tauto.
Qed.

Lemma read_header_after_inert content l1 l2 pre rest fmt ext :
  Py.readlines content = l1 :: l2 :: (pre ++ rest)%list ->
  Py.contains "ply" l1 = true ->
  format_of l2 = Ok (fmt, ext) ->
  Forall (fun l => inert l = true) pre ->
  exists pos c,
    Ply.read_header content =
    let* r := Ply.header_loop fmt ext rest pos (Ply.Locals ∅ c None None None) in
    Ok (Ply.Header fmt ext (fst r) (snd r)).
Proof.
  intros Hl Hp Hf Hpre.
  rewrite read_header_steps. cbv zeta. rewrite Hl. cbn [hd tl]. rewrite Hp, Hf.
  cbn [negb bind fst snd].
  destruct (header_loop_inert fmt ext pre rest (String.length l1 + String.length l2)
              Ply.locals0 Hpre) as (pos & c & E).
  rewrite E. exists pos, c. reflexivity.
Qed.

(** X10. A property line that comes before any element line raises
    [NameError]: the element it would belong to has no name yet. *)
Theorem property_before_element_raises (fs : gmap string string)
    (filename content l1 l2 : string) (pre : list string) (p : string) (rest : list string)
    (fmt ext : string) :
  fs !! filename = Some content ->
  Py.readlines content = l1 :: l2 :: (pre ++ p :: rest)%list ->
  Py.contains "ply" l1 = true ->
  format_of l2 = Ok (fmt, ext) ->
  Forall (fun l => inert l = true) pre ->
  Py.contains "element" p = false ->
  Py.contains "property" p = true ->
  read_ply fs filename = Err (NameError "name").
Proof.
  intros Hc Hl Hp Hf Hpre H1 H2.
  apply (read_ply_header_error _ _ content); [exact Hc|].
  destruct (read_header_after_inert content l1 l2 pre (p :: rest) fmt ext
              Hl Hp Hf Hpre) as (pos & c & ->).
  cbn [Ply.header_loop]. unfold Ply.header_line. rewrite H1, H2.
  destruct (existsb _ _); reflexivity.
Qed.

(** Lines before the end of the header are read one after the other. *)
Lemma header_loop_scan fmt ext (pre rest : list string) :
  forall pos st,
    (forall l, In l pre -> Py.contains "end_header" l = false /\ l <> "") ->
    exists pos',
      Ply.header_loop fmt ext (pre ++ rest) pos st =
      match scan fmt ext pre st with
      | Err e0 => Err e0
      | Ok st' => Ply.header_loop fmt ext rest pos' st'
      end.
Proof.
  induction pre as [|l pre IH]; intros pos st Hpre.
  - exists pos. reflexivity.
  - cbn [app Ply.header_loop scan].
    destruct (Ply.header_line fmt ext st l) as [[st' lv]|e0] eqn:E.
    + cbn [bind fst snd].
      destruct (Hpre l (or_introl eq_refl)) as [Hno Hne].
      rewrite (header_line_continues _ _ _ _ _ _ E Hno Hne).
      apply IH. intros l' Hl'. apply Hpre. now right.
    + exists pos. reflexivity.
Qed.

(** X11. A line with [element] in it, before the end of the header, is
    taken for an element line wherever the word stands and whatever
    lines came before. If it has no second word it raises [IndexError];
    if its second word is not UTF-8, [UnicodeDecodeError]; if it has no
    third word, [IndexError]; if its third word is not an integer,
    [ValueError]. [read_ply] ends with that exception, or with the one
    an earlier header line raised, if one did. *)
Theorem element_line_errors (fs : gmap string string)
    (filename content l1 l2 : string) (pre : list string) (e : string) (rest : list string)
    (fmt ext : string) :
  fs !! filename = Some content ->
  Py.readlines content = l1 :: l2 :: (pre ++ e :: rest)%list ->
  Py.contains "ply" l1 = true ->
  format_of l2 = Ok (fmt, ext) ->
  (forall l, In l pre -> Py.contains "end_header" l = false) ->
  Py.contains "element" e = true ->
  let words := Py.split e in
  let ends_with x := read_ply fs filename = Err (first_error fmt ext pre x) in
  (nth_error words 1 = None -> ends_with IndexError) /\
  (forall w1,
     nth_error words 1 = Some w1 -> Py.utf8_ok w1 0 0 0 = false ->
     ends_with UnicodeDecodeError) /\
  (forall w1,
     nth_error words 1 = Some w1 -> Py.utf8_ok w1 0 0 0 = true ->
     nth_error words 2 = None ->
     ends_with IndexError) /\
  (forall w1 w2 x,
     nth_error words 1 = Some w1 -> Py.utf8_ok w1 0 0 0 = true ->
     nth_error words 2 = Some w2 -> Py.int w2 = Err x ->
     (exists msg, x = ValueError msg) /\ ends_with x).
Proof.
  intros Hc Hl Hp Hf Hpre H1 words ends_with.
  assert (Hline : forall x,
            (forall st, Ply.header_line fmt ext st e = Err x) -> ends_with x).
  { intros x Hx. unfold ends_with, first_error.
    assert (Hh : Ply.read_header content =
                 Err (match scan fmt ext pre Ply.locals0 with Err e0 => e0 | Ok _ => x end)).
    { rewrite read_header_steps. cbv zeta. rewrite Hl. cbn [hd tl]. rewrite Hp, Hf.
      cbn [negb bind fst snd].
      destruct (header_loop_scan fmt ext pre (e :: rest)
                  (String.length l1 + String.length l2) Ply.locals0) as [pos' ->].
      - intros l Hin. split; [now apply Hpre|].
        apply (readlines_nonempty content). rewrite Hl. right. right.
        apply in_or_app. now left.
      - destruct (scan fmt ext pre Ply.locals0) as [st'|e0]; [|reflexivity].
        cbn [Ply.header_loop]. rewrite Hx. reflexivity. }
    now apply (read_ply_header_error _ _ content). }
  split; [|split; [|split]].
  - intros E1. apply Hline. intros st. unfold Ply.header_line. rewrite H1. fold words.
    unfold Py.index. rewrite E1. reflexivity.
  - intros w1 E1 Hu. apply Hline. intros st. unfold Ply.header_line. rewrite H1. fold words.
    unfold Py.index, Py.decode. rewrite E1. cbn [of_option bind]. rewrite Hu. reflexivity.
  - intros w1 E1 Hu E2. apply Hline. intros st. unfold Ply.header_line. rewrite H1. fold words.
    unfold Py.index, Py.decode. rewrite E1. cbn [of_option bind]. rewrite Hu. cbn [bind].
    rewrite E2. reflexivity.
  - intros w1 w2 x E1 Hu E2 Hi. split.
    + unfold Py.int, of_option in Hi.
      destruct w2 as [|c w2]; [cbn in Hi; injection Hi as <-; eauto|].
      repeat match type of Hi with
             | context [match ?o with Some _ => _ | None => _ end] => destruct o
             | context [if ?b then _ else _] => destruct b
             | context [match ?a with Ascii _ _ _ _ _ _ _ _ => _ end] => destruct a
             end;
        first [discriminate Hi | injection Hi as <-; eauto].
    + apply Hline. intros st. unfold Ply.header_line. rewrite H1. fold words.
      unfold Py.index, Py.decode. rewrite E1. cbn [of_option bind]. rewrite Hu. cbn [bind].
      rewrite E2. cbn [of_option bind]. rewrite Hi. reflexivity.
Qed.

End HeaderErrors.

(** ** The header ends at [end_header] *)

Lemma end_header_stops fmt ext st :
  Ply.header_line fmt ext st ("end_header" +:+ Ply.nl) =
    Ok (st, Ply.LBytes ("end_header" +:+ Ply.nl)) /\
  Ply.continues (Ply.LBytes ("end_header" +:+ Ply.nl)) = false.
Proof. split; reflexivity. Qed.

Lemma header_loop_ignores_rest fmt ext (hs : list string) (X X' : list string) :
  forall pos st,
    In "end_header" hs ->
    Ply.header_loop fmt ext (map (fun l => l +:+ Ply.nl) hs ++ X) pos st =
    Ply.header_loop fmt ext (map (fun l => l +:+ Ply.nl) hs ++ X') pos st.
Proof.
  induction hs as [|l hs IH]; intros pos st Hin; [destruct Hin|].
  cbn [map app Ply.header_loop].
  destruct Hin as [->|Hin].
  - destruct (end_header_stops fmt ext st) as [-> E]. cbn [bind fst snd]. now rewrite E.
  - destruct (Ply.header_line fmt ext st (l +:+ Ply.nl)) as [r|e]; [|reflexivity].
    cbn [bind]. destruct (Ply.continues (snd r)); [|reflexivity].
    now apply IH.
Qed.

(** X8. Nothing after the [end_header] line is read as header: two files with
    the same header lines, [end_header] among them (from the third line
    on), have the same header, whatever bytes follow. *)
Theorem header_ignores_payload (hs : list string) (payload payload' : string) :
  Forall (fun l => all_chars not_newline l = true) hs ->
  In "end_header" (List.skipn 2 hs) ->
  Ply.read_header (Ply.header_text hs +:+ payload) =
  Ply.read_header (Ply.header_text hs +:+ payload').
Proof.
  intros Hnl Hin.
  destruct hs as [|h1 [|h2 hs]]; try destruct Hin. 
  unfold Ply.read_header.
  rewrite !readlines_header by exact Hnl.
  cbn [map app hd tl].
  destruct (negb _); [reflexivity|].
  destruct (Py.index _ 1) as [f|e]; [|reflexivity]. cbn [bind].
  destruct (Py.decode f) as [fmt|e]; [|reflexivity]. cbn [bind].
  destruct (Py.getitem Ply.valid_formats fmt) as [ext|e]; [|reflexivity]. cbn [bind].
  cbn [List.skipn] in Hin.
  now rewrite (header_loop_ignores_rest fmt ext hs (Py.readlines payload) (Py.readlines payload')).
Qed.

Lemma prefix_nl (sub : string) :
  forall l,
    all_chars not_newline sub = true ->
    String.prefix sub (l +:+ Ply.nl) = true -> String.prefix sub l = true.
Proof.
  induction sub as [|x sub IH]; intros l Hs H; [now destruct l|].
  cbn [all_chars] in Hs. apply andb_prop in Hs as [Hx Hs].
  destruct l as [|c l]; cbn in H |- *.
  - destruct (ascii_dec x "010") as [->|]; [discriminate Hx | discriminate H].
  - destruct (ascii_dec x c); [|discriminate H]. now apply IH.
Qed.

Lemma contains_nl (sub l : string) :
  all_chars not_newline sub = true -> sub <> "" ->
  Py.contains sub l = false -> Py.contains sub (l +:+ Ply.nl) = false.
Proof.
  intros Hs Hne. induction l as [|c l IH]; intros H.
  - destruct sub as [|x sub]; [congruence|].
    cbn [all_chars] in Hs. apply andb_prop in Hs as [Hx _].
    cbn. destruct (ascii_dec x "010") as [->|]; [discriminate Hx|].
    destruct sub; reflexivity.
  - rewrite contains_unfold in H. apply orb_false_elim in H as [H1 H2].
    change ((String c l) +:+ Ply.nl) with (String c (l +:+ Ply.nl)).
    rewrite contains_unfold. rewrite (IH H2), orb_false_r.
    destruct (String.prefix sub (String c (l +:+ Ply.nl))) eqn:E; [|reflexivity].
    change (String c (l +:+ Ply.nl)) with ((String c l) +:+ Ply.nl) in E.
    apply prefix_nl in E; [congruence | exact Hs].
Qed.

Lemma header_loop_to_end fmt ext (body : list string) (X : list string) :
  forall pos st r,
    (forall l, In l body -> Py.contains "end_header" l = false /\ l <> "") ->
    Ply.header_loop fmt ext (body ++ ("end_header" +:+ Ply.nl) :: X) pos st = Ok r ->
    snd r = (pos + fold_right (fun l n => (String.length l + n)%nat) 0%nat body + 11)%nat /\
    Ply.count (fst r) = Ply.count st + Z.of_nat (length body) + 1.
Proof.
  induction body as [|l body IH]; intros pos st r Hb H.
  - cbn [app Ply.header_loop] in H.
    destruct (end_header_stops fmt ext st) as [E1 E2]. rewrite E1 in H.
    cbn [bind fst snd] in H. rewrite E2 in H. injection H as <-.
    cbn. split; lia.
  - cbn [app Ply.header_loop] in H. inv_bind H. destruct a as [st' lv].
    cbn [fst snd] in H.
    destruct (Hb l (or_introl eq_refl)) as [Hl Hne].
    rewrite (header_line_continues _ _ _ _ _ _ E Hl Hne) in H.
    apply IH in H; [|intros l' Hl'; apply Hb; now right].
    destruct H as [H1 H2]. rewrite H1, H2. cbn [fold_right length Ply.bump Ply.count].
    rewrite (header_line_count _ _ _ _ _ _ E). split; lia.
Qed.

(** X7. The data start right after the header. For a header of any elements
    and properties that ends with its first [end_header] line, the offset
    [read_ply] seeks to is the length of the header, what it reads from
    there are the bytes that follow, and [count] is the number of header
    lines (the rows the ascii reader skips). *)
Theorem payload_starts_after_header (h1 h2 : string) (body : list string)
    (payload : string) (h : Ply.header) :
  Forall (fun l => all_chars not_newline l = true) (h1 :: h2 :: body) ->
  Forall (fun l => Py.contains "end_header" l = false) body ->
  let lines := (h1 :: h2 :: body ++ ["end_header"])%list in
  let content := Ply.header_text lines +:+ payload in
  Ply.read_header content = Ok h ->
  Ply.h_end h = String.length (Ply.header_text lines) /\
  Py.drop (Ply.h_end h) content = payload /\
  Ply.count (Ply.h_locals h) = Z.of_nat (length lines).
Proof.
  intros Hnl Hend lines content H.
  assert (Hnl' : Forall (fun l => all_chars not_newline l = true) lines).
  { unfold lines. inversion Hnl as [|? ? A1 Hnl1]; subst.
    inversion Hnl1 as [|? ? A2 Hnl2]; subst.
    repeat constructor; try assumption.
    apply Forall_app. split; [exact Hnl2 | repeat constructor]. }
  unfold content, Ply.read_header in H.
  rewrite readlines_header in H by exact Hnl'.
  unfold lines in H. cbn [map app hd tl] in H.
  destruct (negb _); [discriminate|].
  repeat inv_bind H. injection H as <-.
  cbn [Ply.h_end Ply.h_locals].
  rewrite map_app in E2. cbn [map] in E2. rewrite <- app_assoc in E2. cbn [app] in E2.
  apply header_loop_to_end in E2.
  - destruct E2 as [E2 E3].
    assert (Hlen : snd a2 = String.length (Ply.header_text lines)).
    { rewrite E2. unfold lines. rewrite header_text_length.
      cbn [fold_right]. rewrite !append_length.
      change (String.length Ply.nl) with 1%nat.
      rewrite fold_right_app. cbn [fold_right String.length].
      clear. induction body as [|l body IH]; cbn [map fold_right]; [lia|].
      rewrite append_length. change (String.length Ply.nl) with 1%nat. lia. }
    split; [exact Hlen|]. split.
    + rewrite Hlen. apply drop_app.
    + rewrite E3. unfold lines. cbn [Ply.locals0 Ply.count length].
      rewrite length_map, length_app. cbn [length]. lia.
  - intros l Hl. apply in_map_iff in Hl as (l0 & <- & Hl0).
    rewrite List.Forall_forall in Hend. split.
    + apply contains_nl; [reflexivity | discriminate | now apply Hend].
    + destruct l0; discriminate.
Qed.

Lemma read_ply_format_line_errors_witness :
  Ply.read_ply Np.Little toy_read_csv toy_astype {[ "a.ply" := one_line_file ]} "a.ply"
    = Err IndexError /\
  Ply.read_ply Np.Little toy_read_csv toy_astype {[ "b.ply" := unknown_format_file ]} "b.ply"
    = Err (KeyError "binary").
Proof.
  split.
  - refine (proj1 (read_ply_format_line_errors Np.Little toy_read_csv toy_astype
                     {[ "a.ply" := one_line_file ]} "a.ply" one_line_file
                     (lookup_singleton_eq _ _) _) _); vm_compute; reflexivity.
  - refine (proj2 (read_ply_format_line_errors Np.Little toy_read_csv toy_astype
                     {[ "b.ply" := unknown_format_file ]} "b.ply" unknown_format_file
                     (lookup_singleton_eq _ _) _) "binary" _ _ _ _ _);
      first [discriminate | vm_compute; reflexivity].
Defined.

Lemma property_before_element_raises_witness :
  Ply.read_ply Np.Little toy_read_csv toy_astype {[ "p.ply" := early_property_file ]} "p.ply"
    = Err (NameError "name").
Proof.
  refine (property_before_element_raises Np.Little toy_read_csv toy_astype
            {[ "p.ply" := early_property_file ]} "p.ply" early_property_file
            ("ply" +:+ Ply.nl) ("format ascii 1.0" +:+ Ply.nl)
            ["comment made by hand" +:+ Ply.nl] ("property float x" +:+ Ply.nl)
            ["end_header" +:+ Ply.nl] "ascii" ""
            (lookup_singleton_eq _ _) _ _ _ _ _ _); try (vm_compute; reflexivity).
  repeat constructor.
Defined.

Lemma element_line_errors_witness :
  Ply.read_ply Np.Little toy_read_csv toy_astype {[ "s.ply" := short_element_file ]} "s.ply"
    = Err IndexError /\
  Ply.read_ply Np.Little toy_read_csv toy_astype {[ "n.ply" := bad_name_file ]} "n.ply"
    = Err UnicodeDecodeError /\
  exists msg,
    Ply.read_ply Np.Little toy_read_csv toy_astype {[ "c.ply" := comment_element_file ]} "c.ply"
      = Err (ValueError msg).
Proof.
  split; [|split].
  - refine (proj1 (proj2 (proj2 (element_line_errors Np.Little toy_read_csv toy_astype
                     {[ "s.ply" := short_element_file ]} "s.ply" short_element_file
                     ("ply" +:+ Ply.nl) ("format ascii 1.0" +:+ Ply.nl)
                     [] ("element vertex" +:+ Ply.nl) ["end_header" +:+ Ply.nl] "ascii" ""
                     (lookup_singleton_eq _ _) eq_refl eq_refl eq_refl _ eq_refl)))
                  "vertex" eq_refl eq_refl eq_refl).
    intros l [].
  - refine (proj1 (proj2 (element_line_errors Np.Little toy_read_csv toy_astype
                     {[ "n.ply" := bad_name_file ]} "n.ply" bad_name_file
                     ("ply" +:+ Ply.nl) ("format ascii 1.0" +:+ Ply.nl)
                     [] ("element " +:+ String "255" ("" +:+ " 1") +:+ Ply.nl)
                     ["end_header" +:+ Ply.nl] "ascii" ""
                     (lookup_singleton_eq _ _) eq_refl eq_refl eq_refl _ eq_refl))
                  (String "255" "") eq_refl eq_refl).
    intros l [].
  - assert (Hpre : forall l, In l ["element vertex 0" +:+ Ply.nl] ->
                             Py.contains "end_header" l = false).
    { intros l [<-|[]]. vm_compute. reflexivity. }
    destruct (proj2 (proj2 (proj2 (element_line_errors Np.Little toy_read_csv toy_astype
                     {[ "c.ply" := comment_element_file ]} "c.ply" comment_element_file
                     ("ply" +:+ Ply.nl) ("format ascii 1.0" +:+ Ply.nl)
                     ["element vertex 0" +:+ Ply.nl] ("comment one element only" +:+ Ply.nl)
                     ["end_header" +:+ Ply.nl] "ascii" ""
                     (lookup_singleton_eq _ _) eq_refl eq_refl eq_refl Hpre eq_refl)))
                  "one" "element" (ValueError "invalid literal for int() with base 10")
                  eq_refl eq_refl eq_refl eq_refl) as [_ H].
    eexists. exact H.
Defined.

(** A little-endian header of one float column, before two payloads. *)
Lemma header_ignores_payload_witness :
  Ply.read_header
    (Ply.header_text ["ply"; "format binary_little_endian 1.0"; "element vertex 1";
                      "property float x"; "end_header"] +:+ "element face 1" +:+ Ply.nl)
  = Ply.read_header
    (Ply.header_text ["ply"; "format binary_little_endian 1.0"; "element vertex 1";
                      "property float x"; "end_header"] +:+ "").
Proof.
  apply header_ignores_payload.
  - repeat constructor.
  - cbn. tauto.
Defined.

Lemma payload_starts_after_header_witness :
  let lines := ["ply"; "format binary_little_endian 1.0"; "element vertex 1";
                "property float x"; "end_header"] in
  let h := Ply.Header "binary_little_endian" "<"
             (Ply.Locals {[ "vertex" := [("x", "<f4")] ]} 5 (Some 1) None (Some "vertex")) 81 in
  Ply.h_end h = String.length (Ply.header_text lines) /\
  Py.drop (Ply.h_end h) (Ply.header_text lines +:+ "abcd") = "abcd" /\
  Ply.count (Ply.h_locals h) = Z.of_nat (length lines).
Proof.
  intros lines h.
  refine (payload_starts_after_header "ply" "format binary_little_endian 1.0"
            ["element vertex 1"; "property float x"] "abcd" h _ _ _).
  - repeat constructor.
  - repeat constructor.
  - vm_compute. reflexivity.
Defined.

(** ** What [write_ply] does to the files *)

Lemma endswith_app (a b : string) : Py.endswith (a +:+ b) b = true.
Proof.
  unfold Py.endswith. rewrite append_length.
  replace (String.length a + String.length b - String.length b)%nat with (String.length a) by lia.
  rewrite drop_app, String.eqb_refl, andb_true_r.
  apply Nat.leb_le. lia.
Qed.

(** X18. The name of the file written always ends in [ply], and naming the
    file by that name gives the same file. *)
Theorem out_name_ends_in_ply (filename : string) :
  Py.endswith (Ply.out_name filename) "ply" = true /\
  Ply.out_name (Ply.out_name filename) = Ply.out_name filename.
Proof.
  assert (H : Py.endswith (Ply.out_name filename) "ply" = true).
  { unfold Ply.out_name. destruct (Py.endswith filename "ply") eqn:E; cbn [negb]; [exact E|].
    change (filename +:+ ".ply") with (filename +:+ ("." +:+ "ply")).
    rewrite <- append_assoc. apply endswith_app. }
  split; [exact H|].
  unfold Ply.out_name at 1. now rewrite H.
Qed.

Lemma of_array_three (a : option Np.ndarray) (c1 c2 c3 : string) :
  three_columns a = true ->
  exists df, Pd.of_array a [c1; c2; c3] = Ok df.
Proof.
  destruct a as [a|]; cbn; intros H; [rewrite H|]; eauto.
Qed.

Lemma of_array_not_three (a : option Np.ndarray) (c1 c2 c3 : string) :
  three_columns a = false ->
  Pd.of_array a [c1; c2; c3] =
  Err (ValueError "Shape of passed values does not match the columns").
Proof.
  destruct a as [a|]; cbn; intros H; [now rewrite H | discriminate].
Qed.

Section WriterEffects.

Variable native : Np.byteorder.
Variable to_csv : Pd.DataFrame -> string.
Variable concat_columns : Pd.DataFrame -> Pd.DataFrame -> Pd.DataFrame.

#[local] Abbreviation write_ply := (Ply.write_ply native to_csv concat_columns).

(** X15. An array of the wrong width is refused before the file is opened:
    [write_ply] raises [ValueError] and changes no file. *)
Theorem write_ply_wrong_shape (fs : gmap string string) (filename : string)
    (points mesh colors : option Np.ndarray) (as_text : bool) :
  three_columns points && three_columns mesh && three_columns colors = false ->
  exists msg,
    write_ply fs filename points mesh colors as_text = (fs, Err (ValueError msg)).
Proof.
  intros H. eexists. unfold Ply.write_ply.
  destruct (three_columns points) eqn:Hp.
  - destruct (of_array_three points "x" "y" "z" Hp) as [p ->]. cbn [bind].
    destruct (three_columns mesh) eqn:Hm.
    + destruct (of_array_three mesh "v1" "v2" "v3" Hm) as [m ->]. cbn [bind].
      cbn [andb] in H. destruct colors as [c|]; [|discriminate H].
      rewrite (of_array_not_three _ "red" "green" "blue" H). reflexivity.
    + rewrite (of_array_not_three _ "v1" "v2" "v3" Hm). reflexivity.
  - rewrite (of_array_not_three _ "x" "y" "z" Hp). reflexivity.
Qed.

Lemma append_file_lookup (fs : gmap string string) (f data : string) :
  Ply.append_file fs f data !! f = Some (default "" (fs !! f) +:+ data).
Proof. unfold Ply.append_file. apply lookup_insert_eq. Qed.

(** X14. Arrays of the right width: [write_ply] replaces one file. Its result
    and what the file holds afterwards do not depend on what the file
    system held before, and no other file changes. *)
Theorem write_ply_replaces_one_file (filename : string)
    (points mesh colors : option Np.ndarray) (as_text : bool) :
  three_columns points && three_columns mesh && three_columns colors = true ->
  exists (content : string) (r : result bool),
    forall fs : gmap string string,
      let w := write_ply fs filename points mesh colors as_text in
      snd w = r /\
      fst w !! Ply.out_name filename = Some content /\
      forall k, k <> Ply.out_name filename -> fst w !! k = fs !! k.
Proof.
  intros H. apply andb_prop in H as [H Hc]. apply andb_prop in H as [Hp Hm].
  assert (Hother : forall fs k, k <> Ply.out_name filename ->
            fst (write_ply fs filename points mesh colors as_text) !! k = fs !! k).
  { intros fs k Hk. now apply write_ply_other_files. }
  unfold Ply.write_ply in *.
  destruct (of_array_three points "x" "y" "z" Hp) as [p Ep].
  destruct (of_array_three mesh "v1" "v2" "v3" Hm) as [m Em].
  rewrite Ep, Em in *. cbn [bind] in *.
  assert (Ec : exists p', match colors with
                 | Some _ => let* c := Pd.of_array colors ["red"; "green"; "blue"] in
                             Ok (concat_columns p c)
                 | None => Ok p
                 end = Ok p').
  { destruct colors as [c|]; [|eauto].
    destruct (of_array_three (Some c) "red" "green" "blue" Hc) as [cf ->]. cbn. eauto. }
  destruct Ec as [p' Ec]. rewrite Ec in *. cbn [bind] in *. cbv zeta in *.
  destruct (Ply.build_header native as_text (Some p') (Some m)) as [[header msh]|e].
  - destruct as_text.
    + destruct msh as [m'|].
      * eexists _, _. intros fs. cbv zeta. cbn [fst snd]. split; [reflexivity|]. split; [|apply Hother].
        cbn [fst]. rewrite append_file_lookup, append_file_lookup, lookup_insert_eq.
        reflexivity.
      * eexists _, _. intros fs. cbv zeta. cbn [fst snd]. split; [reflexivity|]. split; [|apply Hother].
        cbn [fst]. rewrite append_file_lookup, lookup_insert_eq. reflexivity.
    + destruct (Pd.tofile native p') as [b|e]; cbn [bind] in *.
      * destruct msh as [m'|].
        -- destruct (Pd.tofile native m') as [b'|e]; cbn [bind] in *.
           ++ eexists _, _. intros fs. cbv zeta. cbn [fst snd]. split; [reflexivity|]. split; [|apply Hother].
              cbn [fst]. rewrite append_file_lookup, append_file_lookup, lookup_insert_eq.
              reflexivity.
           ++ eexists _, _. intros fs. cbv zeta. cbn [fst snd]. split; [reflexivity|]. split; [|apply Hother].
              cbn [fst]. rewrite append_file_lookup, lookup_insert_eq. reflexivity.
        -- eexists _, _. intros fs. cbv zeta. cbn [fst snd]. split; [reflexivity|]. split; [|apply Hother].
           cbn [fst]. rewrite append_file_lookup, lookup_insert_eq. reflexivity.
      * eexists _, _. intros fs. cbv zeta. cbn [fst snd]. split; [reflexivity|]. split; [|apply Hother].
        cbn [fst]. rewrite lookup_insert_eq. reflexivity.
  - eexists _, _. intros fs. cbv zeta. cbn [fst snd]. split; [reflexivity|]. split; [|apply Hother].
    cbn [fst]. rewrite lookup_insert_eq. reflexivity.
Qed.

(** X16. The default [points=None] cannot be written: the empty frame made
    of it has object columns, for which [describe_element] knows no type
    word. [write_ply] raises [KeyError] and leaves the file empty. *)
Theorem write_ply_without_points (fs : gmap string string) (filename : string)
    (mesh : option Np.ndarray) (as_text : bool) :
  three_columns mesh = true ->
  write_ply fs filename None mesh None as_text =
  (<[Ply.out_name filename := ""]> fs, Err (KeyError "o")).
Proof.
  intros Hm. unfold Ply.write_ply.
  destruct (of_array_three mesh "v1" "v2" "v3" Hm) as [m Em]. rewrite Em.
  cbn [Pd.of_array bind map]. cbv zeta.
  destruct as_text; reflexivity.
Qed.

End WriterEffects.

Lemma write_ply_wrong_shape_witness :
  exists msg,
    Ply.write_ply Np.Little (fun _ => "") (fun a _ => a) {[ "a.ply" := "old" ]} "a.ply"
      (Some P2) (Some F32) None false =
    ({[ "a.ply" := "old" ]}, Err (ValueError msg)).
Proof.
  exact (write_ply_wrong_shape Np.Little (fun _ => "") (fun a _ => a) {[ "a.ply" := "old" ]}
           "a.ply" (Some P2) (Some F32) None false eq_refl).
Defined.

Lemma write_ply_replaces_one_file_witness :
  exists (content : string) (r : result bool),
    forall fs : gmap string string,
      let w := Ply.write_ply Np.Little (fun _ => "") (fun a _ => a) fs "a.ply"
                 (Some P32) (Some F32) None false in
      snd w = r /\
      fst w !! Ply.out_name "a.ply" = Some content /\
      forall k, k <> Ply.out_name "a.ply" -> fst w !! k = fs !! k.
Proof.
  exact (write_ply_replaces_one_file Np.Little (fun _ => "") (fun a _ => a)
           "a.ply" (Some P32) (Some F32) None false eq_refl).
Defined.

Lemma write_ply_without_points_witness :
  Ply.write_ply Np.Little (fun _ => "") (fun a _ => a) {[ "a.ply" := "old" ]} "a.ply"
    None (Some F32) None true =
  (<[Ply.out_name "a.ply" := ""]> {[ "a.ply" := "old" ]}, Err (KeyError "o")).
Proof.
  exact (write_ply_without_points Np.Little (fun _ => "") (fun a _ => a) {[ "a.ply" := "old" ]}
           "a.ply" (Some F32) true eq_refl).
Defined.

(** ** [describe_element], and the two modes of [write_ply] *)

Lemma take1_dtype_str (d : Np.dtype) : Py.take 1 (Np.dtype_str d) = first_letter d.
Proof. unfold Np.dtype_str, first_letter. destruct (Np.dt_kind d); reflexivity. Qed.

Lemma property_format (d : Np.dtype) :
  Py.getitem Ply.property_formats (first_letter d) =
  of_option (type_word d) (KeyError (first_letter d)).
Proof. unfold first_letter, type_word. destruct (Np.dt_kind d); reflexivity. Qed.

Lemma describe_columns_typed (cols : list (string * Np.dtype)) :
  Forall (fun c => type_word (snd c) <> None) cols ->
  exists props,
    Ply.describe_columns cols = Ok props /\
    map Some props = map property_line cols.
Proof.
  induction 1 as [|[n d] cols Hc _ (props & E & Hp)]; [exists []; split; reflexivity|].
  cbn [snd] in Hc. cbn [Ply.describe_columns].
  rewrite take1_dtype_str, property_format.
  destruct (type_word d) as [w|] eqn:Hw; [|congruence]. cbn [of_option bind].
  rewrite E. cbn [bind]. eexists. split; [reflexivity|].
  cbn [map]. unfold property_line at 1. cbn [fst snd]. rewrite Hw. cbn [option_map].
  now rewrite Hp.
Qed.

Lemma describe_columns_untyped (pre : list (string * Np.dtype)) (c : string * Np.dtype)
    (post : list (string * Np.dtype)) :
  Forall (fun c => type_word (snd c) <> None) pre ->
  type_word (snd c) = None ->
  Ply.describe_columns (pre ++ c :: post) = Err (KeyError (first_letter (snd c))).
Proof.
  intros Hpre Hc. induction Hpre as [|[n d] pre Hd _ IH].
  - destruct c as [n d]. cbn [app Ply.describe_columns snd] in *.
    rewrite take1_dtype_str, property_format, Hc. reflexivity.
  - cbn [snd] in Hd. cbn [app Ply.describe_columns].
    rewrite take1_dtype_str, property_format.
    destruct (type_word d) as [w|]; [|congruence]. cbn [of_option bind].
    rewrite IH. reflexivity.
Qed.

(** X13. [describe_element]. For a face element the description is the count
    line and one fixed list property, whatever the columns are. For any
    other element there is one property line per column, whose type word
    depends on the kind of the column's dtype alone, not on its width
    (float for float16 to float64, int for every signed and uchar for
    every unsigned integer); the first column of another kind (bool,
    object) raises [KeyError] with the first letter of its dtype. *)
Theorem describe_element_by_kind (name : string) (df : Pd.DataFrame) :
  let element := "element " +:+ name +:+ " " +:+ Py.str (Pd.len df) in
  (name = "face" ->
   Ply.describe_element name df = Ok [element; "property list uchar int vertex_indices"]) /\
  (name <> "face" ->
   (Forall (fun c => type_word (snd c) <> None) (Pd.columns df) ->
    exists props,
      Ply.describe_element name df = Ok (element :: props) /\
      map Some props = map property_line (Pd.columns df)) /\
   (forall pre c post,
      Pd.columns df = (pre ++ c :: post)%list ->
      Forall (fun c => type_word (snd c) <> None) pre ->
      type_word (snd c) = None ->
      Ply.describe_element name df = Err (KeyError (first_letter (snd c))))).
Proof.
  intros element. split.
  - intros ->. reflexivity.
  - intros Hn. apply String.eqb_neq in Hn. unfold Ply.describe_element. rewrite Hn. split.
    + intros Hc. destruct (describe_columns_typed _ Hc) as (props & -> & Hp).
      exists props. split; [reflexivity | exact Hp].
    + intros pre c post -> Hpre Hc.
      now rewrite (describe_columns_untyped pre c post Hpre Hc).
Qed.

Lemma ascii_header_lines (n m : Z) :
  0 <= n -> 0 <= m ->
  Forall (fun l => all_chars not_newline l = true) (ascii_header n m).
Proof.
  intros Hn Hm. unfold ascii_header.
  repeat constructor; try reflexivity;
    rewrite all_chars_app; apply andb_true_iff; (split; [reflexivity|]);
    now apply str_no_newline.
Qed.

(** The text header [write_ply] wrote, as [read_ply] parses it. *)
Lemma read_ascii_header (n m : Z) (payload : string) :
  0 <= n -> 0 <= m ->
  exists h,
    Ply.read_header (Ply.header_text (ascii_header n m) +:+ payload) = Ok h /\
    Ply.h_fmt h = "ascii" /\
    Ply.count (Ply.h_locals h) = 9 /\
    Ply.points_size (Ply.h_locals h) = Some n /\
    Ply.mesh_size (Ply.h_locals h) = Some m /\
    Ply.dtypes_get (Ply.dtypes (Ply.h_locals h)) "vertex" =
      [("x", "f4"); ("y", "f4"); ("z", "f4")] /\
    Ply.dtypes_get (Ply.dtypes (Ply.h_locals h)) "face" =
      [("n_points", "u1"); ("v1", "i4"); ("v2", "i4"); ("v3", "i4")].
Proof.
  intros Hn Hm. unfold Ply.read_header.
  rewrite readlines_header by now apply ascii_header_lines.
  unfold ascii_header. cbn [map app hd tl].
  change (negb (Py.contains "ply" ("ply" +:+ Ply.nl))) with false. cbv iota.
  change (Py.index (Py.split ("format ascii 1.0" +:+ Ply.nl)) 1) with (Ok "ascii" : result string).
  cbn [bind]. change (Py.decode "ascii") with (Ok "ascii" : result string). cbn [bind].
  change (Py.getitem Ply.valid_formats "ascii") with (Ok "" : result string).
  cbn [bind Ply.header_loop].
  rewrite (append_assoc "element vertex " (Py.str n) Ply.nl).
  rewrite element_vertex_line by exact Hn. cbn [bind fst snd Ply.continues existsb].
  rewrite (str_not_end_header n Hn).
  change (String.eqb "end_header" "element") with false.
  change (String.eqb "end_header" "vertex") with false. cbn [orb negb].
  do 3 (eval_header_line; cbn [bind fst snd]; eval_continues; cbv iota).
  cbn [Ply.bump Ply.dtypes Ply.count Ply.points_size Ply.mesh_size Ply.name].
  rewrite (append_assoc "element face " (Py.str m) Ply.nl).
  rewrite element_face_line by exact Hm. cbn [bind fst snd Ply.continues existsb].
  rewrite (str_not_end_header m Hm).
  change (String.eqb "end_header" "element") with false.
  change (String.eqb "end_header" "face") with false. cbn [orb negb].
  do 2 (eval_header_line; cbn [bind fst snd]; eval_continues; cbv iota).
  eexists. split; [reflexivity|].
  cbn [Ply.h_fmt Ply.h_ext Ply.h_locals Ply.h_end Ply.bump Ply.dtypes Ply.count
       Ply.points_size Ply.mesh_size Ply.name].
  repeat split; vm_compute; reflexivity.
Qed.

Section WriterModes.

Variable native : Np.byteorder.
Variable read_csv : string -> Z -> Z -> Pd.usecols -> list string -> result Pd.DataFrame.
Variable astype : string -> string -> Pd.DataFrame -> result Pd.DataFrame.
Variable to_csv : Pd.DataFrame -> string.
Variable concat_columns : Pd.DataFrame -> Pd.DataFrame -> Pd.DataFrame.

#[local] Abbreviation write_ply := (Ply.write_ply native to_csv concat_columns).

Lemma typed_not_object (d : Np.dtype) :
  type_word d <> None -> Np.kind_eqb (Np.dt_kind d) Np.KO = false.
Proof. unfold type_word. destruct (Np.dt_kind d); cbn; congruence. Qed.

(** X17. In binary mode the default [mesh=None] cannot be written either: the
    header (with its face element) and the points are written, then
    [tofile] refuses the object columns of the empty mesh frame. *)
Theorem write_ply_binary_without_mesh (fs : gmap string string) (filename : string)
    (P : Np.ndarray) :
  Np.nd_ncols P = 3%nat ->
  type_word (Np.nd_dtype P) <> None ->
  let w := write_ply fs filename (Some P) None None false in
  (exists msg, snd w = Err (IOError msg)) /\
  exists header,
    fst w !! Ply.out_name filename =
    Some (Ply.header_text header +:+
          block native (map (fun n => (n, Np.nd_dtype P)) ["x"; "y"; "z"]) (Np.nd_rows P)).
Proof.
  intros Hc Ht w.
  destruct (describe_columns_typed
              [("x", Np.nd_dtype P); ("y", Np.nd_dtype P); ("z", Np.nd_dtype P)])
    as (props & Ep & _); [repeat constructor; exact Ht|].
  assert (E : exists header,
    w = (Ply.append_file
           (<[Ply.out_name filename := Ply.header_text header]>
              (<[Ply.out_name filename := ""]> fs))
           (Ply.out_name filename)
           (block native (map (fun n => (n, Np.nd_dtype P)) ["x"; "y"; "z"]) (Np.nd_rows P)),
         Err (IOError "cannot write object arrays to a file in binary mode"))).
  { unfold w, Ply.write_ply.
    cbn [Pd.of_array]. rewrite Hc. cbn [Nat.eqb length bind map]. cbv zeta.
    unfold Ply.build_header.
    unfold Ply.describe_element at 1.
    change (String.eqb "vertex" "face") with false. cbv iota.
    cbn [Pd.columns]. rewrite Ep. cbn [bind].
    cbn [Pd.insert0 Pd.names Pd.columns Pd.rows map existsb String.eqb Ascii.eqb Bool.eqb fst orb].
    cbn [bind Pd.astype_int Pd.names Pd.columns Pd.rows map existsb String.eqb Ascii.eqb Bool.eqb
         fst orb Pd.map_at].
    cbn [bind Ply.describe_element String.eqb Ascii.eqb Bool.eqb fst snd].
    unfold Pd.tofile at 1. cbn [Pd.columns existsb snd].
    rewrite (typed_not_object _ Ht). cbn [orb bind Pd.rows].
    unfold Pd.tofile. cbn [Pd.columns existsb snd Np.dt_kind Np.uint8 Np.object Np.kind_eqb orb].
    eexists. reflexivity. }
  destruct E as [header ->]. cbn [fst snd]. split; [eexists; reflexivity|].
  exists header. rewrite append_file_lookup, lookup_insert_eq. reflexivity.
Qed.

(** What a text file holds: the header, the points and the faces with
    their count column, as [to_csv] prints them. *)
Lemma write_text_file fs filename (P F : Np.ndarray) :
  Np.dt_kind (Np.nd_dtype P) = Np.Kf -> Np.nd_ncols P = 3%nat -> Np.nd_ncols F = 3%nat ->
  write_ply fs filename (Some P) (Some F) None true =
  (Ply.append_file
     (Ply.append_file
        (<[Ply.out_name filename :=
             Ply.header_text (ascii_header (Z.of_nat (length (Np.nd_rows P)))
                                           (Z.of_nat (length (Np.nd_rows F))))]>
           (<[Ply.out_name filename := ""]> fs))
        (Ply.out_name filename) (to_csv (points_frame P)))
     (Ply.out_name filename) (to_csv (face_frame F)),
   Ok true).
Proof.
  intros Hk HcP HcF.
  assert (A2 : Pd.of_array (Some F) ["v1"; "v2"; "v3"] =
               Ok (Pd.Frame (mesh_columns F) (Np.nd_rows F))).
  { unfold Pd.of_array. rewrite HcF. reflexivity. }
  pose proof (face_frame_built F _ A2) as A3.
  assert (A4 : Ply.describe_element "vertex" (points_frame P) =
               Ok ["element vertex " +:+ Py.str (Z.of_nat (length (Np.nd_rows P)));
                   "property float x"; "property float y"; "property float z"]).
  { unfold Ply.describe_element, points_frame, Pd.len.
    change (String.eqb "vertex" "face") with false. cbv iota.
    cbn [Pd.columns Pd.rows map Ply.describe_columns].
    rewrite !take1_dtype_str, !property_format. unfold type_word. rewrite Hk. reflexivity. }
  assert (A5 : Ply.describe_element "face" (face_frame F) =
               Ok ["element face " +:+ Py.str (Z.of_nat (length (Np.nd_rows F)));
                   "property list uchar int vertex_indices"]).
  { unfold Ply.describe_element, Pd.len, face_frame. cbn [Pd.rows].
    rewrite length_map. reflexivity. }
  unfold Ply.write_ply. rewrite A2. cbn [Pd.of_array]. rewrite HcP.
  cbn [Nat.eqb length bind]. cbv zeta.
  fold (points_frame P).
  unfold Ply.build_header. rewrite A4. cbn [bind].
  destruct (Pd.insert0 "n_points" 3 _) as [m1|e]; cbn [bind] in A3 |- *; [|discriminate A3].
  rewrite A3. cbn [bind]. rewrite A5. cbn [bind fst snd]. reflexivity.
Qed.

(** X12. A text file read back. [write_ply] in text mode returns True, and
    [read_ply] reads its file with two calls of [read_csv]: the points
    from the rows after the nine header lines, leaving out the rows of
    the faces at the foot, and the faces from the rows after the points,
    leaving out the count column; the columns are cast to float32 and to
    int32 whatever the types written were. *)
Theorem text_file_read_back (fs : gmap string string) (filename : string) (P F : Np.ndarray) :
  Np.dt_kind (Np.nd_dtype P) = Np.Kf -> Np.nd_ncols P = 3%nat -> Np.nd_ncols F = 3%nat ->
  let n := Z.of_nat (length (Np.nd_rows P)) in
  let m := Z.of_nat (length (Np.nd_rows F)) in
  let content :=
    Ply.header_text (ascii_header n m) +:+ to_csv (points_frame P) +:+ to_csv (face_frame F) in
  let w := write_ply fs filename (Some P) (Some F) None true in
  snd w = Ok true /\
  fst w !! Ply.out_name filename = Some content /\
  Ply.read_ply native read_csv astype (fst w) (Ply.out_name filename) =
  (let* pts := read_csv content 9 m (Pd.ByName ["x"; "y"; "z"]) ["x"; "y"; "z"] in
   let* pts := Ply.astype_loop astype (Pd.names pts) 0 0
                 [("x", "f4"); ("y", "f4"); ("z", "f4")] pts in
   let* msh := read_csv content (9 + n) 0 (Pd.ByPos [1; 2; 3]) ["v1"; "v2"; "v3"] in
   let* msh := Ply.astype_loop astype (Pd.names msh) 0 1
                 [("n_points", "u1"); ("v1", "i4"); ("v2", "i4"); ("v3", "i4")] msh in
   Ok (<["mesh" := msh]> (<["points" := pts]> ∅))).
Proof.
  intros Hk HcP HcF n m content w.
  assert (Hf : fst w !! Ply.out_name filename = Some content).
  { unfold w. rewrite (write_text_file fs filename P F Hk HcP HcF). cbn [fst].
    rewrite !append_file_lookup, lookup_insert_eq. cbn [default]. unfold id, content.
    now rewrite append_assoc. }
  split; [unfold w; now rewrite (write_text_file fs filename P F Hk HcP HcF)|].
  split; [exact Hf|].
  unfold Ply.read_ply. rewrite Hf. cbn [of_option bind].
  destruct (read_ascii_header n m (to_csv (points_frame P) +:+ to_csv (face_frame F)))
    as (h & Hh & Hfmt & Hcnt & Hps & Hms & Hv & Hfc); [unfold n; lia | unfold m; lia |].
  unfold content. rewrite Hh. cbn [bind]. rewrite Hfmt.
  change (String.eqb "ascii" "ascii") with true. cbv iota.
  unfold Ply.read_ascii. rewrite Hcnt, Hps, Hms, Hv, Hfc. cbn [map fst tl of_option bind].
  reflexivity.
Qed.

End WriterModes.

Lemma write_ply_binary_without_mesh_witness :
  let w := Ply.write_ply Np.Little (fun _ => "") (fun a _ => a) ∅ "a.ply"
             (Some P32) None None false in
  (exists msg, snd w = Err (IOError msg)) /\
  exists header,
    fst w !! Ply.out_name "a.ply" =
    Some (Ply.header_text header +:+
          block Np.Little (map (fun n => (n, Np.nd_dtype P32)) ["x"; "y"; "z"]) (Np.nd_rows P32)).
Proof.
  refine (write_ply_binary_without_mesh Np.Little (fun _ => "") (fun a _ => a) ∅ "a.ply"
            P32 eq_refl _).
  discriminate.
Defined.

(** A float64 vertex and an int64 face in text mode. *)
Lemma text_file_read_back_witness :
  let w := Ply.write_ply Np.Little (fun _ => "") (fun a _ => a) ∅ "a.ply"
             (Some P64) (Some F64) None true in
  snd w = Ok true /\
  fst w !! "a.ply" = Some (Ply.header_text (ascii_header 1 1)) /\
  is_Ok (Ply.read_ply Np.Little toy_read_csv toy_astype (fst w) "a.ply").
Proof.
  destruct (text_file_read_back Np.Little toy_read_csv toy_astype (fun _ => "") (fun a _ => a)
              ∅ "a.ply" P64 F64 eq_refl eq_refl eq_refl) as (H1 & H2 & H3).
  split; [exact H1|]. split; [exact H2|].
  change (Ply.out_name "a.ply") with "a.ply" in H3. rewrite H3.
  eexists. vm_compute. reflexivity.
Defined.

(** ** The OBJ file written, and read back *)

Lemma zip_length {A B} (a : list A) (b : list B) :
  length (Obj.zip a b) = Nat.min (length a) (length b).
Proof.
  revert b. induction a as [|x a IH]; intros [|y b]; cbn; try reflexivity. now rewrite IH.
Qed.

Lemma join_cons (x : string) (l : list string) : Obj.join (x :: l) = x +:+ Obj.join l.
Proof. reflexivity. Qed.

Lemma join_app (a b : list string) : Obj.join (a ++ b) = Obj.join a +:+ Obj.join b.
Proof.
  induction a as [|x a IH]; [reflexivity|].
  cbn [app]. now rewrite !join_cons, IH, append_assoc.
Qed.

Section ObjFile.

Variable float : Type.
Variable format_f : float -> string.
Variable float_max float_min : float -> float -> float.
Variable gt_one lt_zero : float -> bool.

#[local] Abbreviation write_obj :=
  (Obj.write_obj float format_f float_max float_min gt_one lt_zero).

(** The outcome of a call with a texture coordinate to look at. *)
Lemma write_obj_outcome (w : Obj.world) (obj_path : string)
    (v_arr : list (float * float * float)) (vt_arr : list (float * float))
    (tri_v_arr tri_t_arr : nat) (av at_ : Obj.index_array) :
  Obj.heap w !! tri_v_arr = Some av ->
  Obj.heap w !! tri_t_arr = Some at_ ->
  vt_arr <> [] ->
  exists h',
    write_obj w obj_path v_arr vt_arr tri_v_arr tri_t_arr =
    (Obj.World h'
       (<[obj_path := obj_text format_f v_arr vt_arr av at_]> (Obj.files w))
       (Obj.stdout w ++
        (if out_of_range float_max float_min gt_one lt_zero vt_arr
         then ["Error: the uv values should be ranged between 0 and 1"] else []))%list,
     Ok tt).
Proof.
  intros Hv Ht Hvt.
  set (h := Obj.heap w) in *.
  set (l1 := fresh (dom h)).
  set (h1 := <[l1 := av]> h).
  set (l2 := fresh (dom h1)).
  set (h2 := <[l2 := at_]> h1).
  assert (F1 : h !! l1 = None) by (apply not_elem_of_dom, is_fresh).
  assert (F2 : h1 !! l2 = None) by (apply not_elem_of_dom, is_fresh).
  assert (N12 : l1 <> l2).
  { intros E. unfold h1 in F2. rewrite <- E, lookup_insert_eq in F2. discriminate. }
  assert (Nt1 : tri_t_arr <> l1) by congruence.
  assert (C1 : Obj.np_copy h tri_v_arr = Ok (h1, l1)).
  { unfold Obj.np_copy. rewrite Hv. reflexivity. }
  assert (C2 : Obj.np_copy h1 tri_t_arr = Ok (h2, l2)).
  { unfold Obj.np_copy, h1 at 1. rewrite lookup_insert_ne by congruence. rewrite Ht. reflexivity. }
  assert (Hwarn :
    (let* hi := Obj.reduce float float_max vt_arr in
     if gt_one hi then Ok true
     else let* lo := Obj.reduce float float_min vt_arr in Ok (lt_zero lo)) =
    Ok (out_of_range float_max float_min gt_one lt_zero vt_arr)).
  { unfold Obj.reduce, out_of_range.
    destruct (Obj.flatten2 float vt_arr) as [|x r] eqn:E.
    - destruct vt_arr as [|p vt]; [congruence | discriminate E].
    - cbn [bind]. destruct (gt_one (fold_left float_max r x)); reflexivity. }
  set (h3 := <[l1 := Obj.add_one av]> h2).
  set (h4 := <[l2 := Obj.add_one at_]> h3).
  assert (I1 : Obj.iadd_one h2 l1 = h3).
  { unfold Obj.iadd_one, h2, h1. rewrite lookup_insert_ne by congruence.
    rewrite lookup_insert_eq. reflexivity. }
  assert (I2 : Obj.iadd_one h3 l2 = h4).
  { unfold Obj.iadd_one, h3, h2. rewrite lookup_insert_ne by congruence.
    rewrite lookup_insert_eq. reflexivity. }
  assert (G1 : h4 !! l1 = Some (Obj.add_one av)).
  { unfold h4, h3. rewrite lookup_insert_ne by congruence. apply lookup_insert_eq. }
  assert (G2 : h4 !! l2 = Some (Obj.add_one at_)).
  { unfold h4. apply lookup_insert_eq. }
  exists h4. unfold Obj.write_obj. fold h. rewrite C1, C2, Hwarn. cbv zeta.
  rewrite I1, I2, G1, G2. unfold obj_text. rewrite <- !append_assoc.
  destruct (out_of_range _ _ _ _ _); [reflexivity|]. now rewrite app_nil_r.
Qed.

(** X19. The file [write_obj] writes: the material line, a line per vertex, a
    line per texture coordinate and a line per face, of which there are as
    many as the shorter of the two index arrays has rows. Values out of
    the range 0..1 only add a message to the standard output; the file is
    the same and the call returns. *)
Theorem write_obj_file_layout (w : Obj.world) (obj_path : string)
    (v_arr : list (float * float * float)) (vt_arr : list (float * float))
    (tri_v_arr tri_t_arr : nat) (av at_ : Obj.index_array) :
  Obj.heap w !! tri_v_arr = Some av ->
  Obj.heap w !! tri_t_arr = Some at_ ->
  vt_arr <> [] ->
  let r := write_obj w obj_path v_arr vt_arr tri_v_arr tri_t_arr in
  let faces := Obj.face_lines (Obj.add_one av) (Obj.add_one at_) in
  snd r = Ok tt /\
  Obj.files (fst r) =
    <[obj_path :=
        Obj.join (("mtllib test.mtl" +:+ Obj.nl)
                  :: map (Obj.vertex_line float format_f) v_arr
                  ++ map (Obj.texture_line float format_f) vt_arr
                  ++ faces)]> (Obj.files w) /\
  length faces = Nat.min (length (Obj.ix_rows av)) (length (Obj.ix_rows at_)) /\
  Obj.stdout (fst r) =
    (Obj.stdout w ++
     (if out_of_range float_max float_min gt_one lt_zero vt_arr
      then ["Error: the uv values should be ranged between 0 and 1"] else []))%list.
Proof.
  intros Hv Ht Hvt r faces.
  destruct (write_obj_outcome w obj_path v_arr vt_arr _ _ av at_ Hv Ht Hvt) as [h' E].
  unfold r. rewrite E. cbn [fst snd Obj.files Obj.stdout].
  split; [reflexivity|]. split; [|split; [|reflexivity]].
  - f_equal. unfold obj_text, faces.
    now rewrite join_cons, !join_app, append_assoc.
  - unfold faces, Obj.face_lines. rewrite length_map, zip_length.
    unfold Obj.add_one. cbn [Obj.ix_rows]. now rewrite !length_map.
Qed.

(** X20. With no texture coordinate there is no maximum to take: [write_obj]
    raises [ValueError] before it opens the file, so no file and no
    output is written. *)
Theorem write_obj_without_texture (w : Obj.world) (obj_path : string)
    (v_arr : list (float * float * float)) (tri_v_arr tri_t_arr : nat) :
  is_Some (Obj.heap w !! tri_v_arr) ->
  is_Some (Obj.heap w !! tri_t_arr) ->
  let r := write_obj w obj_path v_arr [] tri_v_arr tri_t_arr in
  (exists msg, snd r = Err (ValueError msg)) /\
  Obj.files (fst r) = Obj.files w /\
  Obj.stdout (fst r) = Obj.stdout w.
Proof.
  intros [av Hv] [at_ Ht] r. unfold r, Obj.write_obj, Obj.np_copy.
  rewrite Hv. cbn [of_option bind].
  assert (Hn : tri_t_arr <> fresh (dom (Obj.heap w))).
  { intros E. pose proof (is_fresh (dom (Obj.heap w))) as Hf.
    apply not_elem_of_dom in Hf. congruence. }
  rewrite lookup_insert_ne by congruence. rewrite Ht. cbn [of_option bind].
  cbn. split; [eexists; reflexivity|]. split; reflexivity.
Qed.

End ObjFile.


(** ** Reading back what [write_obj] wrote *)

Lemma visible_in_line (c : ascii) : visible c = true -> in_line c = true.
Proof.
  unfold visible, in_line, Py.code. intros H. apply andb_prop in H as [H1 H2].
  apply N.ltb_lt in H1, H2.
  destruct (Ascii.eqb_spec c "013") as [->|_]; [cbn in H1; lia|].
  destruct (Ascii.eqb_spec c "010") as [->|_]; [cbn in H1; lia|].
  rewrite !andb_true_r. apply N.ltb_lt. lia.
Qed.

Lemma visible_no_blank (c : ascii) : visible c = true -> no_blank c = true.
Proof.
  unfold visible, no_blank, Py.code. intros H. apply andb_prop in H as [H1 _].
  apply N.ltb_lt in H1.
  destruct (Ascii.eqb_spec c " ") as [->|_]; [cbn in H1; lia | reflexivity].
Qed.

Lemma in_line_not_newline (c : ascii) : in_line c = true -> not_newline c = true.
Proof. unfold in_line, not_newline. intros H. now apply andb_prop in H as [_ H]. Qed.

Lemma digit_visible (c : ascii) : Py.is_digit c = true -> visible c = true.
Proof.
  unfold Py.is_digit, visible. intros H. apply andb_prop in H as [H1 H2].
  apply N.leb_le in H1, H2. apply andb_true_intro. split; apply N.ltb_lt; lia.
Qed.

(** [str(z)] is a sign and digits. *)
Lemma str_visible (z : Z) : all_chars visible (Py.str z) = true.
Proof.
  unfold Py.str.
  assert (Hu : forall d, all_chars visible (NilZero.string_of_uint d) = true).
  { intros d. unfold NilZero.string_of_uint.
    destruct d; try reflexivity;
      apply (all_chars_weaken Py.is_digit visible _ digit_visible);
      apply (uint_digits (_ d)). }
  destruct (Z.to_int z) as [d|d]; cbn [NilZero.string_of_int]; [apply Hu|].
  cbn [all_chars]. rewrite Hu. reflexivity.
Qed.

Lemma utf8_ok_ascii (s : string) :
  all_chars (fun c => (Py.code c <? 128)%N) s = true -> Py.utf8_ok s 0 0 0 = true.
Proof.
  induction s as [|c s IH]; [reflexivity|]. cbn [all_chars Py.utf8_ok].
  intros H. apply andb_prop in H as [H1 H2]. rewrite H1. now apply IH.
Qed.

Lemma universal_newlines_id (s : string) :
  all_chars (fun c => negb (Ascii.eqb c "013")) s = true -> Obj.universal_newlines s = s.
Proof.
  induction s as [|c s IH]; [reflexivity|]. cbn [all_chars Obj.universal_newlines].
  intros H. apply andb_prop in H as [H1 H2]. apply negb_true_iff in H1. rewrite H1.
  now rewrite IH.
Qed.

Lemma all_chars_join (p : ascii -> bool) (ls : list string) :
  Forall (fun l => all_chars p l = true) ls -> all_chars p (Obj.join ls) = true.
Proof.
  induction 1 as [|l ls Hl _ IH]; [reflexivity|].
  rewrite join_cons, all_chars_app, Hl, IH. reflexivity.
Qed.

Lemma readlines_lines (ls : list string) :
  Forall is_line ls -> Py.readlines (Obj.join ls) = ls.
Proof.
  induction 1 as [|l ls (body & -> & Hb) _ IH]; [reflexivity|].
  rewrite join_cons, append_assoc, readlines_line, IH; [reflexivity|].
  apply (all_chars_weaken in_line not_newline _ in_line_not_newline), Hb.
Qed.

Lemma lines_text (ls : list string) :
  Forall is_line ls ->
  Py.utf8_ok (Obj.join ls) 0 0 0 = true /\ Obj.universal_newlines (Obj.join ls) = Obj.join ls.
Proof.
  intros H.
  assert (Hc : Forall (fun l => all_chars (fun c => (Py.code c <? 128)%N &&
                                              negb (Ascii.eqb c "013")) l = true) ls).
  { eapply List.Forall_impl; [|exact H]. intros l (body & -> & Hb).
    rewrite all_chars_app. apply andb_true_intro. split; [|reflexivity].
    eapply all_chars_weaken; [|exact Hb]. intros c Hc. unfold in_line in Hc.
    now apply andb_prop in Hc as [Hc _]. }
  apply all_chars_join in Hc. split.
  - apply utf8_ok_ascii. eapply all_chars_weaken; [|exact Hc].
    intros c H1. now apply andb_prop in H1 as [H1 _].
  - apply universal_newlines_id. eapply all_chars_weaken; [|exact Hc].
    intros c H1. now apply andb_prop in H1 as [_ H1].
Qed.

Lemma split_on_field (s rest : string) :
  forall cur,
    all_chars no_blank s = true ->
    Py.split_on_aux " " (s +:+ String " " rest) cur =
    (string_of_list_ascii (rev cur) +:+ s) :: Py.split_on_aux " " rest [].
Proof.
  induction s as [|c s IH]; intros cur H.
  - cbn. now rewrite append_nil_r.
  - cbn [all_chars] in H. apply andb_prop in H as [Hc Hs].
    unfold no_blank in Hc. apply negb_true_iff in Hc.
    change ((String c s) +:+ String " " rest) with (String c (s +:+ String " " rest)).
    cbn [Py.split_on_aux]. rewrite Hc, IH by exact Hs.
    now rewrite of_list_snoc.
Qed.

Lemma split_on_last (s : string) :
  forall cur,
    all_chars no_blank s = true ->
    Py.split_on_aux " " s cur = [string_of_list_ascii (rev cur) +:+ s].
Proof.
  induction s as [|c s IH]; intros cur H.
  - cbn. now rewrite append_nil_r.
  - cbn [all_chars] in H. apply andb_prop in H as [Hc Hs].
    unfold no_blank in Hc. apply negb_true_iff in Hc.
    cbn [Py.split_on_aux]. rewrite Hc, IH by exact Hs.
    now rewrite of_list_snoc.
Qed.

Section ObjRoundTrip.

Variable float : Type.
Variable format_f : float -> string.
Variable float_of_str : string -> option float.
Variable float_max float_min : float -> float -> float.
Variable gt_one lt_zero : float -> bool.

(** What ["%f" % x] prints has no blank in it, and [float] reads it back,
    also with the newline that ends a line, as the number [reread x]. *)
Variable reread : float -> float.
Hypothesis format_visible : forall x, all_chars visible (format_f x) = true.
Hypothesis float_of_format : forall x, float_of_str (format_f x) = Some (reread x).
Hypothesis float_of_format_nl :
  forall x, float_of_str (format_f x +:+ Obj.nl) = Some (reread x).

Lemma format_no_blank x : all_chars no_blank (format_f x) = true.
Proof. apply (all_chars_weaken visible no_blank _ visible_no_blank), format_visible. Qed.

Lemma format_in_line x : all_chars in_line (format_f x) = true.
Proof. apply (all_chars_weaken visible in_line _ visible_in_line), format_visible. Qed.

Lemma str_in_line z : all_chars in_line (Py.str z) = true.
Proof. apply (all_chars_weaken visible in_line _ visible_in_line), str_visible. Qed.

Lemma vertex_line_is_line p : is_line (Obj.vertex_line float format_f p).
Proof.
  destruct p as [[x y] z].
  exists ("v " +:+ format_f x +:+ " " +:+ format_f y +:+ " " +:+ format_f z). split.
  - unfold Obj.vertex_line. change Obj.nl with Ply.nl. now rewrite !append_assoc.
  - rewrite !all_chars_app, !format_in_line. reflexivity.
Qed.

Lemma texture_line_is_line p : is_line (Obj.texture_line float format_f p).
Proof.
  exists ("vt " +:+ format_f (fst p) +:+ " " +:+ format_f (snd p)). split.
  - unfold Obj.texture_line. change Obj.nl with Ply.nl. now rewrite !append_assoc.
  - rewrite !all_chars_app, !format_in_line. reflexivity.
Qed.

Lemma face_line_is_line v t : is_line (Obj.face_line v t).
Proof.
  destruct v as [[v1 v2] v3], t as [[t1 t2] t3].
  exists ("f " +:+ Py.str v1 +:+ "/" +:+ Py.str t1 +:+ "/" +:+ Py.str t1 +:+ " "
               +:+ Py.str v2 +:+ "/" +:+ Py.str t2 +:+ "/" +:+ Py.str t2 +:+ " "
               +:+ Py.str v3 +:+ "/" +:+ Py.str t3 +:+ "/" +:+ Py.str t3). split.
  - unfold Obj.face_line. change Obj.nl with Ply.nl. now rewrite !append_assoc.
  - rewrite !all_chars_app, !str_in_line. reflexivity.
Qed.

Lemma read_lines_app (l1 l2 : list string) :
  forall acc,
    Obj.read_lines float float_of_str (l1 ++ l2) acc =
    let* a := Obj.read_lines float float_of_str l1 acc in
    Obj.read_lines float float_of_str l2 a.
Proof.
  induction l1 as [|l l1 IH]; intros acc; [reflexivity|].
  cbn [app Obj.read_lines]. destruct (Py.startswith l "v "); [|apply IH].
  destruct (Obj.float_at float float_of_str _ 0) as [x|e]; [|reflexivity]. cbn [bind].
  destruct (Obj.float_at float float_of_str _ 1) as [y|e]; [|reflexivity]. cbn [bind].
  destruct (Obj.float_at float float_of_str _ 2) as [z|e]; [|reflexivity]. cbn [bind].
  apply IH.
Qed.

Lemma read_lines_skip (ls : list string) :
  forall acc,
    Forall (fun l => Py.startswith l "v " = false) ls ->
    Obj.read_lines float float_of_str ls acc = Ok acc.
Proof.
  induction ls as [|l ls IH]; intros acc H; [reflexivity|].
  inversion H as [|? ? Hl Hls]; subst. cbn [Obj.read_lines]. rewrite Hl. now apply IH.
Qed.

Lemma vertex_line_fields (x y z : float) :
  Py.split_on " " (Obj.vertex_line float format_f (x, y, z)) =
  ["v"; format_f x; format_f y; format_f z +:+ Obj.nl].
Proof.
  unfold Obj.vertex_line, Py.split_on.
  change ("v " +:+ format_f x +:+ " " +:+ format_f y +:+ " " +:+ format_f z +:+ Obj.nl)
    with (String "v" (String " " (format_f x +:+ String " "
            (format_f y +:+ String " " (format_f z +:+ Obj.nl))))).
  cbn [Py.split_on_aux Ascii.eqb Bool.eqb rev app string_of_list_ascii].
  rewrite split_on_field by apply format_no_blank.
  rewrite split_on_field by apply format_no_blank.
  rewrite split_on_last.
  - reflexivity.
  - rewrite all_chars_app, format_no_blank. reflexivity.
Qed.

Lemma read_lines_vertices (v_arr : list (float * float * float)) :
  forall acc,
    Obj.read_lines float float_of_str (map (Obj.vertex_line float format_f) v_arr) acc =
    Ok (acc ++ map (reread3 reread) v_arr)%list.
Proof.
  induction v_arr as [|[[x y] z] v_arr IH]; intros acc.
  - cbn. now rewrite app_nil_r.
  - cbn [map Obj.read_lines].
    assert (Hs : Py.startswith (Obj.vertex_line float format_f (x, y, z)) "v " = true).
    { unfold Obj.vertex_line, Py.startswith. cbn. now destruct (format_f x +:+ _). }
    rewrite Hs, vertex_line_fields. cbn [tl].
    unfold Obj.float_at, Py.index. cbn [nth_error of_option bind].
    rewrite !float_of_format, float_of_format_nl. cbn [of_option bind].
    rewrite IH, <- app_assoc. reflexivity.
Qed.

(** X21. What [write_obj] wrote, [read_obj] reads back: the vertices, each
    number as [float] reads what ["%f"] printed of it, in an N x 3 array
    (of shape (0,) when there is no vertex); the texture coordinates and
    the faces are passed over. *)
Theorem write_obj_read_obj (w : Obj.world) (obj_path : string)
    (v_arr : list (float * float * float)) (vt_arr : list (float * float))
    (tri_v_arr tri_t_arr : nat) :
  is_Some (Obj.heap w !! tri_v_arr) ->
  is_Some (Obj.heap w !! tri_t_arr) ->
  vt_arr <> [] ->
  let w' := fst (Obj.write_obj float format_f float_max float_min gt_one lt_zero
                   w obj_path v_arr vt_arr tri_v_arr tri_t_arr) in
  Obj.read_obj float float_of_str (Obj.files w') obj_path =
  Ok (Obj.np_array (map (reread3 reread) v_arr)).
Proof.
  intros [av Hv] [at_ Ht] Hvt w'.
  destruct (write_obj_outcome float format_f float_max float_min gt_one lt_zero
              w obj_path v_arr vt_arr _ _ av at_ Hv Ht Hvt) as [h' E].
  unfold w'. rewrite E. cbn [fst Obj.files].
  unfold Obj.read_obj. rewrite lookup_insert_eq. cbn [of_option bind].
  set (faces := Obj.face_lines (Obj.add_one av) (Obj.add_one at_)).
  set (ls := (("mtllib test.mtl" +:+ Obj.nl)
              :: map (Obj.vertex_line float format_f) v_arr
              ++ map (Obj.texture_line float format_f) vt_arr
              ++ faces)%list).
  assert (Et : obj_text format_f v_arr vt_arr av at_ = Obj.join ls).
  { unfold obj_text, ls. fold faces. now rewrite join_cons, !join_app, append_assoc. }
  assert (Hls : Forall is_line ls).
  { unfold ls. constructor; [exists "mtllib test.mtl"; split; reflexivity|].
    apply Forall_app. split; [|apply Forall_app; split].
    - apply List.Forall_forall. intros l Hl. apply in_map_iff in Hl as (p & <- & _).
      apply vertex_line_is_line.
    - apply List.Forall_forall. intros l Hl. apply in_map_iff in Hl as (p & <- & _).
      apply texture_line_is_line.
    - apply List.Forall_forall. intros l Hl. unfold faces, Obj.face_lines in Hl.
      apply in_map_iff in Hl as (p & <- & _). apply face_line_is_line. }
  rewrite Et. destruct (lines_text ls Hls) as [Hu Hn].
  unfold Py.decode. rewrite Hu. cbn [bind]. rewrite Hn, (readlines_lines ls Hls).
  unfold ls.
  assert (Hskip : forall acc,
            Obj.read_lines float float_of_str
              (map (Obj.texture_line float format_f) vt_arr ++ faces) acc = Ok acc).
  { intros acc. apply read_lines_skip, Forall_app. split.
    - apply List.Forall_forall. intros l Hl. apply in_map_iff in Hl as (p & <- & _).
      reflexivity.
    - apply List.Forall_forall. intros l Hl. unfold faces, Obj.face_lines in Hl.
      apply in_map_iff in Hl as ([[[v1 v2] v3] [[t1 t2] t3]] & <- & _). reflexivity. }
  cbn [Obj.read_lines].
  change (Py.startswith ("mtllib test.mtl" +:+ Obj.nl) "v ") with false. cbv iota.
  rewrite read_lines_app, read_lines_vertices. cbn [bind app].
  rewrite Hskip. reflexivity.
Qed.

End ObjRoundTrip.

(** ** The face line in the file *)

Lemma nth_error_middle {A} (l : list A) (i : nat) (x : A) :
  nth_error l i = Some x -> exists l1 l2, l = (l1 ++ x :: l2)%list.
Proof.
  revert i. induction l as [|y l IH]; intros [|i] H; try discriminate.
  - injection H as ->. now exists [], l.
  - destruct (IH i H) as (l1 & l2 & ->). now exists (y :: l1), l2.
Qed.

(** Lines that end with a newline, put together, end with a newline. *)
Lemma join_ends_with_newline (ls : list string) :
  Forall (fun l => exists body, l = body +:+ Obj.nl) ls ->
  Obj.join ls = "" \/ exists body, Obj.join ls = body +:+ Obj.nl.
Proof.
  induction 1 as [|l ls (body & ->) _ IH]; [now left|]. right.
  rewrite join_cons. destruct IH as [->|(p & ->)].
  - exists body. now rewrite append_nil_r.
  - exists ((body +:+ Obj.nl) +:+ p). now rewrite !append_assoc.
Qed.

Section ObjFaces.

Variable float : Type.
Variable format_f : float -> string.
Variable float_max float_min : float -> float -> float.
Variable gt_one lt_zero : float -> bool.

#[local] Abbreviation write_obj :=
  (Obj.write_obj float format_f float_max float_min gt_one lt_zero).

Lemma vertex_line_ends (p : float * float * float) :
  exists body, Obj.vertex_line float format_f p = body +:+ Obj.nl.
Proof.
  destruct p as [[x y] z].
  exists ("v " +:+ format_f x +:+ " " +:+ format_f y +:+ " " +:+ format_f z).
  unfold Obj.vertex_line. now rewrite !append_assoc.
Qed.

Lemma texture_line_ends (p : float * float) :
  exists body, Obj.texture_line float format_f p = body +:+ Obj.nl.
Proof.
  exists ("vt " +:+ format_f (fst p) +:+ " " +:+ format_f (snd p)).
  unfold Obj.texture_line. now rewrite !append_assoc.
Qed.

Lemma face_line_ends (v t : Z * Z * Z) : exists body, Obj.face_line v t = body +:+ Obj.nl.
Proof.
  destruct v as [[v1 v2] v3], t as [[t1 t2] t3].
  exists ("f " +:+ Py.str v1 +:+ "/" +:+ Py.str t1 +:+ "/" +:+ Py.str t1 +:+ " "
               +:+ Py.str v2 +:+ "/" +:+ Py.str t2 +:+ "/" +:+ Py.str t2 +:+ " "
               +:+ Py.str v3 +:+ "/" +:+ Py.str t3 +:+ "/" +:+ Py.str t3).
  unfold Obj.face_line. now rewrite !append_assoc.
Qed.

(** The fields of a face line, as the blanks part them. *)
Lemma face_line_fields (v1 v2 v3 t1 t2 t3 : Z) :
  Py.split_on " " (Obj.face_line (v1, v2, v3) (t1, t2, t3)) =
  [ "f";
    Py.str v1 +:+ "/" +:+ Py.str t1 +:+ "/" +:+ Py.str t1;
    Py.str v2 +:+ "/" +:+ Py.str t2 +:+ "/" +:+ Py.str t2;
    Py.str v3 +:+ "/" +:+ Py.str t3 +:+ "/" +:+ Py.str t3 +:+ Obj.nl ].
Proof.
  assert (Hs : forall z, all_chars no_blank (Py.str z) = true).
  { intros z. apply (all_chars_weaken visible no_blank _ visible_no_blank), str_visible. }
  assert (Hf : forall a b c, all_chars no_blank (Py.str a +:+ "/" +:+ Py.str b +:+ "/" +:+ Py.str c)
                             = true).
  { intros a b c. rewrite !all_chars_app, !Hs. reflexivity. }
  unfold Obj.face_line, Py.split_on.
  change ("f " +:+ Py.str v1 +:+ "/" +:+ Py.str t1 +:+ "/" +:+ Py.str t1 +:+ " "
               +:+ Py.str v2 +:+ "/" +:+ Py.str t2 +:+ "/" +:+ Py.str t2 +:+ " "
               +:+ Py.str v3 +:+ "/" +:+ Py.str t3 +:+ "/" +:+ Py.str t3 +:+ Obj.nl)
    with (String "f" (String " "
            (Py.str v1 +:+ "/" +:+ Py.str t1 +:+ "/" +:+ Py.str t1 +:+ String " "
               (Py.str v2 +:+ "/" +:+ Py.str t2 +:+ "/" +:+ Py.str t2 +:+ String " "
                  (Py.str v3 +:+ "/" +:+ Py.str t3 +:+ "/" +:+ Py.str t3 +:+ Obj.nl))))).
  cbn [Py.split_on_aux Ascii.eqb Bool.eqb rev app string_of_list_ascii].
  replace (Py.str v1 +:+ "/" +:+ Py.str t1 +:+ "/" +:+ Py.str t1 +:+ String " "
             (Py.str v2 +:+ "/" +:+ Py.str t2 +:+ "/" +:+ Py.str t2 +:+ String " "
                (Py.str v3 +:+ "/" +:+ Py.str t3 +:+ "/" +:+ Py.str t3 +:+ Obj.nl)))
    with ((Py.str v1 +:+ "/" +:+ Py.str t1 +:+ "/" +:+ Py.str t1) +:+ String " "
             ((Py.str v2 +:+ "/" +:+ Py.str t2 +:+ "/" +:+ Py.str t2) +:+ String " "
                ((Py.str v3 +:+ "/" +:+ Py.str t3 +:+ "/" +:+ Py.str t3) +:+ Obj.nl)))
    by (now rewrite !append_assoc).
  rewrite split_on_field by apply Hf.
  rewrite split_on_field by apply Hf.
  rewrite split_on_last.
  - cbn [rev string_of_list_ascii].
    change (fun s : string => EmptyString +:+ s) with (fun s : string => s).
    repeat (f_equal; try (rewrite !append_assoc; reflexivity)).
  - rewrite all_chars_app, Hf. reflexivity.
Qed.

(** The text of the file around one of its face lines: what comes before
    ends with a newline. *)
Lemma obj_text_around_face (v_arr : list (float * float * float))
    (vt_arr : list (float * float)) (av at_ : Obj.index_array) (i : nat) (line : string) :
  nth_error (Obj.face_lines (Obj.add_one av) (Obj.add_one at_)) i = Some line ->
  exists pre after,
    obj_text format_f v_arr vt_arr av at_ = pre +:+ Obj.nl +:+ line +:+ after.
Proof.
  intros Hi. destruct (nth_error_middle _ _ _ Hi) as (l1 & l2 & Hf).
  assert (Hl1 : Forall (fun l => exists body, l = body +:+ Obj.nl) l1).
  { apply List.Forall_forall. intros l Hl.
    assert (Hin : In l (Obj.face_lines (Obj.add_one av) (Obj.add_one at_)))
      by (rewrite Hf; apply in_or_app; now left).
    unfold Obj.face_lines in Hin. apply in_map_iff in Hin as (p & <- & _).
    apply face_line_ends. }
  assert (Hall : Forall (fun l => exists body, l = body +:+ Obj.nl)
                   (map (Obj.vertex_line float format_f) v_arr ++
                    map (Obj.texture_line float format_f) vt_arr ++ l1)).
  { apply Forall_app. split; [|apply Forall_app; split; [|exact Hl1]].
    - apply List.Forall_forall. intros l Hl. apply in_map_iff in Hl as (p & <- & _).
      apply vertex_line_ends.
    - apply List.Forall_forall. intros l Hl. apply in_map_iff in Hl as (p & <- & _).
      apply texture_line_ends. }
  assert (Et : obj_text format_f v_arr vt_arr av at_ =
               "mtllib test.mtl" +:+ Obj.nl +:+
               Obj.join (map (Obj.vertex_line float format_f) v_arr ++
                         map (Obj.texture_line float format_f) vt_arr ++ l1) +:+
               line +:+ Obj.join l2).
  { unfold obj_text. rewrite Hf, !join_app, join_cons, !append_assoc. reflexivity. }
  rewrite Et. destruct (join_ends_with_newline _ Hall) as [->|(body & ->)].
  - exists "mtllib test.mtl", (Obj.join l2). reflexivity.
  - exists ("mtllib test.mtl" +:+ Obj.nl +:+ body), (Obj.join l2).
    now rewrite !append_assoc.
Qed.

(** C7. No array the caller holds is changed by [write_obj], its two
    index arrays among them. And if row [i] of the vertex-index array
    holds 0 in slot [k] (the texture-index array has a row [i] too, and
    there is a texture coordinate), [write_obj] succeeds; the file holds,
    on a line of its own, the face line of the two rows moved to 1-based
    indices, whose field for slot [k] starts with the index 1; it ends
    with the face lines of the two arrays, of which that line is the
    [i]-th. *)
Theorem write_obj_shifts_private_copies :
  (forall (w : Obj.world) (obj_path : string)
          (v_arr : list (float * float * float)) (vt_arr : list (float * float))
          (tri_v_arr tri_t_arr : nat) (l : nat) (a : Obj.index_array),
     Obj.heap w !! l = Some a ->
     Obj.heap (fst (write_obj w obj_path v_arr vt_arr tri_v_arr tri_t_arr)) !! l = Some a) /\
  (forall (w : Obj.world) (obj_path : string)
          (v_arr : list (float * float * float)) (vt_arr : list (float * float))
          (tri_v_arr tri_t_arr : nat) (av at_ : Obj.index_array)
          (i k : nat) (v t : Z * Z * Z),
     Obj.heap w !! tri_v_arr = Some av ->
     Obj.heap w !! tri_t_arr = Some at_ ->
     vt_arr <> [] ->
     nth_error (Obj.ix_rows av) i = Some v ->
     nth_error (Obj.ix_rows at_) i = Some t ->
     (k < 3)%nat ->
     slot k v = 0 ->
     exists w' before pre after,
       write_obj w obj_path v_arr vt_arr tri_v_arr tri_t_arr = (w', Ok tt) /\
       Obj.files w' !! obj_path =
         Some (pre +:+ Obj.nl +:+
               Obj.face_line (one_based (Obj.ix_dtype av) v) (one_based (Obj.ix_dtype at_) t) +:+
               after) /\
       (exists rest,
          nth_error
            (Py.split_on " "
               (Obj.face_line (one_based (Obj.ix_dtype av) v) (one_based (Obj.ix_dtype at_) t)))
            (S k) = Some ("1/" +:+ rest)) /\
       Obj.files w' !! obj_path =
         Some (before +:+ Obj.join (Obj.face_lines (Obj.add_one av) (Obj.add_one at_))) /\
       nth_error (Obj.face_lines (Obj.add_one av) (Obj.add_one at_)) i =
         Some (Obj.face_line (one_based (Obj.ix_dtype av) v) (one_based (Obj.ix_dtype at_) t)) /\
       slot k (one_based (Obj.ix_dtype av) v) = 1 /\
       Py.str (slot k (one_based (Obj.ix_dtype av) v)) = "1" /\
       Obj.heap w' !! tri_v_arr = Some av /\
       Obj.heap w' !! tri_t_arr = Some at_ /\
       (forall l a, Obj.heap w !! l = Some a -> Obj.heap w' !! l = Some a)).
Proof.
  split; [apply write_obj_frame|].
  intros w obj_path v_arr vt_arr tri_v_arr tri_t_arr av at_ i k v t Hv Ht Hvt Hi Hj Hk Hz.
  destruct (write_obj_face_line float format_f float_max float_min gt_one lt_zero
              w obj_path v_arr vt_arr tri_v_arr tri_t_arr av at_ i k v t
              Hv Ht Hvt Hi Hj Hk Hz)
    as (w' & before & H1 & H2 & H3 & H4 & H5 & H6 & H7 & H8).
  destruct (write_obj_outcome float format_f float_max float_min gt_one lt_zero
              w obj_path v_arr vt_arr tri_v_arr tri_t_arr av at_ Hv Ht Hvt) as [h' E].
  destruct (obj_text_around_face v_arr vt_arr av at_ i _ H3) as (pre & after & Et).
  exists w', before, pre, after.
  split; [exact H1|]. split.
  - rewrite H1 in E. injection E as ->. cbn [Obj.files].
    rewrite lookup_insert_eq, Et. reflexivity.
  - split; [|repeat split; assumption].
    clear - H5 Hk.
    destruct (one_based (Obj.ix_dtype av) v) as [[v1 v2] v3].
    destruct (one_based (Obj.ix_dtype at_) t) as [[t1 t2] t3].
    rewrite face_line_fields.
    destruct k as [|[|[|k]]]; [| | |lia]; cbn [slot] in H5; cbn [nth_error];
      rewrite H5; eexists; reflexivity.
Qed.

End ObjFaces.

(** One face (0, 1, 2), passed as both index arrays, and one texture
    coordinate: the file written, and the caller's array afterwards. *)
Lemma write_obj_shifts_private_copies_witness :
  let a := Obj.IndexArray Obj.I64 [(0, 1, 2)] in
  let w := Obj.World {[ 7%nat := a ]} ∅ [] in
  let r := Obj.write_obj string (fun x => x) (fun x _ => x) (fun x _ => x)
             (fun _ => false) (fun _ => false) w "m.obj" [] [("0.5", "0.5")] 7 7 in
  snd r = Ok tt /\
  Obj.heap (fst r) !! 7%nat = Some a /\
  Obj.files (fst r) !! "m.obj" =
    Some ("mtllib test.mtl" +:+ Obj.nl +:+ "vt 0.5 0.5" +:+ Obj.nl +:+
          "f 1/1/1 2/2/2 3/3/3" +:+ Obj.nl) /\
  exists pre after,
    Obj.files (fst r) !! "m.obj" =
      Some (pre +:+ Obj.nl +:+ ("f 1/1/1 2/2/2 3/3/3" +:+ Obj.nl) +:+ after).
Proof.
  intros a w r.
  destruct (proj2 (write_obj_shifts_private_copies string (fun x => x) (fun x _ => x)
                     (fun x _ => x) (fun _ => false) (fun _ => false))
              w "m.obj" [] [("0.5", "0.5")] 7%nat 7%nat a a
              0%nat 0%nat (0, 1, 2) (0, 1, 2) eq_refl eq_refl
              (fun E => eq_ind [("0.5", "0.5")]
                 (fun l => match l with [] => False | _ => True end) I [] E)
              eq_refl eq_refl (le_n_S _ _ (Nat.le_0_l 2)) eq_refl)
    as (w' & before & pre & after & H1 & H2 & _ & _ & _ & _ & _ & H6 & _).
  fold r in H1. rewrite H1. cbn [fst snd].
  split; [reflexivity|]. split; [exact H6|]. split.
  - destruct (write_obj_outcome string (fun x => x) (fun x _ => x) (fun x _ => x)
                (fun _ => false) (fun _ => false) w "m.obj" [] [("0.5", "0.5")] 7%nat 7%nat a a
                eq_refl eq_refl ltac:(discriminate)) as [h' E].
    fold r in E. rewrite H1 in E. injection E as ->. cbn [Obj.files].
    rewrite lookup_insert_eq. reflexivity.
  - exists pre, after. exact H2.
Defined.

(** Two faces and one row of texture indices: one face line. *)
Lemma write_obj_file_layout_witness :
  let av := Obj.IndexArray Obj.I64 [(0, 1, 2); (2, 1, 0)] in
  let at_ := Obj.IndexArray Obj.I64 [(0, 0, 0)] in
  let w := Obj.World {[ 1%nat := av; 2%nat := at_ ]} ∅ [] in
  let r := Obj.write_obj bool toy_format orb andb (fun _ => false) (fun _ => false)
             w "m.obj" [(true, false, true)] [(false, true)] 1 2 in
  snd r = Ok tt /\
  Obj.files (fst r) =
    {[ "m.obj" :=
       "mtllib test.mtl" +:+ Obj.nl +:+ "v 1.000000 0.000000 1.000000" +:+ Obj.nl +:+
       "vt 0.000000 1.000000" +:+ Obj.nl +:+ "f 1/1/1 2/1/1 3/1/1" +:+ Obj.nl ]} /\
  Obj.stdout (fst r) = [].
Proof.
  intros av at_ w r.
  destruct (write_obj_file_layout bool toy_format orb andb (fun _ => false) (fun _ => false)
              w "m.obj" [(true, false, true)] [(false, true)] 1%nat 2%nat av at_
              eq_refl eq_refl ltac:(discriminate)) as (H1 & H2 & _ & H4).
  unfold r. rewrite H2, H4.
  split; [exact H1|]. split; [vm_compute; reflexivity | reflexivity].
Defined.

Lemma write_obj_without_texture_witness :
  let a := Obj.IndexArray Obj.I64 [(0, 1, 2)] in
  let w := Obj.World {[ 7%nat := a ]} {[ "m.obj" := "old" ]} [] in
  let r := Obj.write_obj bool toy_format orb andb (fun _ => false) (fun _ => false)
             w "m.obj" [(true, false, true)] [] 7 7 in
  (exists msg, snd r = Err (ValueError msg)) /\
  Obj.files (fst r) = {[ "m.obj" := "old" ]} /\
  Obj.stdout (fst r) = [].
Proof.
  intros a w.
  exact (write_obj_without_texture bool toy_format orb andb (fun _ => false) (fun _ => false)
           w "m.obj" [(true, false, true)] 7%nat 7%nat
           (ex_intro _ a eq_refl) (ex_intro _ a eq_refl)).
Defined.

Lemma write_obj_read_obj_witness :
  let a := Obj.IndexArray Obj.I64 [(0, 1, 2)] in
  let w := Obj.World {[ 7%nat := a ]} ∅ [] in
  let w' := fst (Obj.write_obj bool toy_format orb andb (fun _ => false) (fun _ => false)
                   w "m.obj" [(true, false, true); (false, false, true)] [(false, true)] 7 7) in
  Obj.read_obj bool toy_float (Obj.files w') "m.obj" =
  Ok (Obj.VertexArray [2%nat; 3%nat] [(true, false, true); (false, false, true)]).
Proof.
  intros a w.
  refine (write_obj_read_obj bool toy_format toy_float orb andb (fun _ => false) (fun _ => false)
            (fun x => x) _ _ _ w "m.obj" [(true, false, true); (false, false, true)]
            [(false, true)] 7%nat 7%nat
            (ex_intro _ a eq_refl) (ex_intro _ a eq_refl) _).
  - intros []; reflexivity.
  - intros []; reflexivity.
  - intros []; reflexivity.
  - discriminate.
Defined.

(** ** Binary files as they are read *)

Lemma drop_count_cells (rows : list (list Z)) :
  Forall (row_ok face_columns) rows ->
  Pd.drop "n_points" (Pd.Frame face_columns rows) =
  Ok (Pd.Frame [("v1", Np.int32); ("v2", Np.int32); ("v3", Np.int32)] (map (@tl Z) rows)).
Proof.
  intros H. unfold Pd.drop. cbn [Pd.names Pd.columns Pd.rows face_columns map fst existsb].
  change (String.eqb "n_points" "n_points") with true. cbn [orb]. f_equal. f_equal.
  apply map_ext_in. intros r Hr. rewrite List.Forall_forall in H. specialize (H r Hr).
  unfold row_ok, face_columns in H.
  repeat match goal with
         | H : Forall2 _ (_ :: _) _ |- _ => inversion H; subst; clear H
         | H : Forall2 _ [] _ |- _ => inversion H; subst; clear H
         end.
  reflexivity.
Qed.




Section BinaryFiles.

Variable native : Np.byteorder.
Variable read_csv : string -> Z -> Z -> Pd.usecols -> list string -> result Pd.DataFrame.
Variable astype : string -> string -> Pd.DataFrame -> result Pd.DataFrame.

Lemma native_face_spec :
  Np.dtype_of_list native
    [("n_points", Ply.sys_byteorder native +:+ "u1"); ("v1", Ply.sys_byteorder native +:+ "i4");
     ("v2", Ply.sys_byteorder native +:+ "i4"); ("v3", Ply.sys_byteorder native +:+ "i4")]
  = Ok (fields_of native face_columns).
Proof. destruct native; reflexivity. Qed.

Lemma native_point_spec :
  Np.dtype_of_list native
    [("x", Ply.sys_byteorder native +:+ "f4"); ("y", Ply.sys_byteorder native +:+ "f4");
     ("z", Ply.sys_byteorder native +:+ "f4")]
  = Ok (fields_of native point_columns).
Proof. destruct native; reflexivity. Qed.

Lemma read_native_file (fs : gmap string string) (filename : string)
    (points faces : list (list Z)) (trailing : string) :
  Forall (row_ok point_columns) points ->
  Forall (row_ok face_columns) faces ->
  fs !! filename =
    Some (Ply.header_text (binary_header native (Z.of_nat (length points))
                                                (Z.of_nat (length faces))) +:+
          block native point_columns points +:+
          block native face_columns faces +:+ trailing) ->
  Ply.read_ply native read_csv astype fs filename =
  Ok (<["mesh" := Pd.Frame [("v1", Np.int32); ("v2", Np.int32); ("v3", Np.int32)]
                           (map (@tl Z) faces)]>
        (<["points" := Pd.Frame point_columns points]> ∅)).
Proof.
  intros HP HF Hfile.
  set (n := Z.of_nat (length points)) in *.
  set (m := Z.of_nat (length faces)) in *.
  destruct (read_binary_header native n m
              (block native point_columns points +:+ block native face_columns faces +:+ trailing))
    as (h & Hh & Hfmt & Hext & Hps & Hms & Hv & Hf & Hend); [subst n; lia | subst m; lia |].
  unfold Ply.read_ply. rewrite Hfile. cbn [of_option bind]. rewrite Hh. cbn [bind].
  rewrite Hfmt. unfold Ply.read_binary. rewrite Hend, drop_app, Hv, Hps, Hext, Hms.
  destruct (fromfile_block native native _ point_columns points
              (block native face_columns faces +:+ trailing) native_point_spec)
    as (pa & Ep & _ & Fp); [discriminate | exact HP |].
  fold n in Ep. rewrite Ep. cbn [bind fst snd]. rewrite native_is_not_foreign, Fp.
  rewrite Hf.
  destruct (fromfile_block native native _ face_columns faces trailing native_face_spec)
    as (ma & Em & _ & Fm); [discriminate | exact HF |].
  fold m in Em. rewrite Em. cbn [bind fst snd]. rewrite native_is_not_foreign, Fm.
  rewrite (drop_count_cells faces HF). reflexivity.
Qed.

(** X4. A binary file of the machine's byte order, read. The records are
    taken as the header counts them; the count byte in front of each face
    is dropped without being looked at, and bytes after the last face are
    not read. *)
Theorem binary_file_read (fs : gmap string string) (filename : string)
    (points faces : list (list Z)) (trailing : string) :
  Forall (row_ok point_columns) points ->
  Forall (row_ok face_columns) faces ->
  fs !! filename =
    Some (Ply.header_text (binary_header native (Z.of_nat (length points))
                                                (Z.of_nat (length faces))) +:+
          block native point_columns points +:+
          block native face_columns faces +:+ trailing) ->
  Ply.read_ply native read_csv astype fs filename =
  Ok (<["mesh" := Pd.Frame [("v1", Np.int32); ("v2", Np.int32); ("v3", Np.int32)]
                           (map (@tl Z) faces)]>
        (<["points" := Pd.Frame point_columns points]> ∅)).
Proof. apply read_native_file. Qed.


End BinaryFiles.

(** One vertex and one face whose count byte says 4, before three bytes
    that belong to nothing. *)
Lemma binary_file_read_witness :
  Ply.read_ply Np.Little toy_read_csv toy_astype
    {[ "q.ply" :=
       Ply.header_text (binary_header Np.Little 1 1) +:+
       block Np.Little point_columns [[1065353216; 1073741824; 1077936128]] +:+
       block Np.Little face_columns [[4; 0; 1; 2]] +:+ "xyz" ]} "q.ply" =
  Ok (<["mesh" := Pd.Frame [("v1", Np.int32); ("v2", Np.int32); ("v3", Np.int32)] [[0; 1; 2]]]>
        (<["points" := Pd.Frame point_columns [[1065353216; 1073741824; 1077936128]]]> ∅)).
Proof.
  refine (binary_file_read Np.Little toy_read_csv toy_astype _ "q.ply"
            [[1065353216; 1073741824; 1077936128]] [[4; 0; 1; 2]] "xyz" _ _
            (lookup_singleton_eq _ _));
    repeat constructor; cbv; congruence.
Defined.


(** ** Files written on one machine, read on another *)

Section Portable.

Variable read_csv : string -> Z -> Z -> Pd.usecols -> list string -> result Pd.DataFrame.
Variable astype : string -> string -> Pd.DataFrame -> result Pd.DataFrame.
Variable to_csv : Pd.DataFrame -> string.
Variable concat_columns : Pd.DataFrame -> Pd.DataFrame -> Pd.DataFrame.

Lemma read_ply_any_order (n1 n2 : Np.byteorder) (fs : gmap string string) (filename : string) :
  Ply.read_ply n1 read_csv astype fs filename = Ply.read_ply n2 read_csv astype fs filename.
Proof.
  pose proof (read_ply_little_big read_csv astype fs filename) as H.
  destruct n1, n2; congruence.
Qed.

(** X2. Files travel between machines. float32 points and int32 faces
    written in binary mode on a machine of one byte order are read on a
    machine of either byte order as the tables that were written. *)
Theorem roundtrip_across_byte_orders (writer reader : Np.byteorder)
    (fs : gmap string string) (filename : string) (P F : Np.ndarray) :
  float32_points P ->
  int32_mesh F ->
  let w := Ply.write_ply writer to_csv concat_columns fs filename (Some P) (Some F) None false in
  snd w = Ok true /\
  Ply.read_ply reader read_csv astype (fst w) (Ply.out_name filename) =
  Ok (<["mesh" := Pd.Frame [("v1", Np.int32); ("v2", Np.int32); ("v3", Np.int32)] (Np.nd_rows F)]>
        (<["points" := Pd.Frame [("x", Np.float32); ("y", Np.float32); ("z", Np.float32)]
                                (Np.nd_rows P)]> ∅)).
Proof.
  intros HP HF w.
  destruct (write_binary_file writer to_csv concat_columns fs filename P F HP HF)
    as [Hres Hfile]. fold w in Hres, Hfile.
  split; [exact Hres|].
  rewrite (read_ply_any_order reader writer).
  pose proof HP as (_ & _ & HrP). pose proof HF as (HdF & _ & _).
  assert (Hcols : ("n_points", Np.uint8) :: mesh_columns F = face_columns).
  { unfold mesh_columns, face_columns. rewrite HdF. reflexivity. }
  pose proof (face_rows_ok F HF) as HrF. rewrite Hcols in HrF.
  rewrite (read_native_file writer read_csv astype (fst w) (Ply.out_name filename)
             (Np.nd_rows P) (map (cons 3) (Np.nd_rows F)) "").
  - rewrite map_map. cbn [tl]. rewrite map_id. reflexivity.
  - now apply rows_ok_of_range.
  - exact HrF.
  - rewrite Hfile, length_map, append_nil_r, face_block_is_block, Hcols. reflexivity.
Qed.

End Portable.

(** Written on a little-endian machine, read on a big-endian one. *)
Lemma roundtrip_across_byte_orders_witness :
  let w := Ply.write_ply Np.Little (fun _ => "") (fun a _ => a) ∅ "a.ply"
             (Some P32) (Some F32) None false in
  snd w = Ok true /\
  Ply.read_ply Np.Big toy_read_csv toy_astype (fst w) (Ply.out_name "a.ply") =
  Ok (<["mesh" := Pd.Frame [("v1", Np.int32); ("v2", Np.int32); ("v3", Np.int32)]
                           (Np.nd_rows F32)]>
        (<["points" := Pd.Frame [("x", Np.float32); ("y", Np.float32); ("z", Np.float32)]
                                (Np.nd_rows P32)]> ∅)).
Proof.
  exact (roundtrip_across_byte_orders toy_read_csv toy_astype (fun _ => "") (fun a _ => a)
           Np.Little Np.Big ∅ "a.ply" P32 F32
           (proj1 test_arrays_in_range) (proj2 test_arrays_in_range)).
Defined.

(** ** A header that never ends *)







Section NeverEnds.

Variable native : Np.byteorder.
Variable read_csv : string -> Z -> Z -> Pd.usecols -> list string -> result Pd.DataFrame.
Variable astype : string -> string -> Pd.DataFrame -> result Pd.DataFrame.

#[local] Abbreviation read_ply := (Ply.read_ply native read_csv astype).




End NeverEnds.


